(** * The data-access layer of the inventory application (lib/db.ts)

    A shallow embedding of the lazily initialised singleton client, the
    query facade ([db.all], [db.get], [db.run]) and the transaction
    coordinator ([db.transaction]), followed by the properties the
    design document states about them.

    The storage engine behind [@libsql/client] and [bcrypt] are external
    to the file: the layer is embedded over an arbitrary engine (class
    [Platform], section [DataAccessLayer]); a model of the SQLite engine
    is supplied to state what the layer's statements do to the stored
    rows.  Two readings of the asynchronous code are given: a
    run-to-completion reading of one call ([getInitializedClient],
    [db_all], [db_transaction], ...) and an event loop in which callers
    interleave at every [await] ([step], [run]); lemma
    [lone_caller_agrees] relates them. *)

From Stdlib Require Import String Ascii List ZArith Bool Arith Lia PrimFloat.
Import ListNotations.
Open Scope string_scope.

(** ** Values crossing the engine boundary *)

(** [SqlParams] of the source:
    [Array<null | string | number | Uint8Array | bigint | boolean>]. *)
Inductive SqlValue : Type :=
| VNull
| VString (s : string)
| VNumber (x : float)
| VBytes (b : list Byte.byte)
| VBigint (z : Z)
| VBoolean (b : bool).

Definition SqlParams := list SqlValue.

(** What [client.execute] is handed: a bare SQL string
    ([client.execute("BEGIN")]) or a text together with its positional
    arguments ([client.execute({ sql, args })] and the two-argument call
    used by the bootstrap). *)
Inductive InStatement : Type :=
| SqlText (sql : string)
| SqlArgs (sql : string) (args : SqlParams).

Definition stmt_sql (s : InStatement) : string :=
  match s with SqlText q => q | SqlArgs q _ => q end.

Definition stmt_args (s : InStatement) : SqlParams :=
  match s with SqlText _ => [] | SqlArgs _ a => a end.

(** A row of named columns and the [ResultSet] of one execution. *)
Definition Row := list (string * SqlValue).

Record ResultSet : Type := mkResultSet { rows : list Row }.

(** Anything JavaScript can throw: an [Error] instance (with its
    [message]) or some other value. *)
Inductive Thrown : Type :=
| ErrorObject (message : string)
| NonError (payload : string).

(** How a call ends: it returns or it throws; for an [async] function,
    how its promise settles. *)
Inductive Outcome (A : Type) : Type :=
| Normal (a : A)
| Throw (e : Thrown).
Arguments Normal {A} a.
Arguments Throw {A} e.

(** [String.prototype.includes]. *)
Fixpoint includes (needle hay : string) : bool :=
  String.prefix needle hay ||
  match hay with
  | EmptyString => false
  | String _ rest => includes needle rest
  end.

(** ** The SQL texts of the bootstrap, as written in the source *)

Definition create_users_sql : string :=
"
    CREATE TABLE IF NOT EXISTS users (
      id          TEXT PRIMARY KEY,
      email       TEXT UNIQUE NOT NULL,
      password    TEXT NOT NULL,
      name        TEXT NOT NULL,
      role        TEXT NOT NULL CHECK(role IN ('admin', 'manager', 'salesgirl'))
    );
  ".

Definition create_products_sql : string :=
"
    CREATE TABLE IF NOT EXISTS products (
      id           TEXT PRIMARY KEY,
      name         TEXT NOT NULL,
      sku          TEXT UNIQUE NOT NULL,
      quantity     INTEGER NOT NULL,
      reorderLevel INTEGER NOT NULL,
      price        REAL NOT NULL,
      cost         REAL NOT NULL,
      category     TEXT NOT NULL
    );
  ".

Definition create_sales_sql : string :=
"
    CREATE TABLE IF NOT EXISTS sales (
      id            TEXT PRIMARY KEY,
      productId     TEXT NOT NULL,
      quantity      INTEGER NOT NULL,
      price         REAL NOT NULL,
      total         REAL NOT NULL,
      date          TEXT NOT NULL,
      salesPersonId TEXT NOT NULL,
      paymentMode   TEXT NOT NULL CHECK(paymentMode IN ('POS', 'transfer', 'cash')),
      FOREIGN KEY (productId)     REFERENCES products(id),
      FOREIGN KEY (salesPersonId) REFERENCES users(id)
    );
  ".

Definition create_expenses_sql : string :=
"
    CREATE TABLE IF NOT EXISTS expenses (
      id          TEXT PRIMARY KEY,
      description TEXT NOT NULL,
      amount      REAL NOT NULL,
      category    TEXT NOT NULL,
      date        TEXT NOT NULL,
      createdBy   TEXT NOT NULL,
      FOREIGN KEY (createdBy) REFERENCES users(id)
    );
  ".

Definition seed_user_sql : string :=
"
      INSERT OR IGNORE INTO users (id, email, password, name, role)
      VALUES (?, ?, ?, ?, ?)
    ".

Definition seed_product_sql : string :=
"
      INSERT OR IGNORE INTO products (id, name, sku, quantity, reorderLevel, price, cost, category)
      VALUES (?, ?, ?, ?, ?, ?, ?, ?)
    ".

(** ** The SQL text of the seeding route *)

(** The statement of the seeding route: every value but the password is
    written in the text. *)
Definition route_seed_sql : string :=
"
      INSERT OR IGNORE INTO users (id, email, password, name, role)
      VALUES ('admin1', 'admin@inventory.com', ?, 'Admin User', 'admin')
    ".

(** ** The storage engine

    The SQL engine behind [@libsql/client] is an external collaborator
    of the layer and no part of the repository.  The layer itself is
    embedded over any engine (class [Platform] below); the model of
    this part is what the statements of the layer mean on SQLite: one
    transaction at most per connection, opened by [BEGIN] and closed by
    [COMMIT] or [ROLLBACK], the engine's "no transaction is active"
    failures, [CREATE TABLE IF NOT EXISTS], and [INSERT OR IGNORE] over
    the uniqueness constraints that the [CREATE TABLE] texts of the
    source declare. *)

Definition is_space (c : ascii) : bool :=
  let n := nat_of_ascii c in
  Nat.eqb n 32 || Nat.eqb n 10 || Nat.eqb n 9 || Nat.eqb n 13.

Definition is_punct (c : ascii) : bool :=
  let n := nat_of_ascii c in
  Nat.eqb n 40 || Nat.eqb n 41 || Nat.eqb n 44 || Nat.eqb n 59 ||
  Nat.eqb n 61 || Nat.eqb n 42 || Nat.eqb n 63.

Definition upper_ascii (c : ascii) : ascii :=
  let n := nat_of_ascii c in
  if Nat.leb 97 n && Nat.leb n 122 then ascii_of_nat (n - 32) else c.

Fixpoint upper (s : string) : string :=
  match s with
  | EmptyString => EmptyString
  | String c rest => String (upper_ascii c) (upper rest)
  end.

Definition flush (cur : string) : list string :=
  match cur with
  | EmptyString => []
  | _ => [cur]
  end.

(** Words and the punctuation marks ( ) , ; = * ? of an SQL text. *)
Fixpoint tokenize (s cur : string) : list string :=
  match s with
  | EmptyString => flush cur
  | String c rest =>
      if is_space c then flush cur ++ tokenize rest EmptyString
      else if is_punct c
           then flush cur ++ String c EmptyString :: tokenize rest EmptyString
           else tokenize rest (cur ++ String c EmptyString)
  end.

(** The transaction-control statements, by their first keyword. *)
Inductive Control : Type := CBegin | CCommit | CRollback.

Definition control_of (sql : string) : option Control :=
  match tokenize sql EmptyString with
  | [] => None
  | t :: _ =>
      let u := upper t in
      if u =? "BEGIN" then Some CBegin
      else if (u =? "COMMIT") || (u =? "END") then Some CCommit
      else if u =? "ROLLBACK" then Some CRollback
      else None
  end.

Definition no_rows : ResultSet := mkResultSet [].

Section Connection.

(** The stored tables and what a statement other than [BEGIN],
    [COMMIT] and [ROLLBACK] does to them. *)
Variable Store : Type.
Variable data_execute : InStatement -> Store -> Outcome ResultSet * Store.

(** One connection: the tables as the connection sees them, and, while
    a transaction is open, the tables as they were at its [BEGIN]. *)
Record Connection : Type := mkConnection {
  current : Store;
  saved : option Store
}.

(** Modelled from the spec: the engine's begin/commit/rollback directives
    (spec, sections 4.4 and 6), missing from the repository.  A
    statement is a transaction-control statement by its first keyword;
    [COMMIT] and [ROLLBACK] fail when no transaction is active, with
    the message SQLite gives; any other statement goes to the tables. *)
Definition sqlite_execute (stmt : InStatement) (conn : Connection)
  : Outcome ResultSet * Connection :=
  match control_of (stmt_sql stmt) with
  | Some CBegin =>
      match saved conn with
      | Some _ =>
          (Throw (ErrorObject
             "SQLITE_ERROR: cannot start a transaction within a transaction"),
           conn)
      | None => (Normal no_rows, mkConnection (current conn) (Some (current conn)))
      end
  | Some CCommit =>
      match saved conn with
      | Some _ => (Normal no_rows, mkConnection (current conn) None)
      | None =>
          (Throw (ErrorObject
             "SQLITE_ERROR: cannot commit - no transaction is active"),
           conn)
      end
  | Some CRollback =>
      match saved conn with
      | Some before => (Normal no_rows, mkConnection before None)
      | None =>
          (Throw (ErrorObject
             "SQLITE_ERROR: cannot rollback - no transaction is active"),
           conn)
      end
  | None =>
      let (o, st') := data_execute stmt (current conn) in
      (o, mkConnection st' (saved conn))
  end.

End Connection.

Arguments mkConnection {Store} current saved.
Arguments current {Store} c.
Arguments saved {Store} c.

(** *** Tables *)

(** The constraints of a table: its columns in order, the columns that
    are [PRIMARY KEY] or [UNIQUE], those that are [NOT NULL], and the
    [CHECK (col IN (...))] constraints. *)
Record Schema : Type := mkSchema {
  s_columns : list string;
  s_unique : list string;
  s_not_null : list string;
  s_checks : list (string * list string)
}.

Record Table : Type := mkTable {
  schema : Schema;
  records : list Row
}.

Definition Store := list (string * Table).

(** The column definitions of the four [CREATE TABLE] texts. *)
Definition users_schema : Schema :=
  mkSchema ["id"; "email"; "password"; "name"; "role"]
           ["id"; "email"]
           ["email"; "password"; "name"; "role"]
           [("role", ["admin"; "manager"; "salesgirl"])].

Definition products_schema : Schema :=
  mkSchema ["id"; "name"; "sku"; "quantity"; "reorderLevel"; "price"; "cost";
            "category"]
           ["id"; "sku"]
           ["name"; "sku"; "quantity"; "reorderLevel"; "price"; "cost";
            "category"]
           [].

Definition sales_schema : Schema :=
  mkSchema ["id"; "productId"; "quantity"; "price"; "total"; "date";
            "salesPersonId"; "paymentMode"]
           ["id"]
           ["productId"; "quantity"; "price"; "total"; "date";
            "salesPersonId"; "paymentMode"]
           [("paymentMode", ["POS"; "transfer"; "cash"])].

Definition expenses_schema : Schema :=
  mkSchema ["id"; "description"; "amount"; "category"; "date"; "createdBy"]
           ["id"]
           ["description"; "amount"; "category"; "date"; "createdBy"]
           [].

Definition catalog (name : string) : option Schema :=
  if name =? "users" then Some users_schema
  else if name =? "products" then Some products_schema
  else if name =? "sales" then Some sales_schema
  else if name =? "expenses" then Some expenses_schema
  else None.

Fixpoint lookup {A} (key : string) (l : list (string * A)) : option A :=
  match l with
  | [] => None
  | (k, a) :: rest => if k =? key then Some a else lookup key rest
  end.

Fixpoint update {A} (key : string) (a : A) (l : list (string * A))
  : list (string * A) :=
  match l with
  | [] => [(key, a)]
  | (k, b) :: rest =>
      if k =? key then (k, a) :: rest else (k, b) :: update key a rest
  end.

(** Equality as a uniqueness constraint and [WHERE col = ?] see it:
    [NULL] equals nothing. *)
Definition sql_eqb (a b : SqlValue) : bool :=
  match a, b with
  | VString x, VString y => (x =? y)%string
  | VNumber x, VNumber y => PrimFloat.eqb x y
  | VBigint x, VBigint y => (x =? y)%Z
  | VBoolean x, VBoolean y => Bool.eqb x y
  | VBytes x, VBytes y =>
      if list_eq_dec Byte.byte_eq_dec x y then true else false
  | _, _ => false
  end.

Definition field (col : string) (r : Row) : SqlValue :=
  match lookup col r with
  | Some v => v
  | None => VNull
  end.

Definition is_null (v : SqlValue) : bool :=
  match v with VNull => true | _ => false end.

(** The parsed forms of the statements the model executes. *)
Inductive SqlCommand : Type :=
| CmdCreateTable (name : string)
| CmdInsert (or_ignore : bool) (table : string) (cols : list string)
            (placeholders : nat)
| CmdSelectAll (table : string)
| CmdSelectWhere (table col : string)
| CmdSelectOne.

(** [kw1 kw2 ...] in front of the tokens, keywords in any case. *)
Fixpoint strip (kws toks : list string) : option (list string) :=
  match kws with
  | [] => Some toks
  | kw :: kws' =>
      match toks with
      | [] => None
      | t :: toks' => if upper t =? kw then strip kws' toks' else None
      end
  end.

(** [item , item , ... )] *)
Fixpoint parse_items (toks : list string) : option (list string * list string) :=
  match toks with
  | item :: sep :: rest =>
      if sep =? ")" then Some ([item], rest)
      else if sep =? "," then
        match parse_items rest with
        | Some (items, rest') => Some (item :: items, rest')
        | None => None
        end
      else None
  | _ => None
  end.

Definition parse_insert (or_ignore : bool) (toks : list string)
  : option SqlCommand :=
  match toks with
  | table :: open :: rest =>
      if open =? "(" then
        match parse_items rest with
        | Some (cols, rest1) =>
            match strip ["VALUES"] rest1 with
            | Some (open2 :: rest2) =>
                if open2 =? "(" then
                  match parse_items rest2 with
                  | Some (marks, _) =>
                      if forallb (fun m => m =? "?") marks
                      then Some (CmdInsert or_ignore table cols (length marks))
                      else None
                  | None => None
                  end
                else None
            | _ => None
            end
        | None => None
        end
      else None
  | _ => None
  end.

Definition parse_select (toks : list string) : option SqlCommand :=
  match toks with
  | [one] => if one =? "1" then Some CmdSelectOne else None
  | [star; from; table] =>
      if (star =? "*") && (upper from =? "FROM")
      then Some (CmdSelectAll table) else None
  | [star; from; table; where_; col; eq; mark] =>
      if (star =? "*") && (upper from =? "FROM") && (upper where_ =? "WHERE")
         && (eq =? "=") && (mark =? "?")
      then Some (CmdSelectWhere table col) else None
  | _ => None
  end.

Definition parse (sql : string) : option SqlCommand :=
  let toks := tokenize sql EmptyString in
  match strip ["CREATE"; "TABLE"; "IF"; "NOT"; "EXISTS"] toks with
  | Some (name :: _) => Some (CmdCreateTable name)
  | Some [] => None
  | None =>
      match strip ["INSERT"; "OR"; "IGNORE"; "INTO"] toks with
      | Some rest => parse_insert true rest
      | None =>
          match strip ["INSERT"; "INTO"] toks with
          | Some rest => parse_insert false rest
          | None =>
              match strip ["SELECT"] toks with
              | Some rest => parse_select rest
              | None => None
              end
          end
      end
  end.

(** The row an [INSERT] builds: the listed columns take the arguments in
    order, the others are [NULL]. *)
Definition build_row (sch : Schema) (cols : list string) (args : SqlParams) : Row :=
  map (fun c => (c, field c (combine cols args))) (s_columns sch).

Definition violates_not_null (sch : Schema) (r : Row) : bool :=
  existsb (fun c => is_null (field c r)) (s_not_null sch).

Definition violates_check (sch : Schema) (r : Row) : bool :=
  existsb
    (fun ck =>
       match field (fst ck) r with
       | VString s => negb (existsb (fun a => a =? s) (snd ck))
       | VNull => false
       | _ => true
       end)
    (s_checks sch).

(** Some stored row carries the same value in a unique column. *)
Definition conflicts (sch : Schema) (r : Row) (stored : list Row) : bool :=
  existsb
    (fun c => existsb (fun old => sql_eqb (field c old) (field c r)) stored)
    (s_unique sch).

Definition sql_error (msg : string) : Thrown := ErrorObject msg.

(** Modelled from the spec: "insert, ignore if conflicting" (spec,
    section 4.2), missing from the repository.  A row that violates a
    constraint of its table is skipped without error under [OR IGNORE]
    and makes a plain [INSERT] fail; in both cases the table is left as
    it was. *)
Definition exec_insert (or_ignore : bool) (table : string) (cols : list string)
    (placeholders : nat) (args : SqlParams) (st : Store)
  : Outcome ResultSet * Store :=
  match lookup table st with
  | None => (Throw (sql_error ("SQLITE_ERROR: no such table: " ++ table)), st)
  | Some t =>
      let sch := schema t in
      if negb (forallb (fun c => existsb (fun c' => c' =? c) (s_columns sch)) cols)
      then (Throw (sql_error ("SQLITE_ERROR: table " ++ table ++ " has no such column")), st)
      else if negb ((length cols =? placeholders)%nat)
      then (Throw (sql_error "SQLITE_ERROR: values do not match the columns"), st)
      else if negb ((length args =? placeholders)%nat)
      then (Throw (sql_error "SQLITE_RANGE: arguments do not match the placeholders"), st)
      else
        let r := build_row sch cols args in
        if violates_not_null sch r || violates_check sch r
           || conflicts sch r (records t)
        then
          if or_ignore then (Normal no_rows, st)
          else (Throw (sql_error ("SQLITE_CONSTRAINT: constraint failed: " ++ table)), st)
        else
          (Normal no_rows, update table (mkTable sch (records t ++ [r])) st)
  end.

(** Modelled from the spec: what the statements other than transaction
    control do to the tables, missing from the repository: "create if
    absent" leaves an existing table alone (spec, section 4.2), a
    [SELECT] returns the matching rows in stored order, and a text the
    model does not know is a syntax error. *)
Definition data_execute (stmt : InStatement) (st : Store)
  : Outcome ResultSet * Store :=
  match parse (stmt_sql stmt) with
  | Some (CmdCreateTable name) =>
      match lookup name st with
      | Some _ => (Normal no_rows, st)
      | None =>
          match catalog name with
          | Some sch => (Normal no_rows, (st ++ [(name, mkTable sch [])])%list)
          | None => (Throw (sql_error "SQLITE_ERROR: unsupported table definition"), st)
          end
      end
  | Some (CmdInsert or_ignore table cols placeholders) =>
      exec_insert or_ignore table cols placeholders (stmt_args stmt) st
  | Some (CmdSelectAll table) =>
      match lookup table st with
      | Some t => (Normal (mkResultSet (records t)), st)
      | None => (Throw (sql_error ("SQLITE_ERROR: no such table: " ++ table)), st)
      end
  | Some (CmdSelectWhere table col) =>
      match lookup table st, stmt_args stmt with
      | Some t, [v] =>
          (Normal (mkResultSet
                     (filter (fun r => sql_eqb (field col r) v) (records t))),
           st)
      | Some _, _ =>
          (Throw (sql_error "SQLITE_RANGE: arguments do not match the placeholders"), st)
      | None, _ =>
          (Throw (sql_error ("SQLITE_ERROR: no such table: " ++ table)), st)
      end
  | Some CmdSelectOne => (Normal (mkResultSet [[("1", VBigint 1)]]), st)
  | None => (Throw (sql_error "SQLITE_ERROR: syntax error"), st)
  end.

(** The number of rows of a table that carry [v] in column [col]. *)
Definition key_count (col : string) (v : SqlValue) (t : Table) : nat :=
  length (filter (fun r => sql_eqb (field col r) v) (records t)).

(** The engine of one connection over these tables. *)
Definition Sqlite : Type := Connection Store.

Definition engine_execute_sqlite : InStatement -> Sqlite -> Outcome ResultSet * Sqlite :=
  sqlite_execute Store data_execute.

(** The two tables that matter to the seeds are in place. *)
Definition seeded (users products : Table) (conn : Sqlite) : Prop :=
  lookup "users" (current conn) = Some users /\
  lookup "products" (current conn) = Some products.

(** ** Process environment and client handle *)

(** [process.env.VERCEL] (undefined or a string) and [process.cwd()]. *)
Record Env : Type := mkEnv {
  VERCEL : option string;
  cwd : string
}.

(** JavaScript truthiness of an environment variable. *)
Definition truthy (v : option string) : bool :=
  match v with
  | None => false
  | Some EmptyString => false
  | Some _ => true
  end.

(** [path.join] of [node:path] on POSIX, for two segments: the
    non-empty segments are joined by "/" and the result is normalised
    -- empty and "." segments are dropped, ".." takes back the segment
    before it, a trailing "/" is kept. *)
Fixpoint split_path (s cur : string) : list string :=
  match s with
  | EmptyString => [cur]
  | String c rest =>
      if Ascii.eqb c "/" then cur :: split_path rest ""
      else split_path rest (cur ++ String c "")
  end.

Fixpoint normalize_segments (allowAboveRoot : bool)
    (segments kept : list string) : list string :=
  match segments with
  | [] => rev kept
  | seg :: rest =>
      if (seg =? "") || (seg =? ".") then
        normalize_segments allowAboveRoot rest kept
      else if seg =? ".." then
        match kept with
        | top :: below =>
            if top =? ".." then
              normalize_segments allowAboveRoot rest (seg :: kept)
            else normalize_segments allowAboveRoot rest below
        | [] =>
            if allowAboveRoot then
              normalize_segments allowAboveRoot rest [seg]
            else normalize_segments allowAboveRoot rest []
        end
      else normalize_segments allowAboveRoot rest (seg :: kept)
  end.

Definition starts_with_slash (s : string) : bool :=
  match s with
  | String c _ => Ascii.eqb c "/"
  | EmptyString => false
  end.

Fixpoint ends_with_slash (s : string) : bool :=
  match s with
  | EmptyString => false
  | String c EmptyString => Ascii.eqb c "/"
  | String _ rest => ends_with_slash rest
  end.

Definition path_normalize (path : string) : string :=
  if path =? "" then "."
  else
    let isAbsolute := starts_with_slash path in
    let trailingSeparator := ends_with_slash path in
    let kept :=
      String.concat "/"
        (normalize_segments (negb isAbsolute) (split_path path "") []) in
    if kept =? "" then
      if isAbsolute then "/" else if trailingSeparator then "./" else "."
    else
      let kept' := if trailingSeparator then kept ++ "/" else kept in
      if isAbsolute then "/" ++ kept' else kept'.

Definition path_join (a b : string) : string :=
  if a =? "" then (if b =? "" then "." else path_normalize b)
  else if b =? "" then path_normalize a
  else path_normalize (a ++ "/" ++ b).

(** The connection string chosen by [initializeDatabase]. *)
Definition databaseUrl (env : Env) : string :=
  if truthy (VERCEL env) then ":memory:"
  else
    let dbFolder := path_join (cwd env) "data" in
    let dbPath := path_join dbFolder "inventory.db" in
    "file:" ++ dbPath.

(** The handle [createClient] returns. *)
Record Client : Type := mkClient { client_url : string }.

(** The error [txDb.transaction] throws. *)
Definition nested_error : Thrown :=
  ErrorObject "Nested transactions not supported".

(** The error of the guard after [await initializationPromise]. *)
Definition not_initialized_error : Thrown :=
  ErrorObject "Database client not initialized".

(** The test of the [catch (commitError)] block: the error is rethrown
    unless it is an [Error] whose message includes the engine's phrase. *)
Definition commit_error_rethrown (commitError : Thrown) : bool :=
  match commitError with
  | ErrorObject message => negb (includes "no transaction is active" message)
  | NonError _ => true
  end.

(** What the scripts and the route write to the console: [console.log]
    of a text or of a label with rows, [console.error] of a label with
    the error caught or of the error alone. *)
Inductive ConsoleEntry : Type :=
| LogText (text : string)
| LogRows (label : string) (found : list Row)
| ErrorWith (label : string) (e : Thrown)
| ErrorOnly (e : Thrown).

(** What [NextResponse.json(body, { status })] answers; the status is
    200 when none is given. *)
Record Response : Type := mkResponse {
  status_code : nat;
  json_body : list (string * string)
}.

(** ** Callbacks of [transaction]

    A callback receives the scoped facade [txDb] and may return, throw,
    or call one of the four operations of [txDb] and go on with what the
    call gave: a continuation receives the [Outcome] of the call, so a
    callback may let a failure propagate ([Raise]) or handle it
    ([try]/[catch], or a promise it never awaits). *)
Inductive Body : Type -> Type :=
| Return {T} (v : T) : Body T
| Raise {T} (e : Thrown) : Body T
| TxAll {T} (sql : string) (params : SqlParams)
        (k : Outcome (list Row) -> Body T) : Body T
| TxGet {T} (sql : string) (params : SqlParams)
        (k : Outcome (option Row) -> Body T) : Body T
| TxRun {T} (sql : string) (params : SqlParams)
        (k : Outcome unit -> Body T) : Body T
| TxTransaction {T V} (cb : Body V) (k : Outcome V -> Body T) : Body T.

(** [await] of a call whose failure is not handled: it propagates. *)
Definition propagate {A T} (k : A -> Body T) (o : Outcome A) : Body T :=
  match o with
  | Normal a => k a
  | Throw e => Raise e
  end.

(** Sequencing of callbacks: [first], then [next] on what it returned. *)
Fixpoint bind_body {A T} (first : Body A) : (A -> Body T) -> Body T :=
  match first in Body A0 return (A0 -> Body T) -> Body T with
  | Return v => fun next => next v
  | Raise e => fun _ => Raise e
  | TxAll sql params k =>
      fun next => TxAll sql params (fun o => bind_body (k o) next)
  | TxGet sql params k =>
      fun next => TxGet sql params (fun o => bind_body (k o) next)
  | TxRun sql params k =>
      fun next => TxRun sql params (fun o => bind_body (k o) next)
  | TxTransaction cb k =>
      fun next => TxTransaction cb (fun o => bind_body (k o) next)
  end.

(** A callback that leaves transaction control to the coordinator: none
    of the statements it may send is a [BEGIN], [COMMIT] or [ROLLBACK]. *)
Inductive data_only : forall {T : Type}, Body T -> Prop :=
| data_return : forall T (v : T), data_only (Return v)
| data_raise : forall T (e : Thrown), data_only (@Raise T e)
| data_all : forall T sql params (k : Outcome (list Row) -> Body T),
    control_of sql = None ->
    (forall o, data_only (k o)) ->
    data_only (TxAll sql params k)
| data_get : forall T sql params (k : Outcome (option Row) -> Body T),
    control_of sql = None ->
    (forall o, data_only (k o)) ->
    data_only (TxGet sql params k)
| data_run : forall T sql params (k : Outcome unit -> Body T),
    control_of sql = None ->
    (forall o, data_only (k o)) ->
    data_only (TxRun sql params k)
| data_nested : forall T V (cb : Body V) (k : Outcome V -> Body T),
    data_only (k (Throw nested_error)) ->
    data_only (TxTransaction cb k).

(** ** Module state

    The two module-level variables [libsqlClient] and
    [initializationPromise], the store, the randomness bcrypt will
    draw, and two ghost fields: every statement handed to
    [client.execute], oldest first, and the number of calls of
    [initializeDatabase].  In the run-to-completion reading a promise
    that has been created has settled by the time its [await] returns,
    so the recorded promise is [null] or an outcome. *)
Record ProcessState (Engine Entropy : Type) : Type := mkProcess {
  libsqlClient : option Client;
  initializationPromise : option (Outcome unit);
  engine : Engine;
  entropy : Entropy;
  delivered : list InStatement;
  init_calls : nat
}.

Arguments mkProcess {Engine Entropy} _ _ _ _ _ _.
Arguments libsqlClient {Engine Entropy} p.
Arguments initializationPromise {Engine Entropy} p.
Arguments engine {Engine Entropy} p.
Arguments entropy {Engine Entropy} p.
Arguments delivered {Engine Entropy} p.
Arguments init_calls {Engine Entropy} p.

(** In the event loop a promise may still be pending. *)
Inductive PromiseState : Type :=
| Pending
| Settled (o : Outcome unit).

(** Work that waits for its turn. *)
Inductive Task : Type :=
| TInit (promise step : nat) (reply : Outcome ResultSet)
  (* [initializeDatabase], suspended at the [await] of its statement
     number [step]; [reply] is what that [await] will give *)
| TCatch (source target : nat)
  (* the reaction of [source.catch(...)], whose promise is [target] *)
| TDone.

(** A caller of [getInitializedClient]: it has not called yet, it is
    suspended at [await initializationPromise], or its call is over. *)
Inductive Caller : Type :=
| Idle
| Awaiting (promise : nat)
| Returned (c : Client)
| Threw (e : Thrown).

(** The state of the event loop (see below): the module state, the
    promises created so far, the suspended work and the callers. *)
Record WorldState (Engine Entropy : Type) : Type := mkWorld {
  w_libsqlClient : option Client;
  w_initializationPromise : option nat;
  w_promises : list PromiseState;
  w_tasks : list Task;
  w_callers : list Caller;
  w_engine : Engine;
  w_entropy : Entropy;
  w_delivered : list InStatement;
  w_init_calls : nat
}.

Arguments mkWorld {Engine Entropy} _ _ _ _ _ _ _ _ _.
Arguments w_libsqlClient {Engine Entropy} w.
Arguments w_initializationPromise {Engine Entropy} w.
Arguments w_promises {Engine Entropy} w.
Arguments w_tasks {Engine Entropy} w.
Arguments w_callers {Engine Entropy} w.
Arguments w_engine {Engine Entropy} w.
Arguments w_entropy {Engine Entropy} w.
Arguments w_delivered {Engine Entropy} w.
Arguments w_init_calls {Engine Entropy} w.

(** ** What the layer is given

    The store behind the connection string with what one
    [client.execute] does to it, [createClient({ url })], which may fail
    (the file cannot be opened), and the [hashSync(data, rounds)] of
    bcrypt, which draws a fresh salt. *)
Class Platform : Type := mkPlatform {
  Engine : Type;
  engine_execute : InStatement -> Engine -> Outcome ResultSet * Engine;
  createClient : string -> Outcome Client;
  Entropy : Type;
  hashSync : string -> Z -> Entropy -> string * Entropy
}.

Abbreviation Process := (ProcessState Engine Entropy).
Abbreviation World := (WorldState Engine Entropy).

Section DataAccessLayer.

Context {platform : Platform}.

Definition M (A : Type) : Type := Process -> Outcome A * Process.

Definition ret {A} (a : A) : M A := fun p => (Normal a, p).

Definition throw {A} (e : Thrown) : M A := fun p => (Throw e, p).

Definition bind {A B} (m : M A) (f : A -> M B) : M B :=
  fun p =>
    match m p with
    | (Normal a, p') => f a p'
    | (Throw e, p') => (Throw e, p')
    end.

(** [try { m } catch (e) { h e }]. *)
Definition try_catch {A} (m : M A) (h : Thrown -> M A) : M A :=
  fun p =>
    match m p with
    | (Normal a, p') => (Normal a, p')
    | (Throw e, p') => h e p'
    end.

Notation "x <- m ;; k" := (bind m (fun x => k))
  (at level 61, m at next level, right associativity).
Notation "m ;;; k" := (bind m (fun _ => k))
  (at level 61, right associativity).

(** [client.execute(stmt)]: the statement reaches the engine. *)
Definition client_execute (client : Client) (stmt : InStatement) : M ResultSet :=
  fun p =>
    let (o, e') := engine_execute stmt (engine p) in
    (o, mkProcess (libsqlClient p) (initializationPromise p) e' (entropy p)
                  (delivered p ++ [stmt]) (init_calls p)).

Definition set_libsqlClient (c : Client) : M unit :=
  fun p => (Normal tt,
            mkProcess (Some c) (initializationPromise p) (engine p) (entropy p)
                      (delivered p) (init_calls p)).

Definition set_initializationPromise (o : Outcome unit) : M unit :=
  fun p => (Normal tt,
            mkProcess (libsqlClient p) (Some o) (engine p) (entropy p)
                      (delivered p) (init_calls p)).

(** Ghost: one more call of [initializeDatabase]. *)
Definition count_init_call : M unit :=
  fun p => (Normal tt,
            mkProcess (libsqlClient p) (initializationPromise p) (engine p)
                      (entropy p) (delivered p) (S (init_calls p))).

Definition call_createClient (url : string) : M Client :=
  fun p => (createClient url, p).

Definition call_hashSync (data : string) (rounds : Z) : M string :=
  fun p =>
    let (h, en') := hashSync data rounds (entropy p) in
    (Normal h,
     mkProcess (libsqlClient p) (initializationPromise p) (engine p) en'
               (delivered p) (init_calls p)).

(** The three product seeds. *)
Definition seed_product_1 : SqlParams :=
  [VString "prod1"; VString "Sample Product 1"; VString "SKU001";
   VNumber 100; VNumber 10; VNumber 50; VNumber 30; VString "Electronics"].
Definition seed_product_2 : SqlParams :=
  [VString "prod2"; VString "Sample Product 2"; VString "SKU002";
   VNumber 200; VNumber 20; VNumber 25; VNumber 15; VString "Clothing"].
Definition seed_product_3 : SqlParams :=
  [VString "prod3"; VString "Sample Product 3"; VString "SKU003";
   VNumber 150; VNumber 15; VNumber 75; VNumber 45; VString "Home Goods"].

Definition seed_user (adminHashed : string) : SqlParams :=
  [VString "admin1"; VString "admin@inventory.com"; VString adminHashed;
   VString "Admin User"; VString "admin"].

(** *** [initializeDatabase]

    The guard on [libsqlClient], the client, the four tables, the hash
    of the administrator's password and the four seed rows; each
    [await] that throws ends the function with that error.  The
    [console.log] lines are left out. *)
Definition initializeDatabase (env : Env) : M unit :=
  count_init_call ;;;
  fun p =>
    match libsqlClient p with
    | Some _ => ret tt p
    | None =>
        (client <- call_createClient (databaseUrl env) ;;
         set_libsqlClient client ;;;
         client_execute client (SqlText create_users_sql) ;;;
         client_execute client (SqlText create_products_sql) ;;;
         client_execute client (SqlText create_sales_sql) ;;;
         client_execute client (SqlText create_expenses_sql) ;;;
         adminHashed <- call_hashSync "admin123" 10 ;;
         client_execute client (SqlArgs seed_user_sql (seed_user adminHashed)) ;;;
         client_execute client (SqlArgs seed_product_sql seed_product_1) ;;;
         client_execute client (SqlArgs seed_product_sql seed_product_2) ;;;
         client_execute client (SqlArgs seed_product_sql seed_product_3) ;;;
         ret tt) p
    end.

(** *** [getInitializedClient]

    When no promise is recorded, [initializeDatabase()] is called and the
    promise of [.catch(...)] recorded, whose handler logs and throws the
    same error; then [await initializationPromise] throws what the
    promise was rejected with, and the guard on [libsqlClient] follows. *)
Definition getInitializedClient (env : Env) : M Client :=
  fun p =>
    (match initializationPromise p with
     | Some _ => ret tt
     | None =>
         fun p0 =>
           let (o, p1) :=
             try_catch (initializeDatabase env) (fun err => throw err) p0 in
           set_initializationPromise o p1
     end ;;;
     fun p2 =>
       (match initializationPromise p2 with
        | Some (Throw err) => throw err
        | _ =>
            match libsqlClient p2 with
            | None => throw not_initialized_error
            | Some c => ret c
            end
        end) p2) p.

(** *** The public facade [db]

    A call that leaves [params] out is the call with [[]]. *)
Definition db_all (env : Env) (sql : string) (params : SqlParams) : M (list Row) :=
  client <- getInitializedClient env ;;
  result <- client_execute client (SqlArgs sql params) ;;
  ret (rows result).

Definition db_get (env : Env) (sql : string) (params : SqlParams) : M (option Row) :=
  client <- getInitializedClient env ;;
  result <- client_execute client (SqlArgs sql params) ;;
  ret (nth_error (rows result) 0).

Definition db_run (env : Env) (sql : string) (params : SqlParams) : M unit :=
  client <- getInitializedClient env ;;
  client_execute client (SqlArgs sql params) ;;;
  ret tt.

(** *** The scoped facade [txDb]

    Its operations run on the client of the enclosing [transaction],
    without awaiting initialization again.  [txDb.transaction] throws
    at once: its callback [cb] is not called. *)
Definition txDb_all (client : Client) (sql : string) (params : SqlParams)
  : M (list Row) :=
  result <- client_execute client (SqlArgs sql params) ;;
  ret (rows result).

Definition txDb_get (client : Client) (sql : string) (params : SqlParams)
  : M (option Row) :=
  result <- client_execute client (SqlArgs sql params) ;;
  ret (nth_error (rows result) 0).

Definition txDb_run (client : Client) (sql : string) (params : SqlParams)
  : M unit :=
  client_execute client (SqlArgs sql params) ;;;
  ret tt.

Definition txDb_transaction {V} (client : Client) (cb : Body V) : M V :=
  throw nested_error.

(** The callback, run against [txDb]. *)
Fixpoint run_body {T} (client : Client) (body : Body T) : M T :=
  match body with
  | Return v => ret v
  | Raise e => throw e
  | TxAll sql params k =>
      fun p =>
        let (o, p') := txDb_all client sql params p in
        run_body client (k o) p'
  | TxGet sql params k =>
      fun p =>
        let (o, p') := txDb_get client sql params p in
        run_body client (k o) p'
  | TxRun sql params k =>
      fun p =>
        let (o, p') := txDb_run client sql params p in
        run_body client (k o) p'
  | TxTransaction cb k =>
      fun p =>
        let (o, p') := txDb_transaction client cb p in
        run_body client (k o) p'
  end.

(** *** [db.transaction] *)
Definition db_transaction {T} (env : Env) (callback : Body T) : M T :=
  client <- getInitializedClient env ;;
  client_execute client (SqlText "BEGIN") ;;;
  try_catch
    (result <- run_body client callback ;;
     try_catch
       (client_execute client (SqlText "COMMIT") ;;; ret tt)
       (fun commitError =>
          if commit_error_rethrown commitError
          then throw commitError
          else ret tt) ;;;
     ret result)
    (fun error =>
       try_catch
         (client_execute client (SqlText "ROLLBACK") ;;; ret tt)
         (fun rollbackError => ret tt) ;;;
       throw error).

(** *** The event loop

    Callers of the facade run on one thread and give way only at an
    [await].  A [World] holds the module state, the promises created so
    far, the suspended invocations of [initializeDatabase] with the
    reaction registered by [.catch], and the callers of
    [getInitializedClient] (every facade operation starts with it). *)
Fixpoint replace_nth {A} (n : nat) (a : A) (l : list A) : list A :=
  match l, n with
  | [], _ => []
  | _ :: rest, O => a :: rest
  | x :: rest, S n' => x :: replace_nth n' a rest
  end.

Definition with_client (c : Client) (w : World) : World :=
  mkWorld (Some c) (w_initializationPromise w) (w_promises w) (w_tasks w)
          (w_callers w) (w_engine w) (w_entropy w) (w_delivered w)
          (w_init_calls w).

Definition with_initializationPromise (p : nat) (w : World) : World :=
  mkWorld (w_libsqlClient w) (Some p) (w_promises w) (w_tasks w)
          (w_callers w) (w_engine w) (w_entropy w) (w_delivered w)
          (w_init_calls w).

Definition with_promises (ps : list PromiseState) (w : World) : World :=
  mkWorld (w_libsqlClient w) (w_initializationPromise w) ps (w_tasks w)
          (w_callers w) (w_engine w) (w_entropy w) (w_delivered w)
          (w_init_calls w).

Definition with_tasks (ts : list Task) (w : World) : World :=
  mkWorld (w_libsqlClient w) (w_initializationPromise w) (w_promises w) ts
          (w_callers w) (w_engine w) (w_entropy w) (w_delivered w)
          (w_init_calls w).

Definition with_callers (cs : list Caller) (w : World) : World :=
  mkWorld (w_libsqlClient w) (w_initializationPromise w) (w_promises w)
          (w_tasks w) cs (w_engine w) (w_entropy w) (w_delivered w)
          (w_init_calls w).

Definition counted (w : World) : World :=
  mkWorld (w_libsqlClient w) (w_initializationPromise w) (w_promises w)
          (w_tasks w) (w_callers w) (w_engine w) (w_entropy w)
          (w_delivered w) (S (w_init_calls w)).

(** A new promise; its number is its place among the promises. *)
Definition alloc (s : PromiseState) (w : World) : nat * World :=
  (length (w_promises w), with_promises (w_promises w ++ [s])%list w).

Definition settle (p : nat) (o : Outcome unit) (w : World) : World :=
  with_promises (replace_nth p (Settled o) (w_promises w)) w.

Definition spawn (t : Task) (w : World) : World :=
  with_tasks (w_tasks w ++ [t])%list w.

(** Statement number [step] of [initializeDatabase]; the fifth needs
    the hash of the administrator's password. *)
Definition bootstrap_statement (step : nat) (en : Entropy)
  : InStatement * Entropy :=
  match step with
  | 0 => (SqlText create_users_sql, en)
  | 1 => (SqlText create_products_sql, en)
  | 2 => (SqlText create_sales_sql, en)
  | 3 => (SqlText create_expenses_sql, en)
  | 4 =>
      let (adminHashed, en') := hashSync "admin123" 10 en in
      (SqlArgs seed_user_sql (seed_user adminHashed), en')
  | 5 => (SqlArgs seed_product_sql seed_product_1, en)
  | 6 => (SqlArgs seed_product_sql seed_product_2, en)
  | _ => (SqlArgs seed_product_sql seed_product_3, en)
  end.

Definition bootstrap_length : nat := 8.

(** [libsqlClient.execute(...)] of statement number [step]. *)
Definition issue (step : nat) (w : World) : Outcome ResultSet * World :=
  let (stmt, en') := bootstrap_statement step (w_entropy w) in
  let (reply, e') := engine_execute stmt (w_engine w) in
  (reply,
   mkWorld (w_libsqlClient w) (w_initializationPromise w) (w_promises w)
           (w_tasks w) (w_callers w) e' en' (w_delivered w ++ [stmt])%list
           (w_init_calls w)).

(** The call [initializeDatabase()]: the function runs to its first
    [await] and hands back its promise. *)
Definition call_initializeDatabase (env : Env) (w : World) : nat * World :=
  let w1 := counted w in
  match w_libsqlClient w1 with
  | Some _ =>
      let (p, w2) := alloc (Settled (Normal tt)) w1 in (p, spawn TDone w2)
  | None =>
      match createClient (databaseUrl env) with
      | Throw e =>
          let (p, w2) := alloc (Settled (Throw e)) w1 in (p, spawn TDone w2)
      | Normal c =>
          let (reply, w2) := issue 0 (with_client c w1) in
          let (p, w3) := alloc Pending w2 in
          (p, spawn (TInit p 0 reply) w3)
      end
  end.

Inductive Event : Type :=
| Call (i : nat)          (* caller [i] calls [getInitializedClient] *)
| ResumeInit (t : nat)    (* task [t], an [initializeDatabase], goes on *)
| RunCatch (t : nat)      (* task [t], a [.catch] reaction, runs *)
| ResumeCaller (i : nat). (* caller [i] goes on after its [await] *)

(** One turn of the event loop; [None] when the event cannot happen. *)
Definition step (env : Env) (ev : Event) (w : World) : option World :=
  match ev with
  | Call i =>
      match nth_error (w_callers w) i with
      | Some Idle =>
          let w' :=
            match w_initializationPromise w with
            | Some _ => w
            | None =>
                let (p0, w1) := call_initializeDatabase env w in
                let (p1, w2) := alloc Pending w1 in
                with_initializationPromise p1 (spawn (TCatch p0 p1) w2)
            end in
          match w_initializationPromise w' with
          | Some p =>
              Some (with_callers (replace_nth i (Awaiting p) (w_callers w')) w')
          | None => None
          end
      | _ => None
      end
  | ResumeInit t =>
      match nth_error (w_tasks w) t with
      | Some (TInit p s reply) =>
          match reply with
          | Throw e =>
              Some (settle p (Throw e)
                      (with_tasks (replace_nth t TDone (w_tasks w)) w))
          | Normal _ =>
              if Nat.ltb (S s) bootstrap_length then
                let (reply', w1) := issue (S s) w in
                Some (with_tasks
                        (replace_nth t (TInit p (S s) reply') (w_tasks w1)) w1)
              else
                Some (settle p (Normal tt)
                        (with_tasks (replace_nth t TDone (w_tasks w)) w))
          end
      | _ => None
      end
  | RunCatch t =>
      match nth_error (w_tasks w) t with
      | Some (TCatch source target) =>
          match nth_error (w_promises w) source with
          | Some (Settled o) =>
              (* fulfilled: passed on; rejected: the handler logs and
                 throws the same error *)
              Some (settle target o
                      (with_tasks (replace_nth t TDone (w_tasks w)) w))
          | _ => None
          end
      | _ => None
      end
  | ResumeCaller i =>
      match nth_error (w_callers w) i with
      | Some (Awaiting p) =>
          match nth_error (w_promises w) p with
          | Some (Settled (Throw err)) =>
              Some (with_callers (replace_nth i (Threw err) (w_callers w)) w)
          | Some (Settled (Normal _)) =>
              match w_libsqlClient w with
              | None =>
                  Some (with_callers
                          (replace_nth i (Threw not_initialized_error)
                                       (w_callers w)) w)
              | Some c =>
                  Some (with_callers (replace_nth i (Returned c) (w_callers w)) w)
              end
          | _ => None
          end
      | _ => None
      end
  end.

Fixpoint run (env : Env) (evs : list Event) (w : World) : option World :=
  match evs with
  | [] => Some w
  | ev :: rest =>
      match step env ev w with
      | Some w' => run env rest w'
      | None => None
      end
  end.

(** A fresh process with [n] callers that have not called yet. *)
Definition initial_world (n : nat) (e : Engine) (en : Entropy) : World :=
  mkWorld None None [] [] (repeat Idle n) e en [] 0.

(** The eight statements of the bootstrap, in order. *)
Definition bootstrap (en : Entropy) : list InStatement :=
  map (fun s => fst (bootstrap_statement s en)) (seq 0 bootstrap_length).

(** The statements in order, up to the first that fails. *)
Fixpoint execute_in_order (stmts : list InStatement) (e : Engine) : Engine :=
  match stmts with
  | [] => e
  | stmt :: rest =>
      match engine_execute stmt e with
      | (Normal _, e') => execute_in_order rest e'
      | (Throw _, e') => e'
      end
  end.

(** *** The shapes of the event loop *)

(** A caller before the recorded promise has settled. *)
Definition waiting (k : Caller) : Prop := k = Idle \/ k = Awaiting 1.

(** A caller once the recorded promise has settled with [o]. *)
Definition served (oc : option Client) (o : Outcome unit) (k : Caller) : Prop :=
  k = Idle \/ k = Awaiting 1 \/
  (exists c, k = Returned c /\ oc = Some c /\ o = Normal tt) \/
  (exists e, k = Threw e /\ o = Throw e).

(** The worlds the event loop can be in: nothing called yet;
    [initializeDatabase] suspended at statement [s]; its promise
    settled but the [.catch] reaction not run yet; both settled. *)
Inductive Inv (n : nat) (e0 : Engine) (en0 : Entropy) : World -> Prop :=
| inv_fresh : Inv n e0 en0 (initial_world n e0 en0)
| inv_running : forall c callers eng en d s reply,
    s < bootstrap_length ->
    (s < 4 -> en = en0) ->
    d = firstn (S s) (bootstrap en0) ->
    Forall waiting callers ->
    Inv n e0 en0 (mkWorld (Some c) (Some 1) [Pending; Pending]
                 [TInit 0 s reply; TCatch 0 1] callers eng en d 1)
| inv_init_settled : forall oc callers eng en d o k,
    d = firstn k (bootstrap en0) ->
    (forall u, o = Normal u -> d = bootstrap en0 /\ oc <> None) ->
    Forall waiting callers ->
    Inv n e0 en0 (mkWorld oc (Some 1) [Settled o; Pending]
                 [TDone; TCatch 0 1] callers eng en d 1)
| inv_all_settled : forall oc callers eng en d o k,
    d = firstn k (bootstrap en0) ->
    (forall u, o = Normal u -> d = bootstrap en0 /\ oc <> None) ->
    Forall (served oc o) callers ->
    Inv n e0 en0 (mkWorld oc (Some 1) [Settled o; Settled o]
                 [TDone; TDone] callers eng en d 1).

(** The worlds in which the recorded promise is rejected with [e],
    [d] being what reached the engine. *)
Definition failed (e : Thrown) (d : list InStatement) (w : World) : Prop :=
  exists oc callers eng en,
    w = mkWorld oc (Some 1) [Settled (Throw e); Settled (Throw e)]
                [TDone; TDone] callers eng en d 1 /\
    Forall (served oc (Throw e)) callers.

(** *** A caller alone

    The schedule of a process with one caller: it calls, the bootstrap
    resumes [resumes] times, the [.catch] reaction runs, the caller
    resumes. *)
Definition lone_schedule (resumes : nat) : list Event :=
  (Call 0 :: repeat (ResumeInit 0) resumes ++ [RunCatch 1; ResumeCaller 0])%list.

(** The event loop and the run-to-completion reading agree on the
    module state. *)
Definition same_state (w : World) (p : Process) : Prop :=
  w_libsqlClient w = libsqlClient p /\
  w_engine w = engine p /\
  w_entropy w = entropy p /\
  w_delivered w = delivered p /\
  w_init_calls w = init_calls p /\
  exists pid,
    w_initializationPromise w = Some pid /\
    nth_error (w_promises w) pid = option_map Settled (initializationPromise p).

(** *** Statements in order

    The statements one after the other up to the first that fails: how
    it ends, the engine then, and what was sent. *)
Fixpoint run_in_order (stmts : list InStatement) (e : Engine)
  : Outcome unit * Engine * list InStatement :=
  match stmts with
  | [] => (Normal tt, e, [])
  | stmt :: rest =>
      match engine_execute stmt e with
      | (Normal _, e') =>
          let '(o, e'', sent) := run_in_order rest e' in
          (o, e'', stmt :: sent)
      | (Throw err, e') => (Throw err, e', [stmt])
      end
  end.

(** *** Facade operations one after the other

    A call of the facade by a caller that does nothing with what it
    gives, and a list of such calls, each awaited before the next. *)
Inductive Operation : Type :=
| OpAll (sql : string) (params : SqlParams)
| OpGet (sql : string) (params : SqlParams)
| OpRun (sql : string) (params : SqlParams)
| OpTransaction {T : Type} (callback : Body T).

Definition perform (env : Env) (op : Operation) (p : Process) : Process :=
  match op with
  | OpAll sql params => snd (db_all env sql params p)
  | OpGet sql params => snd (db_get env sql params p)
  | OpRun sql params => snd (db_run env sql params p)
  | OpTransaction callback => snd (db_transaction env callback p)
  end.

Definition perform_all (env : Env) (ops : list Operation) (p : Process)
  : Process :=
  fold_left (fun q op => perform env op q) ops p.

(** *** The event loop without its callers

    What the callers cannot change: everything but the list of callers,
    and the one step that is open to it: the first call starts the
    bootstrap, the bootstrap goes on, the [.catch] reaction runs. *)
Definition erase (w : World) : World := with_callers [] w.

Definition start (env : Env) (w : World) : World :=
  let (p0, w1) := call_initializeDatabase env w in
  let (p1, w2) := alloc Pending w1 in
  with_initializationPromise p1 (spawn (TCatch p0 p1) w2).

Definition tick (env : Env) (w : World) : World :=
  match step env (ResumeInit 0) w with
  | Some w' => w'
  | None =>
      match step env (RunCatch 1) w with
      | Some w' => w'
      | None =>
          match w_initializationPromise w with
          | None => start env w
          | Some _ => w
          end
      end
  end.

(** The events that let every waiting caller go on, in order. *)
Fixpoint resume_from (i : nat) (callers : list Caller) : list Event :=
  match callers with
  | [] => []
  | Awaiting _ :: rest => ResumeCaller i :: resume_from (S i) rest
  | _ :: rest => resume_from (S i) rest
  end.

End DataAccessLayer.


(** The layer over a connection of the storage engine model. *)
Definition sqlite_over (St : Type)
    (data_exec : InStatement -> St -> Outcome ResultSet * St)
    (create : string -> Outcome Client) (En : Type)
    (hash : string -> Z -> En -> string * En) : Platform :=
  mkPlatform (Connection St) (sqlite_execute St data_exec) create En hash.

(** ** The callers of the facade

    The test script, the seeding script and the seeding route.  They
    write to the console, and so does the layer when they call it: the
    console is kept beside the module state, and the layer is written
    out once more with its console lines. *)

Section Callers.

Context {platform : Platform}.

(** [hash(data, rounds)] of bcrypt, the asynchronous one: its promise
    may be rejected. *)
Variable hash : string -> Z -> Entropy -> Outcome string * Entropy.

Definition Script (A : Type) : Type :=
  Process * list ConsoleEntry -> Outcome A * (Process * list ConsoleEntry).

Definition script_ret {A} (a : A) : Script A := fun st => (Normal a, st).

Definition script_throw {A} (e : Thrown) : Script A := fun st => (Throw e, st).

Definition script_bind {A B} (m : Script A) (f : A -> Script B) : Script B :=
  fun st =>
    match m st with
    | (Normal a, st') => f a st'
    | (Throw e, st') => (Throw e, st')
    end.

(** [try { m } catch (e) { h e }]. *)
Definition script_catch {A} (m : Script A) (h : Thrown -> Script A) : Script A :=
  fun st =>
    match m st with
    | (Normal a, st') => (Normal a, st')
    | (Throw e, st') => h e st'
    end.

(** A step that changes the module state and writes nothing: a call
    of the client, of [createClient], of [hashSync], an assignment. *)
Definition script_call {A} (m : M A) : Script A :=
  fun st =>
    let (o, p') := m (fst st) in (o, (p', snd st)).

Definition console_write (entry : ConsoleEntry) : Script unit :=
  fun st => (Normal tt, (fst st, (snd st ++ [entry])%list)).

Definition call_hash (data : string) (rounds : Z) : Script string :=
  fun st =>
    let p := fst st in
    let (o, en') := hash data rounds (entropy p) in
    (o, (mkProcess (libsqlClient p) (initializationPromise p) (engine p) en'
                   (delivered p) (init_calls p), snd st)).

Notation "x <- m ;; k" := (script_bind m (fun x => k))
  (at level 61, m at next level, right associativity).
Notation "m ;;; k" := (script_bind m (fun _ => k))
  (at level 61, right associativity).

(** *** The layer with its console lines

    [initializeDatabase] announces the connection string once it is
    past its guard and the end of the bootstrap when all statements
    went through; the [.catch] reaction of [getInitializedClient]
    writes the error before it throws it again. *)
Definition connecting_line (env : Env) : ConsoleEntry :=
  LogText ("[DB] Connecting to → " ++ databaseUrl env).

Definition completed_line : ConsoleEntry :=
  LogText "[DB] Initialization & seeding completed".

Definition logged_initializeDatabase (env : Env) : Script unit :=
  script_call count_init_call ;;;
  fun st =>
    match libsqlClient (fst st) with
    | Some _ => script_ret tt st
    | None =>
        (console_write (connecting_line env) ;;;
         client <- script_call (call_createClient (databaseUrl env)) ;;
         script_call (set_libsqlClient client) ;;;
         script_call (client_execute client (SqlText create_users_sql)) ;;;
         script_call (client_execute client (SqlText create_products_sql)) ;;;
         script_call (client_execute client (SqlText create_sales_sql)) ;;;
         script_call (client_execute client (SqlText create_expenses_sql)) ;;;
         adminHashed <- script_call (call_hashSync "admin123" 10) ;;
         script_call
           (client_execute client (SqlArgs seed_user_sql (seed_user adminHashed))) ;;;
         script_call
           (client_execute client (SqlArgs seed_product_sql seed_product_1)) ;;;
         script_call
           (client_execute client (SqlArgs seed_product_sql seed_product_2)) ;;;
         script_call
           (client_execute client (SqlArgs seed_product_sql seed_product_3)) ;;;
         console_write completed_line) st
    end.

Definition logged_getInitializedClient (env : Env) : Script Client :=
  fun st =>
    (match initializationPromise (fst st) with
     | Some _ => script_ret tt
     | None =>
         fun st0 =>
           let (o, st1) :=
             script_catch (logged_initializeDatabase env)
               (fun err =>
                  console_write (ErrorWith "[DB INIT ERROR]" err) ;;;
                  script_throw err) st0 in
           script_call (set_initializationPromise o) st1
     end ;;;
     fun st2 =>
       (match initializationPromise (fst st2) with
        | Some (Throw err) => script_throw err
        | _ =>
            match libsqlClient (fst st2) with
            | None => script_throw not_initialized_error
            | Some c => script_ret c
            end
        end) st2) st.

Definition logged_all (env : Env) (sql : string) (params : SqlParams)
  : Script (list Row) :=
  client <- logged_getInitializedClient env ;;
  result <- script_call (client_execute client (SqlArgs sql params)) ;;
  script_ret (rows result).

Definition logged_get (env : Env) (sql : string) (params : SqlParams)
  : Script (option Row) :=
  client <- logged_getInitializedClient env ;;
  result <- script_call (client_execute client (SqlArgs sql params)) ;;
  script_ret (nth_error (rows result) 0).

Definition logged_run (env : Env) (sql : string) (params : SqlParams)
  : Script unit :=
  client <- logged_getInitializedClient env ;;
  script_call (client_execute client (SqlArgs sql params)) ;;;
  script_ret tt.

(** What a call of the layer adds to the console, told from the
    process it is made on: nothing once a promise is recorded, and
    nothing when [initializeDatabase] returns at its guard; else the
    connection line, followed by the completion line when the
    bootstrap resolves and by the error line of the [.catch] reaction
    when it rejects. *)
Definition init_console (env : Env) (p : Process) : list ConsoleEntry :=
  match initializationPromise p, libsqlClient p with
  | Some _, _ => []
  | None, Some _ => []
  | None, None =>
      connecting_line env ::
      match fst (initializeDatabase env p) with
      | Normal _ => [completed_line]
      | Throw err => [ErrorWith "[DB INIT ERROR]" err]
      end
  end.

(** *** [testDb] of the test script *)
Definition testDb (env : Env) : Script unit :=
  console_write (LogText "Testing database...") ;;;
  script_catch
    (products <- logged_all env "SELECT * FROM products" [] ;;
     console_write (LogRows "Products:" products) ;;;
     users <- logged_all env "SELECT * FROM users" [] ;;
     console_write (LogRows "Users:" users) ;;;
     sales <- logged_all env "SELECT * FROM sales" [] ;;
     console_write (LogRows "Sales:" sales) ;;;
     expenses <- logged_all env "SELECT * FROM expenses" [] ;;
     console_write (LogRows "Expenses:" expenses))
    (fun error => console_write (ErrorWith "Error:" error)).

(** The four queries of [testDb], as operations of the facade. *)
Definition table_queries : list Operation :=
  [OpAll "SELECT * FROM products" []; OpAll "SELECT * FROM users" [];
   OpAll "SELECT * FROM sales" []; OpAll "SELECT * FROM expenses" []].

(** *** [seed] of the seeding script, and the script: [seed().catch(console.error)] *)
Definition seed (env : Env) : Script unit :=
  console_write (LogText "Seeding database...") ;;;
  logged_get env "SELECT 1" [] ;;;
  console_write (LogText "Seeding complete.").

Definition seed_script (env : Env) : Script unit :=
  script_catch (seed env) (fun err => console_write (ErrorOnly err)).

(** *** [GET] of the seeding route *)
Definition seeded_response : Response :=
  mkResponse 200 [("message", "Database seeded successfully")].

Definition failed_response : Response :=
  mkResponse 500 [("error", "Failed to seed database")].

Definition GET (env : Env) : Script Response :=
  script_catch
    (adminPassword <- call_hash "admin123" 10 ;;
     logged_run env route_seed_sql [VString adminPassword] ;;;
     script_ret seeded_response)
    (fun error =>
       console_write (ErrorWith "Seeding error:" error) ;;;
       script_ret failed_response).

End Callers.

(** * A sample process

    A process on an empty store, with a client that always opens and a
    stand-in for bcrypt that tags the password with the salt it draws
    from a list of salts.  The examples below run the layer on it. *)

Definition sample_env : Env := mkEnv None "/srv/inventory".

Definition sample_createClient (url : string) : Outcome Client :=
  Normal (mkClient url).

(** The data folder is missing: the file cannot be opened. *)
Definition failing_createClient (url : string) : Outcome Client :=
  Throw (ErrorObject "SQLITE_CANTOPEN: unable to open database file").

(** Modelled from the spec: bcrypt's [hashSync], an opaque one-way
    function dependency (spec, section 1), missing from the repository.
    The stand-in only records which salt a hash was made with. *)
Definition sample_hashSync (data : string) (rounds : Z) (salts : list string)
  : string * list string :=
  match salts with
  | [] => ("$2b$10$" ++ data, [])
  | salt :: rest => ("$2b$10$" ++ salt ++ "$" ++ data, rest)
  end.

Abbreviation sample_platform :=
  (sqlite_over Store data_execute sample_createClient (list string)
               sample_hashSync).

Abbreviation failing_platform :=
  (sqlite_over Store data_execute failing_createClient (list string)
               sample_hashSync).

Definition SampleProcess : Type := ProcessState Sqlite (list string).

Definition SampleWorld : Type := WorldState Sqlite (list string).

Definition fresh_process : SampleProcess :=
  mkProcess None None (mkConnection [] None)
             ["first-salt"; "second-salt"] [] 0.

Definition sample_client : Client :=
  mkClient "file:/srv/inventory/data/inventory.db".

Abbreviation sample_getInitializedClient :=
  (getInitializedClient (platform := sample_platform) sample_env).

Abbreviation sample_initializeDatabase :=
  (initializeDatabase (platform := sample_platform) sample_env).

Abbreviation sample_get :=
  (db_get (platform := sample_platform) sample_env).

Abbreviation sample_transaction :=
  (db_transaction (platform := sample_platform) sample_env).

Abbreviation sample_execute :=
  (client_execute (platform := sample_platform) sample_client).

Abbreviation sample_run_body :=
  (run_body (platform := sample_platform) sample_client).

Abbreviation sample_run :=
  (run (platform := sample_platform) sample_env).

Abbreviation failing_run :=
  (run (platform := failing_platform) sample_env).

Abbreviation failing_step :=
  (step (platform := failing_platform) sample_env).

(** Two callers on a fresh process. *)
Abbreviation two_callers :=
  (initial_world (platform := sample_platform) 2 (mkConnection [] None) ["first-salt"]).

(** The process once its first facade call has initialized it. *)
Definition ready_process : SampleProcess :=
  Eval vm_compute in snd (sample_getInitializedClient fresh_process).

(** The process inside a transaction, after [BEGIN]. *)
Definition open_process : SampleProcess :=
  Eval vm_compute in snd (sample_execute (SqlText "BEGIN") ready_process).

Definition insert_user_sql : string :=
  "INSERT INTO users (id, email, password, name, role) VALUES (?, ?, ?, ?, ?)".

Definition select_user_sql : string := "SELECT * FROM users WHERE id = ?".

Definition manager_row : SqlParams :=
  [VString "u2"; VString "mary@inventory.com"; VString "secret";
   VString "Mary"; VString "manager"].

(** [async (tx) => { await tx.run(insert, row) }] *)
Definition insert_only : Body unit :=
  TxRun insert_user_sql manager_row (propagate (fun _ => Return tt)).

(** [async (tx) => { await tx.run(insert, row); throw new Error("boom") }] *)
Definition insert_then_throw : Body nat :=
  TxRun insert_user_sql manager_row
        (propagate (fun _ => Raise (ErrorObject "boom"))).


(** [async (tx) => { await tx.run("COMMIT"); return 7 }] *)
Definition commit_inside : Body nat :=
  TxRun "COMMIT" [] (propagate (fun _ => Return 7)).

(** [async (tx) => { await tx.run("ROLLBACK"); throw new Error("boom") }] *)
Definition rollback_inside_then_throw : Body nat :=
  TxRun "ROLLBACK" [] (propagate (fun _ => Raise (ErrorObject "boom"))).

(** [async (tx) => { await tx.run(insert, row);
                     return await tx.transaction(inner) }] *)
Definition insert_then_nest : Body nat :=
  bind_body insert_only
    (fun _ => TxTransaction insert_then_throw (propagate (fun v => Return v))).

(** The process when each of these callbacks has ended. *)
Definition after_insert_only : SampleProcess :=
  Eval vm_compute in snd (sample_run_body insert_only open_process).


Definition after_commit_inside : SampleProcess :=
  Eval vm_compute in snd (sample_run_body commit_inside open_process).

Definition after_rollback_inside : SampleProcess :=
  Eval vm_compute in
    snd (sample_run_body rollback_inside_then_throw open_process).

Definition after_second_commit : SampleProcess :=
  Eval vm_compute in snd (sample_execute (SqlText "COMMIT") after_commit_inside).

Definition after_second_rollback : SampleProcess :=
  Eval vm_compute in
    snd (sample_execute (SqlText "ROLLBACK") after_rollback_inside).


(** A second process, started on the store the first one has seeded. *)
Definition restarted_process : SampleProcess :=
  mkProcess None None (engine ready_process)
             ["second-salt"] [] 0.

Definition seeded_users : Table :=
  Eval vm_compute in
    match lookup "users" (current (engine ready_process)) with
    | Some t => t
    | None => mkTable users_schema []
    end.

Definition seeded_products : Table :=
  Eval vm_compute in
    match lookup "products" (current (engine ready_process)) with
    | Some t => t
    | None => mkTable products_schema []
    end.

(** Both callers call before anything else runs; the bootstrap then goes
    through its eight statements, the [.catch] reaction runs, and the
    callers resume, the second first. *)
Definition both_call_first : list Event :=
  [Call 0; Call 1;
   ResumeInit 0; ResumeInit 0; ResumeInit 0; ResumeInit 0;
   ResumeInit 0; ResumeInit 0; ResumeInit 0; ResumeInit 0;
   RunCatch 1; ResumeCaller 1; ResumeCaller 0].

(** The first caller calls, the rejection of the bootstrap is passed on
    and the caller resumes. *)
Definition first_call_fails : list Event :=
  [Call 0; RunCatch 1; ResumeCaller 0].



(** The same two callers where the client cannot be created. *)
Abbreviation two_callers_no_file :=
  (initial_world (platform := failing_platform) 2 (mkConnection [] None)
                 ["first-salt"]).

(** The world a run ends in ([otherwise] if an event could not happen). *)
Definition reached {Engine Entropy : Type}
    (otherwise : WorldState Engine Entropy)
    (r : option (WorldState Engine Entropy)) : WorldState Engine Entropy :=
  match r with
  | Some w => w
  | None => otherwise
  end.

Definition both_served : SampleWorld :=
  Eval vm_compute in
    reached two_callers (sample_run both_call_first two_callers).

Definition first_failed : SampleWorld :=
  Eval vm_compute in
    reached two_callers_no_file
            (failing_run first_call_fails two_callers_no_file).

Definition second_called : SampleWorld :=
  Eval vm_compute in reached first_failed (failing_run [Call 1] first_failed).

Definition cannot_open : Thrown :=
  ErrorObject "SQLITE_CANTOPEN: unable to open database file".

(** [async (tx) => { await tx.run(insert, row); await tx.run("COMMIT");
                     throw new Error("boom") }] *)
Definition insert_commit_then_throw : Body nat :=
  TxRun insert_user_sql manager_row
        (propagate (fun _ =>
           TxRun "COMMIT" []
                 (propagate (fun _ => Raise (ErrorObject "boom"))))).

(** [async (tx) => { await tx.run(insert, row); await tx.run("COMMIT");
                     return await tx.transaction(inner) }] *)
Definition insert_commit_then_nest : Body nat :=
  TxRun insert_user_sql manager_row
        (propagate (fun _ =>
           TxRun "COMMIT" []
                 (propagate (fun _ =>
                    TxTransaction insert_then_throw
                                  (propagate (fun v => Return v)))))).

Definition after_commit_then_throw : SampleProcess :=
  Eval vm_compute in
    snd (sample_transaction insert_commit_then_throw fresh_process).

Definition after_commit_then_nest : SampleProcess :=
  Eval vm_compute in
    snd (sample_transaction insert_commit_then_nest fresh_process).

(** A database file left by an earlier release: its [users] table has
    no column for the e-mail address, so the administrator cannot be
    seeded. *)
Definition outdated_process : SampleProcess :=
  mkProcess None None
            (mkConnection
               [("users", mkTable (mkSchema ["id"; "name"] ["id"] [] []) [])]
               None)
            ["first-salt"] [] 0.

Definition after_failed_bootstrap : SampleProcess :=
  Eval vm_compute in snd (sample_initializeDatabase outdated_process).

Definition no_email_column : Thrown :=
  ErrorObject "SQLITE_ERROR: table users has no such column".

Abbreviation failing_getInitializedClient :=
  (getInitializedClient (platform := failing_platform) sample_env).

(** The process whose database file could not be opened. *)
Definition never_opened : SampleProcess :=
  Eval vm_compute in snd (failing_getInitializedClient fresh_process).

(** The process after a [BEGIN] that found a transaction open. *)
Definition refused_process : SampleProcess :=
  Eval vm_compute in snd (sample_execute (SqlText "BEGIN") open_process).

Definition transaction_open_error : Thrown :=
  ErrorObject "SQLITE_ERROR: cannot start a transaction within a transaction".

(** Both callers have called and the bootstrap has resumed once. *)
Definition both_call_one_resume : list Event :=
  [Call 0; Call 1; ResumeInit 0].

Definition both_waiting : SampleWorld :=
  Eval vm_compute in
    reached two_callers (sample_run both_call_one_resume two_callers).

(** * Properties *)

(** ** The facade and the transaction coordinator *)

Section FacadeProperties.

Context {platform : Platform}.

Notation "x <- m ;; k" := (bind m (fun x => k))
  (at level 61, m at next level, right associativity).
Notation "m ;;; k" := (bind m (fun _ => k))
  (at level 61, right associativity).

Lemma client_execute_delivered : forall c stmt p,
  delivered (snd (client_execute c stmt p)) = (delivered p ++ [stmt])%list.
Proof.
  intros c stmt p. unfold client_execute.
  destruct (engine_execute stmt (engine p)); reflexivity.
Qed.

(** What [db.transaction] does once the callback has thrown. *)
Lemma db_transaction_body_throws :
  forall T env (callback : Body T) p c p1 r p2 e p3,
    getInitializedClient env p = (Normal c, p1) ->
    client_execute c (SqlText "BEGIN") p1 = (Normal r, p2) ->
    run_body c callback p2 = (Throw e, p3) ->
    db_transaction env callback p =
    (Throw e, snd (client_execute c (SqlText "ROLLBACK") p3)).
Proof.
  intros T env callback p c p1 r p2 e p3 Hinit Hbegin Hbody.
  unfold db_transaction, bind, try_catch.
  rewrite Hinit, Hbegin, Hbody.
  destruct (client_execute c (SqlText "ROLLBACK") p3) as [[r'|re] p4];
    reflexivity.
Qed.

(** What [db.transaction] does once the callback has returned. *)
Lemma db_transaction_body_returns :
  forall T env (callback : Body T) p c p1 r p2 v p3,
    getInitializedClient env p = (Normal c, p1) ->
    client_execute c (SqlText "BEGIN") p1 = (Normal r, p2) ->
    run_body c callback p2 = (Normal v, p3) ->
    db_transaction env callback p =
    match client_execute c (SqlText "COMMIT") p3 with
    | (Normal _, p4) => (Normal v, p4)
    | (Throw commitError, p4) =>
        if commit_error_rethrown commitError
        then (Throw commitError,
              snd (client_execute c (SqlText "ROLLBACK") p4))
        else (Normal v, p4)
    end.
Proof.
  intros T env callback p c p1 r p2 v p3 Hinit Hbegin Hbody.
  unfold db_transaction, bind, try_catch.
  rewrite Hinit, Hbegin, Hbody.
  destruct (client_execute c (SqlText "COMMIT") p3) as [[r'|ce] p4].
  - reflexivity.
  - destruct (commit_error_rethrown ce).
    + unfold throw.
      destruct (client_execute c (SqlText "ROLLBACK") p4) as [[r'|re] p5];
        reflexivity.
    + reflexivity.
Qed.

(** Running [first] and then [next] is running the sequenced callback. *)
Lemma run_body_bind : forall A (first : Body A) T (next : A -> Body T) c p,
  run_body c (bind_body first next) p =
  match run_body c first p with
  | (Normal a, p') => run_body c (next a) p'
  | (Throw e, p') => (Throw e, p')
  end.
Proof.
  induction first as [A v | A e | A sql params k IH | A sql params k IH
                      | A sql params k IH | A V cb _ k IH];
    intros T next c p; simpl.
  - reflexivity.
  - reflexivity.
  - destruct (txDb_all c sql params p) as [o p']. apply IH.
  - destruct (txDb_get c sql params p) as [o p']. apply IH.
  - destruct (txDb_run c sql params p) as [o p']. apply IH.
  - apply IH.
Qed.

(** C3. [txDb.transaction], called inside a running callback, fails at
    once with the nested-transaction error: the callback [cb] handed to
    it is never run, the process (engine, delivered statements) is as
    before the call, and the enclosing callback goes on with that
    error. *)
Theorem nested_transaction_fails_fast :
  forall V T (cb : Body V) (k : Outcome V -> Body T) client p,
    txDb_transaction client cb p = (Throw nested_error, p) /\
    delivered (snd (txDb_transaction client cb p)) = delivered p /\
    engine (snd (txDb_transaction client cb p)) = engine p /\
    run_body client (TxTransaction cb k) p =
    run_body client (k (Throw nested_error)) p.
Proof.
  intros V T cb k client p. repeat split.
Qed.

(** C4. When the callback returns [v], COMMIT is attempted.  If it
    succeeds, or fails with an [Error] whose message includes
    "no transaction is active", [transaction] resolves with [v] (and
    no rollback is sent); any other commit failure is what
    [transaction] rejects with, after an attempt to roll back. *)
Theorem commit_failure_benign_or_propagated :
  forall T env (callback : Body T) p c p1 r p2 v p3,
    getInitializedClient env p = (Normal c, p1) ->
    client_execute c (SqlText "BEGIN") p1 = (Normal r, p2) ->
    run_body c callback p2 = (Normal v, p3) ->
    (forall r' p4,
        client_execute c (SqlText "COMMIT") p3 = (Normal r', p4) ->
        db_transaction env callback p = (Normal v, p4)) /\
    (forall message p4,
        client_execute c (SqlText "COMMIT") p3 =
          (Throw (ErrorObject message), p4) ->
        includes "no transaction is active" message = true ->
        db_transaction env callback p = (Normal v, p4) /\
        delivered p4 = (delivered p3 ++ [SqlText "COMMIT"])%list) /\
    (forall commitError p4,
        client_execute c (SqlText "COMMIT") p3 = (Throw commitError, p4) ->
        (forall message, commitError = ErrorObject message ->
                         includes "no transaction is active" message = false) ->
        db_transaction env callback p =
        (Throw commitError, snd (client_execute c (SqlText "ROLLBACK") p4))).
Proof.
  intros T env callback p c p1 r p2 v p3 Hinit Hbegin Hbody.
  pose proof (db_transaction_body_returns T env callback p c p1 r p2 v p3
                Hinit Hbegin Hbody) as Htx.
  split; [|split].
  - intros r' p4 Hcommit. rewrite Htx, Hcommit. reflexivity.
  - intros message p4 Hcommit Hphrase. split.
    + rewrite Htx, Hcommit. simpl. rewrite Hphrase. reflexivity.
    + pose proof (client_execute_delivered c (SqlText "COMMIT") p3) as Hd.
      rewrite Hcommit in Hd. exact Hd.
  - intros commitError p4 Hcommit Hother. rewrite Htx, Hcommit.
    assert (Hre : commit_error_rethrown commitError = true).
    { destruct commitError as [message | payload]; simpl.
      - rewrite (Hother message eq_refl). reflexivity.
      - reflexivity. }
    rewrite Hre. reflexivity.
Qed.

(** C5. When the callback throws [e] and the cleanup ROLLBACK fails as
    well, the rollback's error is dropped: [transaction] rejects with
    [e]. *)
Theorem rollback_failure_suppressed :
  forall T env (callback : Body T) p c p1 r p2 e p3 rollbackError p4,
    getInitializedClient env p = (Normal c, p1) ->
    client_execute c (SqlText "BEGIN") p1 = (Normal r, p2) ->
    run_body c callback p2 = (Throw e, p3) ->
    client_execute c (SqlText "ROLLBACK") p3 = (Throw rollbackError, p4) ->
    db_transaction env callback p = (Throw e, p4).
Proof.
  intros T env callback p c p1 r p2 e p3 rollbackError p4
         Hinit Hbegin Hbody Hrollback.
  rewrite (db_transaction_body_throws T env callback p c p1 r p2 e p3
             Hinit Hbegin Hbody).
  rewrite Hrollback. reflexivity.
Qed.

(** C6. Once initialization has succeeded, [db.get] of a statement whose
    execution returns no row resolves with [null] ([None]); [db.get]
    throws only the error the execution of its statement threw. *)
Theorem get_no_rows_is_null :
  forall env sql params p c p1,
    getInitializedClient env p = (Normal c, p1) ->
    (forall rs e',
        engine_execute (SqlArgs sql params) (engine p1) = (Normal rs, e') ->
        rows rs = [] ->
        fst (db_get env sql params p) = Normal None) /\
    (forall err,
        fst (db_get env sql params p) = Throw err ->
        exists e',
          engine_execute (SqlArgs sql params) (engine p1) = (Throw err, e')).
Proof.
  intros env sql params p c p1 Hinit. split.
  - intros rs e' Hexec Hrows.
    unfold db_get, bind, client_execute. rewrite Hinit, Hexec.
    simpl. rewrite Hrows. reflexivity.
  - intros err. unfold db_get, bind, client_execute. rewrite Hinit.
    destruct (engine_execute (SqlArgs sql params) (engine p1)) as [[rs|e0] e'];
      simpl; intros Hthrow.
    + discriminate.
    + inversion Hthrow; subst. exists e'. reflexivity.
Qed.

Lemma facade_delivered :
  forall A (f : ResultSet -> A) env sql params p,
    delivered
      (snd ((client <- getInitializedClient env ;;
             result <- client_execute client (SqlArgs sql params) ;;
             ret (f result)) p)) =
    (delivered (snd (getInitializedClient env p)) ++
     match fst (getInitializedClient env p) with
     | Normal _ => [SqlArgs sql params]
     | Throw _ => []
     end)%list.
Proof.
  intros A f env sql params p. unfold bind, ret.
  destruct (getInitializedClient env p) as [[c|e] p1]; simpl.
  - pose proof (client_execute_delivered c (SqlArgs sql params) p1) as Hd.
    destruct (client_execute c (SqlArgs sql params) p1) as [[rs|e] p2];
      exact Hd.
  - symmetry. apply app_nil_r.
Qed.

(** C9. Each of [all], [get] and [run], on [db] and on [txDb], hands
    the engine one statement made of the text [sql] as given and of
    [params] as its separate argument list; the texts that reach the
    engine are the same for any two parameter lists. *)
Theorem parameters_bound_not_interpolated :
  forall env sql params params' client p,
    let p1 := snd (getInitializedClient env p) in
    let sent :=
      match fst (getInitializedClient env p) with
      | Normal _ => [SqlArgs sql params]
      | Throw _ => []
      end in
    (delivered (snd (db_all env sql params p)) = delivered p1 ++ sent /\
     delivered (snd (db_get env sql params p)) = delivered p1 ++ sent /\
     delivered (snd (db_run env sql params p)) = delivered p1 ++ sent /\
     delivered (snd (txDb_all client sql params p)) =
       delivered p ++ [SqlArgs sql params] /\
     delivered (snd (txDb_get client sql params p)) =
       delivered p ++ [SqlArgs sql params] /\
     delivered (snd (txDb_run client sql params p)) =
       delivered p ++ [SqlArgs sql params])%list /\
    (map stmt_sql (delivered (snd (db_all env sql params p))) =
       map stmt_sql (delivered (snd (db_all env sql params' p))) /\
     map stmt_sql (delivered (snd (db_get env sql params p))) =
       map stmt_sql (delivered (snd (db_get env sql params' p))) /\
     map stmt_sql (delivered (snd (db_run env sql params p))) =
       map stmt_sql (delivered (snd (db_run env sql params' p))) /\
     map stmt_sql (delivered (snd (txDb_all client sql params p))) =
       map stmt_sql (delivered (snd (txDb_all client sql params' p))) /\
     map stmt_sql (delivered (snd (txDb_get client sql params p))) =
       map stmt_sql (delivered (snd (txDb_get client sql params' p))) /\
     map stmt_sql (delivered (snd (txDb_run client sql params p))) =
       map stmt_sql (delivered (snd (txDb_run client sql params' p)))).
Proof.
  intros env sql params params' client p p1 sent.
  assert (Htop : forall A (f : ResultSet -> A) ps,
             delivered
               (snd ((cl <- getInitializedClient env ;;
                      result <- client_execute cl (SqlArgs sql ps) ;;
                      ret (f result)) p)) =
             (delivered p1 ++
              match fst (getInitializedClient env p) with
              | Normal _ => [SqlArgs sql ps]
              | Throw _ => []
              end)%list).
  { intros A f ps. apply facade_delivered. }
  assert (Hscoped : forall A (f : ResultSet -> A) ps,
             delivered
               (snd ((result <- client_execute client (SqlArgs sql ps) ;;
                      ret (f result)) p)) =
             (delivered p ++ [SqlArgs sql ps])%list).
  { intros A f ps. unfold bind, ret.
    pose proof (client_execute_delivered client (SqlArgs sql ps) p) as Hd.
    destruct (client_execute client (SqlArgs sql ps) p) as [[rs|e] p2];
      exact Hd. }
  assert (Htexts : forall ps,
             map stmt_sql
               (match fst (getInitializedClient env p) with
                | Normal _ => [SqlArgs sql ps]
                | Throw _ => []
                end) =
             map stmt_sql
               (match fst (getInitializedClient env p) with
                | Normal _ => [SqlArgs sql params]
                | Throw _ => []
                end)).
  { intros ps. destruct (fst (getInitializedClient env p)); reflexivity. }
  split.
  - repeat split.
    + apply (Htop _ rows).
    + apply (Htop _ (fun result => nth_error (rows result) 0)).
    + apply (Htop _ (fun _ => tt)).
    + apply (Hscoped _ rows).
    + apply (Hscoped _ (fun result => nth_error (rows result) 0)).
    + apply (Hscoped _ (fun _ => tt)).
  - repeat split.
    + unfold db_all. rewrite !Htop, !map_app, (Htexts params'). reflexivity.
    + unfold db_get. rewrite !Htop, !map_app, (Htexts params'). reflexivity.
    + unfold db_run.
      rewrite (Htop _ (fun _ => tt) params), (Htop _ (fun _ => tt) params').
      rewrite !map_app, (Htexts params'). reflexivity.
    + unfold txDb_all. rewrite !Hscoped, !map_app. reflexivity.
    + unfold txDb_get. rewrite !Hscoped, !map_app. reflexivity.
    + unfold txDb_run.
      rewrite (Hscoped _ (fun _ => tt) params),
              (Hscoped _ (fun _ => tt) params').
      rewrite !map_app. reflexivity.
Qed.

(** *** What the calls leave untouched *)

Lemma client_execute_frame : forall c stmt p,
  let p' := snd (client_execute c stmt p) in
  libsqlClient p' = libsqlClient p /\
  initializationPromise p' = initializationPromise p /\
  entropy p' = entropy p /\
  init_calls p' = init_calls p.
Proof.
  intros c stmt p. unfold client_execute.
  destruct (engine_execute stmt (engine p)); simpl; auto.
Qed.

Lemma run_body_frame : forall T (body : Body T) c p,
  let p' := snd (run_body c body p) in
  libsqlClient p' = libsqlClient p /\
  initializationPromise p' = initializationPromise p.
Proof.
  induction body as [A v | A e | A sql params k IH | A sql params k IH
                     | A sql params k IH | A V cb _ k IH];
    intros c p; simpl; auto;
    unfold txDb_all, txDb_get, txDb_run, bind, ret;
    pose proof (client_execute_frame c (SqlArgs sql params) p) as Hf;
    destruct (client_execute c (SqlArgs sql params) p) as [[rs|e] p1];
    simpl in Hf; destruct Hf as [H1 [H2 _]];
    match goal with
    | |- context [run_body c (k ?o) p1] =>
        destruct (IH o c p1) as [H3 H4]
    end; split; congruence.
Qed.

(** After a successful [getInitializedClient] the promise is recorded
    as fulfilled and the client is set. *)
Lemma getInitializedClient_post : forall env p c p1,
  getInitializedClient env p = (Normal c, p1) ->
  (exists u, initializationPromise p1 = Some (Normal u)) /\
  libsqlClient p1 = Some c.
Proof.
  intros env p c p1. unfold getInitializedClient, bind.
  destruct (initializationPromise p) as [o|] eqn:Hp; simpl.
  - rewrite Hp. destruct o as [u|e]; simpl.
    + destruct (libsqlClient p) as [c0|] eqn:Hc; simpl; intros H;
        inversion H; subst. split; eauto.
    + intros H. discriminate.
  - unfold try_catch, set_initializationPromise.
    destruct (initializeDatabase env p) as [[u|e] p0]; simpl.
    + destruct (libsqlClient p0) as [c0|] eqn:Hc; simpl; intros H;
        inversion H; subst; simpl. split; eauto.
    + intros H. discriminate.
Qed.

(** On an initialized process [getInitializedClient] does nothing more. *)
Lemma getInitializedClient_ready : forall env p u c,
  initializationPromise p = Some (Normal u) ->
  libsqlClient p = Some c ->
  getInitializedClient env p = (Normal c, p).
Proof.
  intros env p u c Hp Hc. unfold getInitializedClient, bind.
  rewrite Hp. simpl. rewrite Hp, Hc. reflexivity.
Qed.

(** Once the recorded promise is rejected, [getInitializedClient] and
    with it every facade operation throws that error and does nothing
    else. *)
Lemma facade_after_failed_initialization :
  forall T env sql params (callback : Body T) p e,
    initializationPromise p = Some (Throw e) ->
    getInitializedClient env p = (Throw e, p) /\
    db_all env sql params p = (Throw e, p) /\
    db_get env sql params p = (Throw e, p) /\
    db_run env sql params p = (Throw e, p) /\
    db_transaction env callback p = (Throw e, p).
Proof.
  intros T env sql params callback p e Hp.
  assert (Hg : getInitializedClient env p = (Throw e, p)).
  { unfold getInitializedClient, bind. rewrite Hp. simpl. rewrite Hp.
    reflexivity. }
  unfold db_all, db_get, db_run, db_transaction, bind.
  rewrite Hg. repeat split.
Qed.


Lemma execute_in_order_preserves :
  forall (P : Engine -> Prop) stmts,
    (forall stmt e, In stmt stmts -> P e -> P (snd (engine_execute stmt e))) ->
    forall e, P e -> P (execute_in_order stmts e).
Proof.
  intros P stmts. induction stmts as [|stmt rest IH]; intros Hstep e He.
  - exact He.
  - simpl.
    pose proof (Hstep stmt e (or_introl eq_refl) He) as H1.
    destruct (engine_execute stmt e) as [[r|err] e1]; simpl in H1.
    + apply IH; [|exact H1].
      intros stmt' e' Hin. apply Hstep. right. exact Hin.
    + exact H1.
Qed.

(** When the client cannot be created, nothing reaches the engine. *)
Lemma initializeDatabase_no_client : forall env p e,
  libsqlClient p = None ->
  createClient (databaseUrl env) = Throw e ->
  engine (snd (initializeDatabase env p)) = engine p.
Proof.
  intros env p e Hnone Hcreate.
  unfold initializeDatabase, bind, count_init_call, call_createClient.
  simpl. rewrite Hnone, Hcreate. reflexivity.
Qed.

(** The eight statements, spelled out. *)
Lemma bootstrap_statements : forall en,
  bootstrap en =
  [SqlText create_users_sql; SqlText create_products_sql;
   SqlText create_sales_sql; SqlText create_expenses_sql;
   SqlArgs seed_user_sql (seed_user (fst (hashSync "admin123" 10 en)));
   SqlArgs seed_product_sql seed_product_1;
   SqlArgs seed_product_sql seed_product_2;
   SqlArgs seed_product_sql seed_product_3].
Proof.
  intros en. unfold bootstrap, bootstrap_length. simpl.
  destruct (hashSync "admin123" 10 en). reflexivity.
Qed.

(** [initializeDatabase] on a process without client sends the eight
    bootstrap statements, in order, up to the first that fails. *)
Lemma initializeDatabase_engine : forall env p c,
  libsqlClient p = None ->
  createClient (databaseUrl env) = Normal c ->
  engine (snd (initializeDatabase env p)) =
  execute_in_order (bootstrap (entropy p)) (engine p).
Proof.
  intros env p c Hnone Hcreate.
  unfold initializeDatabase, bind, count_init_call, call_createClient,
         set_libsqlClient, call_hashSync, client_execute, ret, bootstrap.
  simpl. rewrite Hnone, Hcreate. simpl.
  destruct (hashSync "admin123" 10 (entropy p)) as [adminHashed en'] eqn:Hh.
  simpl.
  repeat match goal with
         | |- context [hashSync "admin123" 10 (entropy p)] =>
             rewrite Hh; simpl
         | |- context [engine_execute ?s ?e] =>
             destruct (engine_execute s e) as [[?|?] ?]; simpl;
             try reflexivity
         end.
Qed.

End FacadeProperties.

(** ** The calls one after the other *)

Section SequentialProperties.

Context {platform : Platform}.

(** What [initializeDatabase] does when it has to create the client. *)
Lemma initializeDatabase_runs : forall env p c,
  libsqlClient p = None ->
  createClient (databaseUrl env) = Normal c ->
  let '(o, e', sent) := run_in_order (bootstrap (entropy p)) (engine p) in
  let p' := snd (initializeDatabase env p) in
  fst (initializeDatabase env p) = o /\
  engine p' = e' /\
  delivered p' = (delivered p ++ sent)%list /\
  libsqlClient p' = Some c /\
  initializationPromise p' = initializationPromise p /\
  init_calls p' = S (init_calls p).
Proof.
  intros env p c Hnone Hcreate.
  rewrite bootstrap_statements.
  unfold initializeDatabase, bind, count_init_call, call_createClient,
         set_libsqlClient, call_hashSync, client_execute, ret.
  simpl. rewrite Hnone, Hcreate. simpl.
  destruct (hashSync "admin123" 10 (entropy p)) as [adminHashed en'] eqn:Hh.
  simpl.
  repeat match goal with
         | |- context [hashSync "admin123" 10 (entropy p)] =>
             rewrite Hh; simpl
         | |- context [engine_execute ?s ?e] =>
             destruct (engine_execute s e) as [[?|?] ?]; simpl
         end;
    rewrite <- ?app_assoc; simpl; repeat split; reflexivity.
Qed.

Lemma run_in_order_normal : forall stmts e u e' sent,
  run_in_order stmts e = (Normal u, e', sent) ->
  sent = stmts /\ e' = execute_in_order stmts e.
Proof.
  induction stmts as [|stmt rest IH]; intros e u e' sent H; simpl in *.
  - inversion H; subst. split; reflexivity.
  - destruct (engine_execute stmt e) as [[r|err] e1].
    + destruct (run_in_order rest e1) as [[o e2] sent'] eqn:Hrest.
      inversion H; subst.
      destruct (IH e1 u e' sent' Hrest) as [Hs He]. subst. split; reflexivity.
    + discriminate.
Qed.

Lemma run_in_order_throws : forall stmts e err e' sent,
  run_in_order stmts e = (Throw err, e', sent) ->
  exists k stmt,
    k < length stmts /\
    nth_error stmts k = Some stmt /\
    sent = firstn (S k) stmts /\
    engine_execute stmt (execute_in_order (firstn k stmts) e) = (Throw err, e').
Proof.
  induction stmts as [|stmt rest IH]; intros e err e' sent H; simpl in H.
  - discriminate.
  - destruct (engine_execute stmt e) as [[r|err0] e1] eqn:Hexec.
    + destruct (run_in_order rest e1) as [[o e2] sent'] eqn:Hrest.
      inversion H; subst.
      destruct (IH e1 err e' sent' Hrest) as [k [stmt' [Hk [Hnth [Hs He]]]]].
      exists (S k), stmt'. simpl. rewrite Hexec.
      repeat split; try assumption; try lia. rewrite Hs. reflexivity.
    + inversion H; subst. exists 0, stmt. simpl.
      repeat split; try lia. exact Hexec.
Qed.

(** X3. [initializeDatabase] sends its statements in order and stops at
    the first that fails: nothing after that statement is sent, the
    error is that statement's, and the client stays recorded. *)
Theorem bootstrap_stops_at_first_failure : forall env p c,
  libsqlClient p = None ->
  createClient (databaseUrl env) = Normal c ->
  let p' := snd (initializeDatabase env p) in
  libsqlClient p' = Some c /\
  (forall u, fst (initializeDatabase env p) = Normal u ->
             delivered p' = (delivered p ++ bootstrap (entropy p))%list) /\
  (forall err,
      fst (initializeDatabase env p) = Throw err ->
      exists k stmt,
        k < bootstrap_length /\
        nth_error (bootstrap (entropy p)) k = Some stmt /\
        delivered p' = (delivered p ++ firstn (S k) (bootstrap (entropy p)))%list /\
        fst (engine_execute stmt
               (execute_in_order (firstn k (bootstrap (entropy p))) (engine p)))
        = Throw err).
Proof.
  intros env p c Hnone Hcreate p'.
  pose proof (initializeDatabase_runs env p c Hnone Hcreate) as Hruns.
  destruct (run_in_order (bootstrap (entropy p)) (engine p))
    as [[o e'] sent] eqn:Hrun.
  destruct Hruns as [Ho [He [Hd [Hc _]]]].
  split; [exact Hc|]. split.
  - intros u Hu. rewrite Ho in Hu. rewrite Hu in Hrun.
    destruct (run_in_order_normal _ _ _ _ _ Hrun) as [Hs _].
    unfold p'. rewrite Hd, Hs. reflexivity.
  - intros err Herr. rewrite Ho in Herr. rewrite Herr in Hrun.
    destruct (run_in_order_throws _ _ _ _ _ Hrun)
      as [k [stmt [Hk [Hnth [Hs Hexec]]]]].
    rewrite bootstrap_statements in Hk.
    exists k, stmt. repeat split; try assumption.
    + unfold p'. rewrite Hd, Hs. reflexivity.
    + rewrite Hexec. reflexivity.
Qed.

(** X4. The guard of [initializeDatabase] looks at the client, not at
    whether the bootstrap went through: called again after a statement
    of the bootstrap has failed, it resolves at once and sends nothing. *)
Theorem initializeDatabase_again_after_failure : forall env p c err p1,
  libsqlClient p = None ->
  createClient (databaseUrl env) = Normal c ->
  initializeDatabase env p = (Throw err, p1) ->
  fst (initializeDatabase env p1) = Normal tt /\
  delivered (snd (initializeDatabase env p1)) = delivered p1 /\
  engine (snd (initializeDatabase env p1)) = engine p1.
Proof.
  intros env p c err p1 Hnone Hcreate Hinit.
  pose proof (initializeDatabase_runs env p c Hnone Hcreate) as Hruns.
  destruct (run_in_order (bootstrap (entropy p)) (engine p))
    as [[o e'] sent].
  destruct Hruns as [_ [_ [_ [Hc _]]]].
  rewrite Hinit in Hc. simpl in Hc.
  unfold initializeDatabase, bind, count_init_call. simpl.
  rewrite Hc. repeat split.
Qed.

Lemma initializeDatabase_keeps_client : forall env p u,
  fst (initializeDatabase env p) = Normal u ->
  libsqlClient (snd (initializeDatabase env p)) <> None.
Proof.
  intros env p u Hu.
  destruct (libsqlClient p) as [c0|] eqn:Hc.
  - unfold initializeDatabase, bind, count_init_call. simpl. rewrite Hc.
    simpl. discriminate.
  - destruct (createClient (databaseUrl env)) as [c|e] eqn:Hcreate.
    + pose proof (initializeDatabase_runs env p c Hc Hcreate) as Hruns.
      destruct (run_in_order (bootstrap (entropy p)) (engine p))
        as [[o e'] sent].
      destruct Hruns as [_ [_ [_ [Hcl _]]]]. rewrite Hcl. discriminate.
    + revert Hu.
      unfold initializeDatabase, bind, count_init_call, call_createClient.
      simpl. rewrite Hc, Hcreate. simpl. discriminate.
Qed.

Lemma initializeDatabase_init_calls : forall env p,
  init_calls (snd (initializeDatabase env p)) = S (init_calls p) /\
  initializationPromise (snd (initializeDatabase env p)) = initializationPromise p.
Proof.
  intros env p.
  destruct (libsqlClient p) as [c0|] eqn:Hc.
  - unfold initializeDatabase, bind, count_init_call. simpl. rewrite Hc.
    split; reflexivity.
  - destruct (createClient (databaseUrl env)) as [c|e] eqn:Hcreate.
    + pose proof (initializeDatabase_runs env p c Hc Hcreate) as Hruns.
      destruct (run_in_order (bootstrap (entropy p)) (engine p))
        as [[o e'] sent].
      destruct Hruns as [_ [_ [_ [_ [Hp Hn]]]]]. split; assumption.
    + unfold initializeDatabase, bind, count_init_call, call_createClient.
      simpl. rewrite Hc, Hcreate. split; reflexivity.
Qed.

(** How [getInitializedClient] ends when no promise is recorded yet. *)
Lemma getInitializedClient_first : forall env p,
  initializationPromise p = None ->
  let o := fst (initializeDatabase env p) in
  let p0 := snd (initializeDatabase env p) in
  let p1 := mkProcess (libsqlClient p0) (Some o) (engine p0) (entropy p0)
                      (delivered p0) (init_calls p0) in
  getInitializedClient env p =
  (match o with
   | Throw err => Throw err
   | Normal _ =>
       match libsqlClient p0 with
       | Some c => Normal c
       | None => Throw not_initialized_error
       end
   end, p1).
Proof.
  intros env p Hp o p0 p1.
  unfold getInitializedClient, bind, try_catch, set_initializationPromise, throw.
  rewrite Hp. fold o p0.
  destruct (initializeDatabase env p) as [[u|err] q] eqn:Hinit;
    simpl in o, p0; subst o p0 p1; simpl.
  - destruct (libsqlClient q); reflexivity.
  - reflexivity.
Qed.

(** X1. A second call of [getInitializedClient] ends as the first did and
    changes nothing: nothing is sent, [initializeDatabase] is not called. *)
Theorem getInitializedClient_idempotent : forall env p,
  getInitializedClient env (snd (getInitializedClient env p)) =
  getInitializedClient env p.
Proof.
  intros env p.
  destruct (initializationPromise p) as [o|] eqn:Hp.
  - assert (H : snd (getInitializedClient env p) = p).
    { unfold getInitializedClient, bind. rewrite Hp. simpl. rewrite Hp.
      destruct o as [u|e]; [destruct (libsqlClient p)|]; reflexivity. }
    rewrite H. reflexivity.
  - rewrite (getInitializedClient_first env p Hp). simpl.
    unfold getInitializedClient, bind. simpl.
    destruct (fst (initializeDatabase env p)) as [u|err]; simpl.
    + destruct (libsqlClient (snd (initializeDatabase env p))); reflexivity.
    + reflexivity.
Qed.

(** X2. When no promise is recorded yet, the only error
    [getInitializedClient] throws is the one [initializeDatabase] threw,
    and that is what the recorded promise is rejected with: the guard
    "Database client not initialized" does not fire. *)
Theorem not_initialized_guard_never_fires : forall env p e p1,
  initializationPromise p = None ->
  getInitializedClient env p = (Throw e, p1) ->
  fst (initializeDatabase env p) = Throw e /\
  initializationPromise p1 = Some (Throw e).
Proof.
  intros env p e p1 Hp Hget.
  rewrite (getInitializedClient_first env p Hp) in Hget.
  destruct (fst (initializeDatabase env p)) as [u|err] eqn:Ho.
  - pose proof (initializeDatabase_keeps_client env p u Ho) as Hc.
    destruct (libsqlClient (snd (initializeDatabase env p))); [|congruence].
    inversion Hget.
  - inversion Hget; subst. split; reflexivity.
Qed.


Lemma initializeDatabase_resolves : forall env p u,
  libsqlClient p = None ->
  fst (initializeDatabase env p) = Normal u ->
  delivered (snd (initializeDatabase env p)) =
  (delivered p ++ bootstrap (entropy p))%list /\
  engine (snd (initializeDatabase env p)) =
  execute_in_order (bootstrap (entropy p)) (engine p).
Proof.
  intros env p u Hnone Hu.
  destruct (createClient (databaseUrl env)) as [c|e] eqn:Hcreate.
  - pose proof (initializeDatabase_runs env p c Hnone Hcreate) as Hruns.
    destruct (run_in_order (bootstrap (entropy p)) (engine p))
      as [[o e'] sent] eqn:Hrun.
    destruct Hruns as [Ho [He [Hd _]]].
    rewrite Ho in Hu. rewrite Hu in Hrun.
    destruct (run_in_order_normal _ _ _ _ _ Hrun) as [Hs He'].
    rewrite Hd, He, Hs, He'. split; reflexivity.
  - revert Hu.
    unfold initializeDatabase, bind, count_init_call, call_createClient.
    simpl. rewrite Hnone, Hcreate. simpl. discriminate.
Qed.

Lemma facade_resolved :
  forall A (f : ResultSet -> A) env sql params p a,
    fst (bind (getInitializedClient env)
           (fun client =>
              bind (client_execute client (SqlArgs sql params))
                (fun result => ret (f result))) p) = Normal a ->
    exists c, fst (getInitializedClient env p) = Normal c.
Proof.
  intros A f env sql params p a. unfold bind.
  destruct (getInitializedClient env p) as [[c|e] p1]; simpl.
  - intros _. exists c. reflexivity.
  - discriminate.
Qed.

Lemma first_call_delivered :
  forall A (f : ResultSet -> A) env sql params p a,
    libsqlClient p = None ->
    initializationPromise p = None ->
    fst (bind (getInitializedClient env)
           (fun client =>
              bind (client_execute client (SqlArgs sql params))
                (fun result => ret (f result))) p) = Normal a ->
    delivered
      (snd (bind (getInitializedClient env)
              (fun client =>
                 bind (client_execute client (SqlArgs sql params))
                   (fun result => ret (f result))) p)) =
    (delivered p ++ bootstrap (entropy p) ++ [SqlArgs sql params])%list.
Proof.
  intros A f env sql params p a Hnone Hp Ha.
  destruct (facade_resolved A f env sql params p a Ha) as [c Hc].
  rewrite facade_delivered. rewrite Hc.
  rewrite (getInitializedClient_first env p Hp) in Hc |- *. simpl in *.
  destruct (fst (initializeDatabase env p)) as [u|err] eqn:Ho;
    [|discriminate].
  destruct (initializeDatabase_resolves env p u Hnone Ho) as [Hd _].
  rewrite Hd. rewrite <- app_assoc. reflexivity.
Qed.

(** X5. A call of [db.all], [db.get] or [db.run] on a process that has
    not been initialized resolves only after the whole bootstrap: the
    eight statements have been sent, in order, and the statement of the
    call comes after them. *)
Theorem resolved_call_has_bootstrapped : forall env sql params p,
  libsqlClient p = None ->
  initializationPromise p = None ->
  (forall found,
      fst (db_all env sql params p) = Normal found ->
      delivered (snd (db_all env sql params p)) =
      (delivered p ++ bootstrap (entropy p) ++ [SqlArgs sql params])%list) /\
  (forall found,
      fst (db_get env sql params p) = Normal found ->
      delivered (snd (db_get env sql params p)) =
      (delivered p ++ bootstrap (entropy p) ++ [SqlArgs sql params])%list) /\
  (forall done,
      fst (db_run env sql params p) = Normal done ->
      delivered (snd (db_run env sql params p)) =
      (delivered p ++ bootstrap (entropy p) ++ [SqlArgs sql params])%list).
Proof.
  intros env sql params p Hnone Hp. repeat split.
  - intros found. exact (first_call_delivered _ rows env sql params p found Hnone Hp).
  - intros found.
    exact (first_call_delivered _ (fun result => nth_error (rows result) 0)
             env sql params p found Hnone Hp).
  - intros done.
    exact (first_call_delivered _ (fun _ => tt) env sql params p done Hnone Hp).
Qed.

(** X6. [db.get] and [db.run] do to the process what [db.all] does with
    the same text and parameters; [db.get] gives the first of the rows
    [db.all] gives (or null), [db.run] gives nothing, and all three fail
    with the same error. *)
Theorem get_and_run_follow_all : forall env sql params p,
  db_get env sql params p =
  (match fst (db_all env sql params p) with
   | Normal found => Normal (nth_error found 0)
   | Throw e => Throw e
   end, snd (db_all env sql params p)) /\
  db_run env sql params p =
  (match fst (db_all env sql params p) with
   | Normal _ => Normal tt
   | Throw e => Throw e
   end, snd (db_all env sql params p)).
Proof.
  intros env sql params p. unfold db_get, db_run, db_all, bind, ret.
  destruct (getInitializedClient env p) as [[c|e] p1]; simpl.
  - destruct (client_execute c (SqlArgs sql params) p1) as [[rs|e] p2];
      split; reflexivity.
  - split; reflexivity.
Qed.

Lemma run_body_delivered : forall T (body : Body T) c p,
  exists sent,
    delivered (snd (run_body c body p)) = (delivered p ++ sent)%list /\
    Forall (fun stmt => exists sql params, stmt = SqlArgs sql params) sent.
Proof.
  induction body as [A v | A e | A sql params k IH | A sql params k IH
                     | A sql params k IH | A V cb _ k IH];
    intros c p; simpl;
    try (exists []; split; [symmetry; apply app_nil_r | constructor]; fail);
    try (unfold txDb_transaction, throw; apply IH);
    unfold txDb_all, txDb_get, txDb_run, bind, ret;
    pose proof (client_execute_delivered c (SqlArgs sql params) p) as Hd;
    destruct (client_execute c (SqlArgs sql params) p) as [[rs|e] p1];
    simpl in Hd;
    match goal with
    | |- context [run_body c (k ?o) p1] =>
        destruct (IH o c p1) as [sent [Hs Hall]]
    end;
    exists (SqlArgs sql params :: sent); (split;
    [rewrite Hs, Hd, <- app_assoc; reflexivity
    | constructor; [eexists; eexists; reflexivity | exact Hall]]).
Qed.

Lemma run_body_init_calls : forall T (body : Body T) c p,
  init_calls (snd (run_body c body p)) = init_calls p.
Proof.
  induction body as [A v | A e | A sql params k IH | A sql params k IH
                     | A sql params k IH | A V cb _ k IH];
    intros c p; simpl; auto;
    unfold txDb_all, txDb_get, txDb_run, bind, ret;
    pose proof (client_execute_frame c (SqlArgs sql params) p) as Hf;
    destruct (client_execute c (SqlArgs sql params) p) as [[rs|e] p1];
    simpl in Hf; destruct Hf as [_ [_ [_ H1]]];
    match goal with
    | |- context [run_body c (k ?o) p1] => rewrite (IH o c p1)
    end; exact H1.
Qed.

(** X7. A transaction whose BEGIN went through sends, after BEGIN, the
    statements of the callback (each with its parameters apart) and
    then closes: ROLLBACK alone when the callback threw, COMMIT alone
    when the transaction resolves, COMMIT and then ROLLBACK when the
    commit failure is rethrown.  Nothing else is sent. *)
Theorem transaction_brackets_callback :
  forall T env (callback : Body T) p c p1 r p2,
    getInitializedClient env p = (Normal c, p1) ->
    client_execute c (SqlText "BEGIN") p1 = (Normal r, p2) ->
    exists sent,
      Forall (fun stmt => exists sql params, stmt = SqlArgs sql params) sent /\
      delivered (snd (run_body c callback p2)) =
      (delivered p1 ++ SqlText "BEGIN" :: sent)%list /\
      delivered (snd (db_transaction env callback p)) =
      (delivered p1 ++ SqlText "BEGIN" :: sent ++
       match fst (run_body c callback p2),
             fst (db_transaction env callback p) with
       | Throw _, _ => [SqlText "ROLLBACK"]
       | Normal _, Normal _ => [SqlText "COMMIT"]
       | Normal _, Throw _ => [SqlText "COMMIT"; SqlText "ROLLBACK"]
       end)%list.
Proof.
  intros T env callback p c p1 r p2 Hinit Hbegin.
  destruct (run_body_delivered T callback c p2) as [sent [Hsent Hall]].
  pose proof (client_execute_delivered c (SqlText "BEGIN") p1) as Hb.
  rewrite Hbegin in Hb. simpl in Hb.
  assert (Hbody : delivered (snd (run_body c callback p2)) =
                  (delivered p1 ++ SqlText "BEGIN" :: sent)%list).
  { rewrite Hsent, Hb, <- app_assoc. reflexivity. }
  exists sent. split; [exact Hall|]. split; [exact Hbody|].
  destruct (run_body c callback p2) as [[v|e] p3] eqn:Hrun; simpl in *.
  - rewrite (db_transaction_body_returns T env callback p c p1 r p2 v p3
               Hinit Hbegin Hrun).
    pose proof (client_execute_delivered c (SqlText "COMMIT") p3) as Hc.
    destruct (client_execute c (SqlText "COMMIT") p3) as [[r'|ce] p4];
      simpl in Hc.
    + simpl. rewrite Hc, Hbody, <- app_assoc. reflexivity.
    + destruct (commit_error_rethrown ce); simpl.
      * rewrite client_execute_delivered, Hc, Hbody.
        repeat rewrite <- app_assoc. reflexivity.
      * rewrite Hc, Hbody, <- app_assoc. reflexivity.
  - rewrite (db_transaction_body_throws T env callback p c p1 r p2 e p3
               Hinit Hbegin Hrun). simpl.
    rewrite client_execute_delivered, Hbody, <- app_assoc. reflexivity.
Qed.

(** X8. When BEGIN fails, [db.transaction] rejects with that error; the
    callback is not run and neither COMMIT nor ROLLBACK is sent. *)
Theorem begin_failure_ends_transaction :
  forall T env (callback : Body T) p c p1 e p2,
    getInitializedClient env p = (Normal c, p1) ->
    client_execute c (SqlText "BEGIN") p1 = (Throw e, p2) ->
    db_transaction env callback p = (Throw e, p2) /\
    delivered p2 = (delivered p1 ++ [SqlText "BEGIN"])%list.
Proof.
  intros T env callback p c p1 e p2 Hinit Hbegin. split.
  - unfold db_transaction, bind. rewrite Hinit, Hbegin. reflexivity.
  - pose proof (client_execute_delivered c (SqlText "BEGIN") p1) as Hb.
    rewrite Hbegin in Hb. exact Hb.
Qed.

Lemma getInitializedClient_init_calls : forall env p,
  let p1 := snd (getInitializedClient env p) in
  init_calls p1 =
  match initializationPromise p with
  | Some _ => init_calls p
  | None => S (init_calls p)
  end /\
  initializationPromise p1 <> None /\
  (initializationPromise p <> None ->
   initializationPromise p1 = initializationPromise p).
Proof.
  intros env p.
  destruct (initializationPromise p) as [o|] eqn:Hp.
  - assert (H : snd (getInitializedClient env p) = p).
    { unfold getInitializedClient, bind. rewrite Hp. simpl. rewrite Hp.
      destruct o as [u|e]; [destruct (libsqlClient p)|]; reflexivity. }
    simpl. rewrite H, Hp. repeat split; congruence.
  - rewrite (getInitializedClient_first env p Hp). simpl.
    destruct (initializeDatabase_init_calls env p) as [Hn _].
    repeat split; [exact Hn | discriminate | congruence].
Qed.

Lemma perform_init_calls : forall env op p,
  init_calls (perform env op p) =
  match initializationPromise p with
  | Some _ => init_calls p
  | None => S (init_calls p)
  end /\
  initializationPromise (perform env op p) <> None /\
  (initializationPromise p <> None ->
   initializationPromise (perform env op p) = initializationPromise p).
Proof.
  intros env op p.
  pose proof (getInitializedClient_init_calls env p) as Hg.
  destruct op as [sql params | sql params | sql params | T callback];
    simpl; unfold db_all, db_get, db_run, db_transaction, bind, try_catch, ret, throw;
    destruct (getInitializedClient env p) as [[c|e] p1]; simpl in *;
    try exact Hg.
  1-3: pose proof (client_execute_frame c (SqlArgs sql params) p1) as Hf;
       destruct (client_execute c (SqlArgs sql params) p1) as [[rs|e] p2];
       simpl in *; destruct Hf as [_ [Hq [_ Hn]]]; rewrite Hq, Hn; exact Hg.
  pose proof (client_execute_frame c (SqlText "BEGIN") p1) as Hf.
  destruct (client_execute c (SqlText "BEGIN") p1) as [[rs|e] p2];
    simpl in *; destruct Hf as [_ [Hq [_ Hn]]];
    [|rewrite Hq, Hn; exact Hg].
  pose proof (run_body_frame T callback c p2) as [_ Hq3].
  pose proof (run_body_init_calls T callback c p2) as Hn3.
  destruct (run_body c callback p2) as [[v|e] p3]; simpl in *.
  - pose proof (client_execute_frame c (SqlText "COMMIT") p3) as Hf.
    destruct (client_execute c (SqlText "COMMIT") p3) as [[r'|ce] p4];
      simpl in *; destruct Hf as [_ [Hq4 [_ Hn4]]].
    + rewrite Hq4, Hn4, Hq3, Hn3, Hq, Hn. exact Hg.
    + destruct (commit_error_rethrown ce); simpl.
      * pose proof (client_execute_frame c (SqlText "ROLLBACK") p4) as Hf.
        destruct (client_execute c (SqlText "ROLLBACK") p4) as [[r'|re] p5];
          simpl in *; destruct Hf as [_ [Hq5 [_ Hn5]]];
          rewrite Hq5, Hn5, Hq4, Hn4, Hq3, Hn3, Hq, Hn; exact Hg.
      * rewrite Hq4, Hn4, Hq3, Hn3, Hq, Hn. exact Hg.
  - pose proof (client_execute_frame c (SqlText "ROLLBACK") p3) as Hf.
    destruct (client_execute c (SqlText "ROLLBACK") p3) as [[r'|re] p4];
      simpl in *; destruct Hf as [_ [Hq4 [_ Hn4]]];
      rewrite Hq4, Hn4, Hq3, Hn3, Hq, Hn; exact Hg.
Qed.

(** X9. Whatever operations of the facade follow one another, and however
    each of them ends, [initializeDatabase] is called by the first of
    them only, and only when no promise was recorded before; the promise
    the first one records is the one all later ones find. *)
Theorem initialized_by_first_operation_only : forall env ops op p,
  init_calls (perform_all env (op :: ops) p) =
  match initializationPromise p with
  | Some _ => init_calls p
  | None => S (init_calls p)
  end /\
  initializationPromise (perform_all env (op :: ops) p) =
  initializationPromise (perform env op p) /\
  initializationPromise (perform env op p) <> None.
Proof.
  intros env ops op p. unfold perform_all. simpl.
  destruct (perform_init_calls env op p) as [Hn [Hsome _]].
  rewrite <- Hn. clear Hn.
  generalize dependent (perform env op p). clear p op.
  induction ops as [|op ops IH]; intros q Hsome; simpl.
  - repeat split. exact Hsome.
  - destruct (perform_init_calls env op q) as [Hn [Hsome' Hkeep]].
    destruct (IH (perform env op q) Hsome') as [H1 [H2 _]].
    rewrite H1, H2, Hn, (Hkeep Hsome).
    destruct (initializationPromise q); [|congruence].
    repeat split. discriminate.
Qed.

(** X18. On an initialized process the operations of [db] are those of
    [txDb] on the recorded client: a call of [db] made while a
    transaction is open goes to the same connection as the calls of
    [txDb], with the same result and the same effect. *)
Theorem facade_uses_the_connection_of_txDb : forall env p u c sql params,
  initializationPromise p = Some (Normal u) ->
  libsqlClient p = Some c ->
  db_all env sql params p = txDb_all c sql params p /\
  db_get env sql params p = txDb_get c sql params p /\
  db_run env sql params p = txDb_run c sql params p.
Proof.
  intros env p u c sql params Hp Hc.
  unfold db_all, db_get, db_run, txDb_all, txDb_get, txDb_run, bind.
  rewrite (getInitializedClient_ready env p u c Hp Hc).
  split; [reflexivity|]. split; reflexivity.
Qed.

End SequentialProperties.

(** ** The event loop *)

Section EventLoop.

Context {platform : Platform}.

Variable env : Env.
Variable n : nat.
Variable e0 : Engine.
Variable en0 : Entropy.

Local Abbreviation Inv := (Inv n e0 en0).

Arguments bootstrap_statement : simpl never.
Arguments bootstrap : simpl never.

Lemma nth_error_replace_nth : forall A (l : list A) i a x,
  nth_error l i = Some x -> nth_error (replace_nth i a l) i = Some a.
Proof.
  induction l as [|y l IH]; intros [|i] a x H; simpl in *;
    try discriminate; eauto.
Qed.

Lemma Forall_replace_nth : forall A (P : A -> Prop) (l : list A) i a,
  Forall P l -> P a -> Forall P (replace_nth i a l).
Proof.
  induction l as [|y l IH]; intros [|i] a Hl Ha; simpl; auto;
    inversion Hl; subst; constructor; auto.
Qed.

Lemma Forall_nth_error : forall A (P : A -> Prop) (l : list A) i x,
  Forall P l -> nth_error l i = Some x -> P x.
Proof.
  intros A P l i x Hl Hx. rewrite Forall_forall in Hl.
  apply Hl. eapply nth_error_In; eauto.
Qed.

Lemma nth_error_repeat_Idle : forall m i x,
  nth_error (repeat Idle m) i = Some x -> x = Idle.
Proof.
  intros m i x H. apply nth_error_In in H.
  apply repeat_spec in H. exact H.
Qed.

(** The bootstrap statements grow by one at each [await]. *)
Lemma bootstrap_next : forall s en,
  S s < bootstrap_length ->
  (S s = 4 -> en = en0) ->
  firstn (S (S s)) (bootstrap en0) =
  (firstn (S s) (bootstrap en0) ++ [fst (bootstrap_statement (S s) en)])%list.
Proof.
  intros s en Hlt Hen. unfold bootstrap_length in Hlt.
  do 7 (destruct s as [|s]; [ try (rewrite (Hen eq_refl)); reflexivity | ]).
  lia.
Qed.

Lemma bootstrap_entropy : forall s en,
  s <> 4 -> snd (bootstrap_statement s en) = en.
Proof.
  intros s en Hs.
  do 8 (destruct s as [|s]; [ try reflexivity; congruence | ]).
  reflexivity.
Qed.

Lemma bootstrap_complete :
  firstn bootstrap_length (bootstrap en0) = bootstrap en0.
Proof. reflexivity. Qed.

Lemma waiting_served : forall oc o callers,
  Forall waiting callers -> Forall (served oc o) callers.
Proof.
  intros oc o callers H. eapply Forall_impl; [|exact H].
  intros k [Hk|Hk]; unfold served; auto.
Qed.

Lemma step_preserves_Inv : forall ev w w',
  Inv w -> step env ev w = Some w' -> Inv w'.
Proof.
  intros ev w w' HI Hstep.
  destruct HI as [ | c callers eng en d s reply Hs Hen Hd Hc
                   | oc callers eng en d o k Hd Ho Hc
                   | oc callers eng en d o k Hd Ho Hc ].
  - (* nothing called yet *)
    destruct ev as [i|t|t|i]; simpl in Hstep.
    + destruct (nth_error (repeat Idle n) i) as [[| | |]|] eqn:Hi;
        try discriminate.
      unfold call_initializeDatabase in Hstep. simpl in Hstep.
      destruct (createClient (databaseUrl env)) as [c|e].
      * unfold issue in Hstep. simpl in Hstep.
        destruct (engine_execute (SqlText create_users_sql) e0)
          as [reply eng].
        simpl in Hstep. inversion Hstep; subst; clear Hstep.
        apply inv_running; auto.
        -- unfold bootstrap_length. lia.
        -- apply Forall_replace_nth.
           ++ apply Forall_forall. intros x Hx.
              apply repeat_spec in Hx. left. exact Hx.
           ++ right. reflexivity.
      * simpl in Hstep. inversion Hstep; subst; clear Hstep.
        apply inv_init_settled with (k := 0); auto.
        -- intros u Hu. discriminate.
        -- apply Forall_replace_nth.
           ++ apply Forall_forall. intros x Hx.
              apply repeat_spec in Hx. left. exact Hx.
           ++ right. reflexivity.
    + destruct t; discriminate.
    + destruct t; discriminate.
    + destruct (nth_error (repeat Idle n) i) as [k|] eqn:Hi;
        [|discriminate].
      apply nth_error_repeat_Idle in Hi. subst. discriminate.
  - (* initializeDatabase suspended *)
    destruct ev as [i|t|t|i]; simpl in Hstep.
    + destruct (nth_error callers i) as [[| | |]|] eqn:Hi;
        try discriminate.
      inversion Hstep; subst; clear Hstep.
      apply inv_running; auto.
      apply Forall_replace_nth; auto. right. reflexivity.
    + destruct t as [|[|t]]; simpl in Hstep; try discriminate;
        [|destruct t; discriminate].
      destruct reply as [r|e].
      * destruct (Nat.ltb (S s) bootstrap_length) eqn:Hlt.
        -- apply Nat.ltb_lt in Hlt.
           unfold issue in Hstep. simpl in Hstep.
           destruct (bootstrap_statement (S s) en) as [stmt en'] eqn:Hbs.
           destruct (engine_execute stmt eng) as [reply' eng'].
           simpl in Hstep. inversion Hstep; subst; clear Hstep.
           apply inv_running; auto.
           ++ intros Hs4.
              assert (Hne : S s <> 4) by lia.
              pose proof (bootstrap_entropy (S s) en Hne) as Hsnd.
              rewrite Hbs in Hsnd. simpl in Hsnd. subst en'.
              apply Hen. lia.
           ++ rewrite (bootstrap_next s en Hlt).
              ** rewrite Hbs. reflexivity.
              ** intros H4. apply Hen. lia.
        -- apply Nat.ltb_ge in Hlt.
           assert (Hlast : s = 7) by (unfold bootstrap_length in *; lia).
           subst s.
           inversion Hstep; subst; clear Hstep.
           apply inv_init_settled with (k := bootstrap_length).
           ++ reflexivity.
           ++ intros u _. split; [reflexivity|discriminate].
           ++ exact Hc.
      * inversion Hstep; subst; clear Hstep.
        apply inv_init_settled with (k := S s); auto.
        intros u Hu. discriminate.
    + destruct t as [|[|t]]; simpl in Hstep; try discriminate.
      destruct t; discriminate.
    + destruct (nth_error callers i) as [[|p| |]|] eqn:Hi;
        try discriminate.
      destruct (Forall_nth_error _ _ _ _ _ Hc Hi) as [Hk|Hk];
        inversion Hk; subst. discriminate.
  - (* the promise of initializeDatabase has settled *)
    destruct ev as [i|t|t|i]; simpl in Hstep.
    + destruct (nth_error callers i) as [[| | |]|] eqn:Hi;
        try discriminate.
      inversion Hstep; subst; clear Hstep.
      apply inv_init_settled with (k := k); auto.
      apply Forall_replace_nth; auto. right. reflexivity.
    + destruct t as [|[|t]]; simpl in Hstep; try discriminate.
      destruct t; discriminate.
    + destruct t as [|[|t]]; simpl in Hstep; try discriminate;
        [|destruct t; discriminate].
      inversion Hstep; subst; clear Hstep.
      apply inv_all_settled with (k := k); auto.
      apply waiting_served. exact Hc.
    + destruct (nth_error callers i) as [[|p| |]|] eqn:Hi;
        try discriminate.
      destruct (Forall_nth_error _ _ _ _ _ Hc Hi) as [Hk|Hk];
        inversion Hk; subst. discriminate.
  - (* the recorded promise has settled *)
    destruct ev as [i|t|t|i]; simpl in Hstep.
    + destruct (nth_error callers i) as [[| | |]|] eqn:Hi;
        try discriminate.
      inversion Hstep; subst; clear Hstep.
      apply inv_all_settled with (k := k); auto.
      apply Forall_replace_nth; auto. right. left. reflexivity.
    + destruct t as [|[|t]]; simpl in Hstep; try discriminate.
      destruct t; discriminate.
    + destruct t as [|[|t]]; simpl in Hstep; try discriminate.
      destruct t; discriminate.
    + destruct (nth_error callers i) as [[|p| |]|] eqn:Hi;
        try discriminate.
      destruct (Forall_nth_error _ _ _ _ _ Hc Hi) as [Hk|[Hk|[Hk|Hk]]];
        try discriminate.
      2: { destruct Hk as [c [Hk _]]. discriminate. }
      2: { destruct Hk as [e [Hk _]]. discriminate. }
      inversion Hk; subst. simpl in Hstep.
      destruct o as [u|err].
      * destruct (Ho u eq_refl) as [Hall Hoc].
        destruct oc as [c|]; [|congruence].
        inversion Hstep; subst; clear Hstep.
        apply inv_all_settled with (k := k); auto.
        apply Forall_replace_nth; auto.
        right. right. left. exists c. destruct u. auto.
      * inversion Hstep; subst; clear Hstep.
        apply inv_all_settled with (k := k); auto.
        apply Forall_replace_nth; auto.
        right. right. right. exists err. auto.
Qed.

Lemma run_preserves_Inv : forall evs w w',
  Inv w -> run env evs w = Some w' -> Inv w'.
Proof.
  induction evs as [|ev evs IH]; intros w w' HI Hrun; simpl in Hrun.
  - inversion Hrun; subst. exact HI.
  - destruct (step env ev w) as [w1|] eqn:Hstep; [|discriminate].
    eapply IH; [|exact Hrun]. eapply step_preserves_Inv; eauto.
Qed.

(** C1. Whatever the order in which first-time callers and the
    pending work are scheduled: [initializeDatabase] is called at
    most once; as soon as some caller has called, it has been called
    once and its promise is recorded; every caller that is waiting
    awaits that recorded promise; the statements that have reached the
    engine are an initial part of the eight bootstrap statements, each
    sent once and in order; and when a caller has got its client, all
    eight have been sent. *)
Theorem initialization_runs_once : forall evs w,
  run env evs (initial_world n e0 en0) = Some w ->
  w_init_calls w <= 1 /\
  (Exists (fun k => k <> Idle) (w_callers w) ->
   w_init_calls w = 1 /\ exists p, w_initializationPromise w = Some p) /\
  (forall i p,
      nth_error (w_callers w) i = Some (Awaiting p) ->
      w_initializationPromise w = Some p) /\
  (exists k, w_delivered w = firstn k (bootstrap en0)) /\
  (forall i c,
      nth_error (w_callers w) i = Some (Returned c) ->
      w_libsqlClient w = Some c /\ w_delivered w = bootstrap en0).
Proof.
  intros evs w Hrun.
  assert (HI : Inv w) by (eapply run_preserves_Inv; [apply inv_fresh|eauto]).
  destruct HI as [ | c callers eng en d s reply Hs Hen Hd Hc
                   | oc callers eng en d o k Hd Ho Hc
                   | oc callers eng en d o k Hd Ho Hc ]; simpl.
  - split; [lia|]. split.
    { intros Hex. apply Exists_exists in Hex.
      destruct Hex as [k [Hin Hk]]. apply repeat_spec in Hin. congruence. }
    split.
    { intros i p Hi. apply nth_error_repeat_Idle in Hi. discriminate. }
    split.
    { exists 0. reflexivity. }
    intros i c Hi. apply nth_error_repeat_Idle in Hi. discriminate.
  - split; [lia|]. split; [intros _; split; [reflexivity|exists 1; reflexivity]|]. split.
    { intros i p Hi.
      destruct (Forall_nth_error _ _ _ _ _ Hc Hi) as [Hk|Hk];
        inversion Hk; reflexivity. }
    split.
    { exists (S s). exact Hd. }
    intros i c0 Hi.
    destruct (Forall_nth_error _ _ _ _ _ Hc Hi) as [Hk|Hk]; discriminate.
  - split; [lia|]. split; [intros _; split; [reflexivity|exists 1; reflexivity]|]. split.
    { intros i p Hi.
      destruct (Forall_nth_error _ _ _ _ _ Hc Hi) as [Hk|Hk];
        inversion Hk; reflexivity. }
    split.
    { exists k. exact Hd. }
    intros i c0 Hi.
    destruct (Forall_nth_error _ _ _ _ _ Hc Hi) as [Hk|Hk]; discriminate.
  - split; [lia|]. split; [intros _; split; [reflexivity|exists 1; reflexivity]|]. split.
    { intros i p Hi.
      destruct (Forall_nth_error _ _ _ _ _ Hc Hi) as [Hk|[Hk|[Hk|Hk]]].
      - discriminate.
      - inversion Hk; reflexivity.
      - destruct Hk as [c0 [Hk _]]. discriminate.
      - destruct Hk as [e [Hk _]]. discriminate. }
    split.
    { exists k. exact Hd. }
    intros i c0 Hi.
    destruct (Forall_nth_error _ _ _ _ _ Hc Hi) as [Hk|[Hk|[Hk|Hk]]].
    + discriminate.
    + discriminate.
    + destruct Hk as [c1 [Hk [Hoc Hn]]]. inversion Hk; subst.
      split; [reflexivity|]. apply (Ho tt eq_refl).
    + destruct Hk as [e [Hk _]]. discriminate.
Qed.

Lemma Inv_failed : forall w p e,
  Inv w ->
  w_initializationPromise w = Some p ->
  nth_error (w_promises w) p = Some (Settled (Throw e)) ->
  p = 1 /\ failed e (w_delivered w) w.
Proof.
  intros w p e HI Hp He.
  destruct HI as [ | c callers eng en d s reply Hs Hen Hd Hc
                   | oc callers eng en d o k Hd Ho Hc
                   | oc callers eng en d o k Hd Ho Hc ];
    simpl in Hp, He; try discriminate;
    inversion Hp; subst p; simpl in He; try discriminate.
  inversion He; subst o. split; [reflexivity|].
  exists oc, callers, eng, en. split; [reflexivity | exact Hc].
Qed.

Lemma step_failed : forall e d ev w w',
  failed e d w -> step env ev w = Some w' -> failed e d w'.
Proof.
  intros e d ev w w' [oc [callers [eng [en [Hw Hc]]]]] Hstep. subst w.
  destruct ev as [i|t|t|i]; simpl in Hstep.
  - destruct (nth_error callers i) as [[| | |]|] eqn:Hi; try discriminate.
    inversion Hstep; subst; clear Hstep.
    exists oc, (replace_nth i (Awaiting 1) callers), eng, en.
    split; [reflexivity|].
    apply Forall_replace_nth; auto. right. left. reflexivity.
  - destruct t as [|[|t]]; simpl in Hstep; try discriminate.
    destruct t; discriminate.
  - destruct t as [|[|t]]; simpl in Hstep; try discriminate.
    destruct t; discriminate.
  - destruct (nth_error callers i) as [[|p| |]|] eqn:Hi; try discriminate.
    destruct (Forall_nth_error _ _ _ _ _ Hc Hi) as [Hk|[Hk|[Hk|Hk]]];
      try discriminate.
    2: { destruct Hk as [c [Hk _]]. discriminate. }
    2: { destruct Hk as [e1 [Hk _]]. discriminate. }
    inversion Hk; subst. simpl in Hstep.
    inversion Hstep; subst; clear Hstep.
    exists oc, (replace_nth i (Threw e) callers), eng, en.
    split; [reflexivity|].
    apply Forall_replace_nth; auto.
    right. right. right. exists e. auto.
Qed.

Lemma run_failed : forall e d evs w w',
  failed e d w -> run env evs w = Some w' -> failed e d w'.
Proof.
  induction evs as [|ev evs IH]; intros w w' Hf Hrun; simpl in Hrun.
  - inversion Hrun; subst. exact Hf.
  - destruct (step env ev w) as [w1|] eqn:Hstep; [|discriminate].
    eapply IH; [|exact Hrun]. eapply step_failed; eauto.
Qed.

(** C7. Once the recorded promise is rejected with [e], it stays the
    recorded promise and stays rejected with [e] under every further
    schedule: [initializeDatabase] is not called again and nothing
    more reaches the engine; no caller gets a client; a caller that
    was waiting resumes with [e]; and a caller that calls afterwards
    awaits that same promise and resumes with [e]. *)
Theorem failed_initialization_is_terminal :
  forall evs w p e evs' w',
    run env evs (initial_world n e0 en0) = Some w ->
    w_initializationPromise w = Some p ->
    nth_error (w_promises w) p = Some (Settled (Throw e)) ->
    run env evs' w = Some w' ->
    w_initializationPromise w' = Some p /\
    nth_error (w_promises w') p = Some (Settled (Throw e)) /\
    w_init_calls w' = w_init_calls w /\
    w_delivered w' = w_delivered w /\
    (forall i k,
        nth_error (w_callers w') i = Some k ->
        k = Idle \/ k = Awaiting p \/ k = Threw e) /\
    (forall i,
        nth_error (w_callers w') i = Some (Awaiting p) ->
        exists w2,
          step env (ResumeCaller i) w' = Some w2 /\
          nth_error (w_callers w2) i = Some (Threw e)) /\
    (forall i,
        nth_error (w_callers w') i = Some Idle ->
        exists w1 w2,
          step env (Call i) w' = Some w1 /\
          nth_error (w_callers w1) i = Some (Awaiting p) /\
          step env (ResumeCaller i) w1 = Some w2 /\
          nth_error (w_callers w2) i = Some (Threw e) /\
          w_init_calls w2 = w_init_calls w /\
          w_delivered w2 = w_delivered w).
Proof.
  intros evs w p e evs' w' Hrun Hp He Hrun'.
  assert (HI : Inv w) by (eapply run_preserves_Inv; [apply inv_fresh|eauto]).
  destruct (Inv_failed w p e HI Hp He) as [Hp1 Hf]. subst p.
  assert (Hcalls : w_init_calls w = 1).
  { destruct Hf as [oc [callers [eng [en [Hw _]]]]]. rewrite Hw. reflexivity. }
  pose proof (run_failed _ _ _ _ _ Hf Hrun') as Hf'.
  destruct Hf' as [oc [callers [eng [en [Hw' Hc]]]]].
  rewrite Hcalls. subst w'. simpl.
  repeat split.
  - intros i k Hi.
    destruct (Forall_nth_error _ _ _ _ _ Hc Hi) as [Hk|[Hk|[Hk|Hk]]]; auto.
    + destruct Hk as [c [_ [_ Habs]]]. discriminate.
    + destruct Hk as [e1 [Hk He1]]. inversion He1; subst. auto.
  - intros i Hi. rewrite Hi. simpl.
    eexists. split; [reflexivity|]. simpl.
    eapply nth_error_replace_nth; eauto.
  - intros i Hi. rewrite Hi. simpl.
    eexists. eexists. split; [reflexivity|]. simpl.
    rewrite (nth_error_replace_nth _ _ _ _ _ Hi). simpl.
    split; [reflexivity|]. split; [reflexivity|]. simpl.
    split; [|split; reflexivity].
    eapply nth_error_replace_nth.
    eapply nth_error_replace_nth; eauto.
Qed.

End EventLoop.

(** ** One caller: the event loop and the run-to-completion reading *)

Section RunToCompletion.

Context {platform : Platform}.

Ltac crunch :=
  repeat (cbn;
          unfold call_initializeDatabase, issue, bootstrap_statement,
                 alloc, spawn, settle, counted, with_client, with_promises,
                 with_tasks, with_callers, with_initializationPromise,
                 getInitializedClient, initializeDatabase, bind, try_catch,
                 throw, ret, count_init_call, call_createClient,
                 set_libsqlClient, set_initializationPromise, call_hashSync,
                 client_execute;
          cbn;
          try match goal with
              | H : createClient _ = _ |- _ => rewrite H
              | H : engine_execute _ _ = _ |- _ => rewrite H
              | H : hashSync _ _ _ = _ |- _ => rewrite H
              end).

Ltac lone k :=
  exists k; eexists; split;
  [ unfold lone_schedule; crunch; reflexivity
  | crunch; unfold same_state; cbn; repeat split; exists 1; split; reflexivity ].

(** For a caller that is alone, the event loop ends where
    [getInitializedClient], read as one uninterrupted call, ends: same
    outcome for the caller, same module state, same statements sent. *)
Lemma lone_caller_agrees : forall env e en,
  exists resumes w,
    run env (lone_schedule resumes) (initial_world 1 e en) = Some w /\
    let r := getInitializedClient env (mkProcess None None e en [] 0) in
    nth_error (w_callers w) 0 =
      Some (match fst r with
            | Normal c => Returned c
            | Throw err => Threw err
            end) /\
    same_state w (snd r).
Proof.
  intros env e en.
  destruct (createClient (databaseUrl env)) as [c|err] eqn:Hc; [|lone 0].
  destruct (hashSync "admin123" 10 en) as [h en'] eqn:Hh.
  destruct (engine_execute (SqlText create_users_sql) e)
    as [[r0|x0] e1] eqn:H0; [|lone 1].
  destruct (engine_execute (SqlText create_products_sql) e1)
    as [[r1|x1] e2] eqn:H1; [|lone 2].
  destruct (engine_execute (SqlText create_sales_sql) e2)
    as [[r2|x2] e3] eqn:H2; [|lone 3].
  destruct (engine_execute (SqlText create_expenses_sql) e3)
    as [[r3|x3] e4] eqn:H3; [|lone 4].
  destruct (engine_execute (SqlArgs seed_user_sql (seed_user h)) e4)
    as [[r4|x4] e5] eqn:H4; [|lone 5].
  destruct (engine_execute (SqlArgs seed_product_sql seed_product_1) e5)
    as [[r5|x5] e6] eqn:H5; [|lone 6].
  destruct (engine_execute (SqlArgs seed_product_sql seed_product_2) e6)
    as [[r6|x6] e7] eqn:H6; [|lone 7].
  destruct (engine_execute (SqlArgs seed_product_sql seed_product_3) e7)
    as [[r7|x7] e8] eqn:H7; lone 8.
Qed.

End RunToCompletion.

(** ** Every schedule of the event loop *)

Section ScheduleIndependence.

Context {platform : Platform}.

Variable env : Env.

#[local] Arguments bootstrap_statement : simpl never.
#[local] Arguments bootstrap : simpl never.

Lemma erase_with_callers : forall cs (w : World),
  erase (with_callers cs w) = erase w.
Proof. reflexivity. Qed.

Lemma step_erase : forall n e0 en0 ev w w',
  Inv n e0 en0 w -> step env ev w = Some w' ->
  erase w' = erase w \/ erase w' = tick env (erase w).
Proof.
  intros n e0 en0 ev w w' HI Hstep.
  destruct HI as [ | c callers eng en d s reply Hs Hen Hd Hc
                   | oc callers eng en d o k Hd Ho Hc
                   | oc callers eng en d o k Hd Ho Hc ].
  - destruct ev as [i|t|t|i]; simpl in Hstep.
    + destruct (nth_error (repeat Idle n) i) as [[| | |]|] eqn:Hi;
        try discriminate.
      right. unfold tick, start. simpl.
      unfold call_initializeDatabase in *. simpl in *.
      destruct (createClient (databaseUrl env)) as [c|e].
      * unfold issue in *. simpl in *.
        destruct (engine_execute (SqlText create_users_sql) e0)
          as [reply eng].
        simpl in *. inversion Hstep; subst; clear Hstep. reflexivity.
      * simpl in *. inversion Hstep; subst; clear Hstep. reflexivity.
    + destruct t; discriminate.
    + destruct t; discriminate.
    + destruct (nth_error (repeat Idle n) i) as [k|] eqn:Hi;
        [|discriminate].
      apply nth_error_repeat_Idle in Hi. subst. discriminate.
  - destruct ev as [i|t|t|i]; simpl in Hstep.
    + destruct (nth_error callers i) as [[| | |]|]; try discriminate.
      inversion Hstep; subst. left. reflexivity.
    + destruct t as [|[|[|t]]]; simpl in Hstep; try discriminate.
      right. unfold tick. simpl.
      destruct reply as [r|x].
      * destruct (Nat.ltb (S s) bootstrap_length).
        -- unfold issue in *. simpl in *.
           destruct (bootstrap_statement (S s) en) as [stmt en'].
           destruct (engine_execute stmt eng) as [reply' eng'].
           inversion Hstep; subst. reflexivity.
        -- inversion Hstep; subst. reflexivity.
      * inversion Hstep; subst. reflexivity.
    + destruct t as [|[|[|t]]]; simpl in Hstep; discriminate.
    + destruct (nth_error callers i) as [kc|] eqn:Hi; [|discriminate].
      destruct (Forall_nth_error _ _ _ _ _ Hc Hi) as [Hk|Hk]; subst kc;
        simpl in Hstep; discriminate.
  - destruct ev as [i|t|t|i]; simpl in Hstep.
    + destruct (nth_error callers i) as [[| | |]|]; try discriminate.
      inversion Hstep; subst. left. reflexivity.
    + destruct t as [|[|[|t]]]; simpl in Hstep; discriminate.
    + destruct t as [|[|[|t]]]; simpl in Hstep; try discriminate.
      inversion Hstep; subst. right. reflexivity.
    + destruct (nth_error callers i) as [kc|] eqn:Hi; [|discriminate].
      destruct (Forall_nth_error _ _ _ _ _ Hc Hi) as [Hk|Hk]; subst kc;
        simpl in Hstep; discriminate.
  - destruct ev as [i|t|t|i]; simpl in Hstep.
    + destruct (nth_error callers i) as [[| | |]|]; try discriminate.
      inversion Hstep; subst. left. reflexivity.
    + destruct t as [|[|[|t]]]; simpl in Hstep; discriminate.
    + destruct t as [|[|[|t]]]; simpl in Hstep; discriminate.
    + destruct (nth_error callers i) as [[|p| |]|] eqn:Hi; try discriminate.
      destruct (nth_error [Settled o; Settled o] p) as [[|[u|x]]|];
        try discriminate.
      * destruct oc; inversion Hstep; subst; left; reflexivity.
      * inversion Hstep; subst; left; reflexivity.
Qed.

Lemma run_erase : forall n e0 en0 evs w w',
  Inv n e0 en0 w -> run env evs w = Some w' ->
  exists k, erase w' = Nat.iter k (tick env) (erase w).
Proof.
  intros n e0 en0.
  induction evs as [|ev evs IH]; intros w w' HI Hrun; simpl in Hrun.
  - inversion Hrun; subst. exists 0. reflexivity.
  - destruct (step env ev w) as [w1|] eqn:Hstep; [|discriminate].
    pose proof (step_preserves_Inv env n e0 en0 ev w w1 HI Hstep) as HI1.
    destruct (IH w1 w' HI1 Hrun) as [k Hk].
    destruct (step_erase n e0 en0 ev w w1 HI Hstep) as [He|He].
    + exists k. rewrite Hk, He. reflexivity.
    + exists (S k). rewrite Hk, He. symmetry. apply Nat.iter_succ_r.
Qed.


Lemma iter_fixpoint : forall A (f : A -> A) x k,
  f x = x -> Nat.iter k f x = x.
Proof.
  intros A f x k Hx. induction k as [|k IH]; simpl.
  - reflexivity.
  - rewrite IH. exact Hx.
Qed.

Lemma iter_meet : forall A (f : A -> A) x0 k k',
  f (Nat.iter k f x0) = Nat.iter k f x0 ->
  f (Nat.iter k' f x0) = Nat.iter k' f x0 ->
  Nat.iter k f x0 = Nat.iter k' f x0.
Proof.
  intros A f x0 k k' Hk Hk'.
  destruct (Nat.le_ge_cases k k') as [Hle|Hle].
  - replace k' with ((k' - k) + k) by lia.
    rewrite Nat.iter_add. symmetry. apply iter_fixpoint. exact Hk.
  - replace k with ((k - k') + k') by lia.
    rewrite Nat.iter_add. apply iter_fixpoint. exact Hk'.
Qed.

(** A caller has finished only when both promises have settled. *)
Lemma finished_settled : forall n e0 en0 w i k,
  Inv n e0 en0 w ->
  nth_error (w_callers w) i = Some k ->
  (exists c, k = Returned c) \/ (exists e, k = Threw e) ->
  exists o,
    w_promises w = [Settled o; Settled o] /\
    w_tasks w = [TDone; TDone] /\
    w_initializationPromise w = Some 1 /\
    served (w_libsqlClient w) o k.
Proof.
  intros n e0 en0 w i k HI Hi Hk.
  assert (Hnw : ~ waiting k).
  { intros [H|H]; subst k; destruct Hk as [[? H]|[? H]]; discriminate. }
  destruct HI as [ | c callers eng en d s reply Hs Hen Hd Hc
                   | oc callers eng en d o j Hd Ho Hc
                   | oc callers eng en d o j Hd Ho Hc ]; simpl in *.
  - apply nth_error_repeat_Idle in Hi. subst k. exfalso. apply Hnw. left.
    reflexivity.
  - exfalso. apply Hnw. exact (Forall_nth_error _ _ _ _ _ Hc Hi).
  - exfalso. apply Hnw. exact (Forall_nth_error _ _ _ _ _ Hc Hi).
  - exists o. repeat split. exact (Forall_nth_error _ _ _ _ _ Hc Hi).
Qed.

Lemma settled_tick : forall (w : World),
  w_tasks w = [TDone; TDone] ->
  w_initializationPromise w = Some 1 ->
  tick env (erase w) = erase w.
Proof.
  intros w Ht Hp. unfold tick. simpl. rewrite Ht. simpl. rewrite Hp.
  reflexivity.
Qed.

Lemma same_state_erase : forall (w w' : World) p,
  erase w = erase w' -> same_state w' p -> same_state w p.
Proof.
  intros w w' p He [H1 [H2 [H3 [H4 [H5 [pid [H6 H7]]]]]]].
  unfold same_state.
  rewrite <- H1, <- H2, <- H3, <- H4, <- H5.
  repeat split.
  - exact (f_equal w_libsqlClient He).
  - exact (f_equal w_engine He).
  - exact (f_equal w_entropy He).
  - exact (f_equal w_delivered He).
  - exact (f_equal w_init_calls He).
  - exists pid. split.
    + exact (eq_trans (f_equal w_initializationPromise He) H6).
    + exact (eq_trans (f_equal (fun x => nth_error (w_promises x) pid) He) H7).
Qed.

(** X12. Whatever the number of callers and the order in which they and
    the pending work are scheduled: a caller that has finished has got
    what [getInitializedClient], read as one uninterrupted call on the
    fresh process, gives, and the module state (client, engine,
    statements sent, calls of [initializeDatabase], recorded promise)
    is the one that call leaves. *)
Theorem every_schedule_agrees : forall n e0 en0 evs w i k,
  run env evs (initial_world n e0 en0) = Some w ->
  nth_error (w_callers w) i = Some k ->
  (exists c, k = Returned c) \/ (exists e, k = Threw e) ->
  let r := getInitializedClient env (mkProcess None None e0 en0 [] 0) in
  k = match fst r with
      | Normal c => Returned c
      | Throw err => Threw err
      end /\
  same_state w (snd r).
Proof.
  intros n e0 en0 evs w i k Hrun Hi Hk r.
  destruct (lone_caller_agrees env e0 en0) as [resumes [wl [Hl [Hl0 Hls]]]].
  fold r in Hl0, Hls.
  assert (HI : Inv n e0 en0 w)
    by (eapply run_preserves_Inv; [apply inv_fresh|exact Hrun]).
  assert (HIl : Inv 1 e0 en0 wl)
    by (eapply run_preserves_Inv; [apply inv_fresh|exact Hl]).
  assert (Hkl : (exists c, match fst r with
                           | Normal c => Returned c
                           | Throw err => Threw err
                           end = Returned c) \/
                (exists e, match fst r with
                           | Normal c => Returned c
                           | Throw err => Threw err
                           end = Threw e)).
  { destruct (fst r) as [c|err]; [left|right]; eexists; reflexivity. }
  destruct (finished_settled _ _ _ _ _ _ HI Hi Hk) as [o [Hp [Ht [Hq Hs]]]].
  destruct (finished_settled _ _ _ _ _ _ HIl Hl0 Hkl)
    as [ol [Hpl [Htl [Hql Hsl]]]].
  destruct (run_erase _ _ _ _ _ _ (inv_fresh n e0 en0) Hrun) as [j Hj].
  destruct (run_erase _ _ _ _ _ _ (inv_fresh 1 e0 en0) Hl) as [jl Hjl].
  change (erase (initial_world n e0 en0)) with (initial_world 0 e0 en0) in Hj.
  change (erase (initial_world 1 e0 en0)) with (initial_world 0 e0 en0) in Hjl.
  assert (He : erase w = erase wl).
  { rewrite Hj, Hjl. apply iter_meet.
    - rewrite <- Hj. apply settled_tick; assumption.
    - rewrite <- Hjl. apply settled_tick; assumption. }
  split; [|exact (same_state_erase w wl (snd r) He Hls)].
  assert (Hoc : w_libsqlClient w = w_libsqlClient wl)
    by exact (f_equal w_libsqlClient He).
  assert (Ho : o = ol).
  { pose proof (f_equal w_promises He) as Hps. simpl in Hps.
    rewrite Hp, Hpl in Hps. inversion Hps. reflexivity. }
  subst ol. rewrite <- Hoc in Hsl.
  destruct Hk as [[c Hc]|[e Hc]]; subst k;
    destruct Hs as [Hs|[Hs|[[c1 [Hs [Hs1 Hs2]]]|[e1 [Hs Hs1]]]]];
    try discriminate; inversion Hs; subst;
    destruct (fst r) as [c2|e2];
    destruct Hsl as [Hsl|[Hsl|[[c3 [Hsl [Hsl1 Hsl2]]]|[e3 [Hsl Hsl1]]]]];
    try discriminate; inversion Hsl; subst; congruence.
Qed.


Lemma run_app : forall evs evs' (w w1 : World),
  run env evs w = Some w1 ->
  run env (evs ++ evs') w = run env evs' w1.
Proof.
  induction evs as [|ev evs IH]; intros evs' w w1 Hrun; simpl in *.
  - inversion Hrun; subst. reflexivity.
  - destruct (step env ev w) as [w2|]; [|discriminate].
    apply IH. exact Hrun.
Qed.

(** A suspended bootstrap comes to its end when it is resumed often
    enough: its promise settles. *)
Lemma bootstrap_settles : forall d s c callers eng en dl reply,
  s + d = bootstrap_length ->
  s < bootstrap_length ->
  exists m w1 o,
    run env (repeat (ResumeInit 0) m)
        (mkWorld (Some c) (Some 1) [Pending; Pending]
                 [TInit 0 s reply; TCatch 0 1] callers eng en dl 1)
    = Some w1 /\
    w_promises w1 = [Settled o; Pending] /\
    w_tasks w1 = [TDone; TCatch 0 1] /\
    w_callers w1 = callers.
Proof.
  induction d as [|d IH]; intros s c callers eng en dl reply Hsd Hs.
  - lia.
  - destruct reply as [r|x].
    + destruct (Nat.ltb (S s) bootstrap_length) eqn:Hlt.
      * apply Nat.ltb_lt in Hlt.
        destruct (bootstrap_statement (S s) en) as [stmt en'] eqn:Hb.
        destruct (engine_execute stmt eng) as [reply' eng'] eqn:He.
        destruct (IH (S s) c callers eng' en' (dl ++ [stmt])%list reply')
          as [m [w1 [o [Hrun H]]]]; [lia|exact Hlt|].
        exists (S m), w1, o. split; [|exact H].
        simpl. apply Nat.ltb_lt in Hlt. rewrite Hlt.
        unfold issue. simpl. rewrite Hb, He. exact Hrun.
      * exists 1, (mkWorld (Some c) (Some 1) [Settled (Normal tt); Pending]
                           [TDone; TCatch 0 1] callers eng en dl 1),
               (Normal tt).
        simpl. rewrite Hlt. repeat split.
    + exists 1, (mkWorld (Some c) (Some 1) [Settled (Throw x); Pending]
                         [TDone; TCatch 0 1] callers eng en dl 1),
             (Throw x).
      simpl. repeat split.
Qed.

(** Once the promise has settled, the waiting callers can all be
    resumed, each with a client or an error. *)
Lemma resume_all : forall o callers pre (w : World),
  w_callers w = (pre ++ callers)%list ->
  w_promises w = [Settled o; Settled o] ->
  Forall (fun k => forall p, k = Awaiting p -> p = 1) callers ->
  exists w' callers',
    run env (resume_from (length pre) callers) w = Some w' /\
    w_callers w' = (pre ++ callers')%list /\
    Forall (fun k => k = Idle \/ (exists c, k = Returned c) \/
                     (exists e, k = Threw e)) callers'.
Proof.
  intros o. induction callers as [|k0 callers IH]; intros pre w Hc Hp Hall.
  - exists w, []. repeat split; [exact Hc|constructor].
  - inversion Hall as [|k1 l1 Hk0 Hall']; subst.
    assert (Hnext : forall (w1 : World) k0',
               w_callers w1 = (pre ++ k0' :: callers)%list ->
               w_promises w1 = [Settled o; Settled o] ->
               (k0' = Idle \/ (exists c, k0' = Returned c) \/
                (exists e, k0' = Threw e)) ->
               exists w' callers',
                 run env (resume_from (S (length pre)) callers) w1 = Some w' /\
                 w_callers w' = (pre ++ callers')%list /\
                 Forall (fun k => k = Idle \/ (exists c, k = Returned c) \/
                                  (exists e, k = Threw e)) callers').
    { intros w1 k0' Hc1 Hp1 Hk0'.
      destruct (IH (pre ++ [k0'])%list w1) as [w' [callers' [Hrun [Hc' Ha]]]];
        [rewrite Hc1, <- app_assoc; reflexivity | exact Hp1 | exact Hall' |].
      exists w', (k0' :: callers'). split; [|split].
      - rewrite length_app in Hrun. simpl in Hrun.
        rewrite Nat.add_1_r in Hrun. exact Hrun.
      - rewrite Hc', <- app_assoc. reflexivity.
      - constructor; assumption. }
    assert (Hat : nth_error (w_callers w) (length pre) = Some k0).
    { rewrite Hc, nth_error_app2, Nat.sub_diag; [reflexivity|lia]. }
    assert (Hrep : forall k', replace_nth (length pre) k' (w_callers w) =
                              (pre ++ k' :: callers)%list).
    { intros k'. rewrite Hc. clear. induction pre as [|x pre IHp]; simpl.
      - reflexivity.
      - rewrite IHp. reflexivity. }
    destruct k0 as [|p|c|e]; simpl.
    + apply (Hnext w Idle Hc Hp). left. reflexivity.
    + rewrite (Hk0 p eq_refl) in *. rewrite Hat. rewrite Hp. simpl.
      destruct o as [u|x].
      * destruct (w_libsqlClient w) as [c|] eqn:Hcl.
        -- apply (Hnext _ (Returned c)); [apply Hrep|exact Hp|].
           right. left. eexists. reflexivity.
        -- apply (Hnext _ (Threw not_initialized_error));
             [apply Hrep|exact Hp|].
           right. right. eexists. reflexivity.
      * apply (Hnext _ (Threw x)); [apply Hrep|exact Hp|].
        right. right. eexists. reflexivity.
    + apply (Hnext w (Returned c) Hc Hp). right. left. eexists. reflexivity.
    + apply (Hnext w (Threw e) Hc Hp). right. right. eexists. reflexivity.
Qed.

Lemma served_awaits_recorded : forall oc o callers,
  Forall (served oc o) callers ->
  Forall (fun k => forall p, k = Awaiting p -> p = 1) callers.
Proof.
  intros oc o callers Hs. eapply Forall_impl; [|exact Hs].
  intros k [H|[H|[[c [H _]]|[e [H _]]]]] p Hk; subst k;
    try discriminate. inversion Hk. reflexivity.
Qed.

(** X13. No caller is left waiting: from wherever a schedule has led,
    the event loop can go on (the bootstrap resumes until its promise
    settles, the [.catch] reaction passes the result on, the waiting
    callers resume) until every caller that has called has its client
    or its error. *)
Theorem every_caller_is_answered : forall n e0 en0 evs w,
  run env evs (initial_world n e0 en0) = Some w ->
  exists evs' w',
    run env evs' w = Some w' /\
    forall i k,
      nth_error (w_callers w') i = Some k ->
      k = Idle \/ (exists c, k = Returned c) \/ (exists e, k = Threw e).
Proof.
  intros n e0 en0 evs w Hrun.
  assert (HI : Inv n e0 en0 w)
    by (eapply run_preserves_Inv; [apply inv_fresh|exact Hrun]).
  assert (Hsettled : forall (w2 : World) oc o,
             w_promises w2 = [Settled o; Settled o] ->
             Forall (served oc o) (w_callers w2) ->
             exists evs2 w',
               run env evs2 w2 = Some w' /\
               forall i k,
                 nth_error (w_callers w') i = Some k ->
                 k = Idle \/ (exists c, k = Returned c) \/
                 (exists e, k = Threw e)).
  { intros w2 oc o Hp Hs.
    destruct (resume_all o (w_callers w2) [] w2 eq_refl Hp
                (served_awaits_recorded oc o _ Hs))
      as [w' [callers' [Hr [Hc Ha]]]].
    exists (resume_from 0 (w_callers w2)), w'. split; [exact Hr|].
    intros i k Hi. rewrite Hc in Hi. simpl in Hi.
    exact (Forall_nth_error _ _ _ _ _ Ha Hi). }
  assert (Hcatch : forall oc callers eng en d o,
             Forall waiting callers ->
             exists evs2 w',
               run env evs2
                   (mkWorld oc (Some 1) [Settled o; Pending]
                            [TDone; TCatch 0 1] callers eng en d 1) = Some w' /\
               forall i k,
                 nth_error (w_callers w') i = Some k ->
                 k = Idle \/ (exists c, k = Returned c) \/
                 (exists e, k = Threw e)).
  { intros oc callers eng en d o Hc.
    destruct (Hsettled (mkWorld oc (Some 1) [Settled o; Settled o]
                                [TDone; TDone] callers eng en d 1) oc o
                eq_refl (waiting_served oc o callers Hc))
      as [evs2 [w' [Hr Hw']]].
    exists (RunCatch 1 :: evs2), w'. split; [exact Hr|exact Hw']. }
  destruct HI as [ | c callers eng en d s reply Hs Hen Hd Hc
                   | oc callers eng en d o k Hd Ho Hc
                   | oc callers eng en d o k Hd Ho Hc ].
  - exists [], (initial_world n e0 en0). split; [reflexivity|].
    intros i k Hi. simpl in Hi. apply nth_error_repeat_Idle in Hi.
    left. exact Hi.
  - destruct (bootstrap_settles (bootstrap_length - s) s c callers eng en d
                reply) as [m [w1 [o [Hr [Hp [Ht Hcs]]]]]]; [lia|exact Hs|].
    assert (HI1 : Inv n e0 en0 w1).
    { eapply run_preserves_Inv; [|exact Hr]. apply inv_running; assumption. }
    destruct HI1 as [ | c1 callers1 eng1 en1 d1 s1 reply1 Hs1 Hen1 Hd1 Hc1
                      | oc1 callers1 eng1 en1 d1 o1 k1 Hd1 Ho1 Hc1
                      | oc1 callers1 eng1 en1 d1 o1 k1 Hd1 Ho1 Hc1 ];
      simpl in Ht; try discriminate.
    destruct (Hcatch oc1 callers1 eng1 en1 d1 o1 Hc1) as [evs2 [w' [Hr2 Hw']]].
    exists (repeat (ResumeInit 0) m ++ evs2)%list, w'.
    split; [|exact Hw'].
    rewrite (run_app _ evs2 _ _ Hr). exact Hr2.
  - exact (Hcatch oc callers eng en d o Hc).
  - apply (Hsettled _ oc o); [reflexivity | exact Hc].
Qed.

End ScheduleIndependence.

(** * The layer over the SQLite-like connection *)

Section Transactions.

Variable St : Type.
Variable data_exec : InStatement -> St -> Outcome ResultSet * St.
Variable create : string -> Outcome Client.
Variable En : Type.
Variable hash : string -> Z -> En -> string * En.

Local Instance tx_platform : Platform :=
  sqlite_over St data_exec create En hash.

Abbreviation Conn := (Connection St).
Abbreviation exec := (sqlite_execute St data_exec).

Lemma begin_opens : forall c (p : Process),
  saved (engine p) = None ->
  fst (client_execute c (SqlText "BEGIN") p) = Normal no_rows /\
  engine (snd (client_execute c (SqlText "BEGIN") p)) =
    mkConnection (current (engine p)) (Some (current (engine p))).
Proof.
  intros c p Hs. unfold client_execute.
  change (@engine_execute tx_platform) with exec. unfold sqlite_execute.
  change (control_of (stmt_sql (SqlText "BEGIN"))) with (Some CBegin).
  rewrite Hs. split; reflexivity.
Qed.

Lemma rollback_restores : forall c (p : Process) before,
  saved (engine p) = Some before ->
  engine (snd (client_execute c (SqlText "ROLLBACK") p)) = mkConnection before None.
Proof.
  intros c p before Hs. unfold client_execute.
  change (@engine_execute tx_platform) with exec. unfold sqlite_execute.
  change (control_of (stmt_sql (SqlText "ROLLBACK"))) with (Some CRollback).
  rewrite Hs. reflexivity.
Qed.

Lemma data_statement_keeps_saved : forall c sql params (p : Process),
  control_of sql = None ->
  saved (engine (snd (client_execute c (SqlArgs sql params) p))) = saved (engine p).
Proof.
  intros c sql params p Hctl. unfold client_execute.
  change (@engine_execute tx_platform) with exec. unfold sqlite_execute.
  simpl stmt_sql. rewrite Hctl.
  destruct (data_exec (SqlArgs sql params) (current (engine p))).
  reflexivity.
Qed.

(** A callback that sends no transaction control leaves the open
    transaction open, with the tables of its [BEGIN] kept aside. *)
Lemma data_only_keeps_saved : forall T (body : Body T),
  data_only body ->
  forall c (p : Process),
    saved (engine (snd (run_body c body p))) = saved (engine p).
Proof.
  intros T body Hd.
  induction Hd as [T v | T e | T sql params k Hctl _ IH
                   | T sql params k Hctl _ IH | T sql params k Hctl _ IH
                   | T V cb k _ IH];
    intros c p; simpl; auto;
    unfold txDb_all, txDb_get, txDb_run, bind, ret;
    pose proof (data_statement_keeps_saved c sql params p Hctl) as Hs;
    destruct (client_execute c (SqlArgs sql params) p) as [[rs|e] p1];
    simpl in Hs; rewrite IH; exact Hs.
Qed.


(** C10, as amended. On a connection with no transaction open: when
    the callback, after statements that ran normally, calls
    [txDb.transaction] and lets its error propagate, the outer
    [transaction] sends ROLLBACK and rejects with the
    nested-transaction error; no statement of the nested callback has
    reached the engine; and if the outer statements before the call
    included no transaction control of their own, the tables are as
    before the outer transaction. *)
Theorem nested_error_rolls_back_outer :
  forall A T V env (before : Body A) (cb : Body V) (k : V -> Body T)
         (p : Process) c p1 a p3,
    getInitializedClient env p = (Normal c, p1) ->
    saved (engine p1) = None ->
    run_body c before (snd (client_execute c (SqlText "BEGIN") p1)) = (Normal a, p3) ->
    let callback :=
      bind_body before (fun _ => TxTransaction cb (propagate k)) in
    exists p4,
      db_transaction env callback p = (Throw nested_error, p4) /\
      delivered p4 = (delivered p3 ++ [SqlText "ROLLBACK"])%list /\
      (data_only before -> engine p4 = engine p1).
Proof.
  intros A T V env before cb k p c p1 a p3 Hinit Hsaved Hbefore callback.
  assert (Hbody : run_body c callback (snd (client_execute c (SqlText "BEGIN") p1))
                  = (Throw nested_error, p3)).
  { unfold callback. rewrite run_body_bind, Hbefore. reflexivity. }
  destruct (begin_opens c p1 Hsaved) as [Hbo Hbe].
  destruct (client_execute c (SqlText "BEGIN") p1) as [ob p2] eqn:Hbegin.
  cbn [fst snd] in Hbo, Hbe, Hbody, Hbefore. subst ob.
  exists (snd (client_execute c (SqlText "ROLLBACK") p3)).
  split.
  { eapply db_transaction_body_throws; eauto. }
  split.
  { apply client_execute_delivered. }
  intros Hdata.
  assert (Hs3 : saved (engine p3) = Some (current (engine p1))).
  { pose proof (data_only_keeps_saved A before Hdata c p2) as Hk.
    rewrite Hbefore in Hk. cbn [snd] in Hk. rewrite Hk, Hbe. reflexivity. }
  rewrite (rollback_restores c p3 _ Hs3).
  destruct (engine p1) as [cur sv]. simpl in *. subst sv. reflexivity.
Qed.

Lemma commit_closes : forall c (p : Process) before,
  saved (engine p) = Some before ->
  fst (client_execute c (SqlText "COMMIT") p) = Normal no_rows /\
  engine (snd (client_execute c (SqlText "COMMIT") p)) =
    mkConnection (current (engine p)) None.
Proof.
  intros c p before Hs. unfold client_execute.
  change (@engine_execute tx_platform) with exec.
  unfold sqlite_execute.
  change (control_of (stmt_sql (SqlText "COMMIT"))) with (Some CCommit).
  rewrite Hs. split; reflexivity.
Qed.

Lemma data_statement_reads_current : forall c sql params (p q : Process),
  control_of sql = None ->
  current (engine p) = current (engine q) ->
  fst (client_execute c (SqlArgs sql params) p) =
  fst (client_execute c (SqlArgs sql params) q).
Proof.
  intros c sql params p q Hctl Hcur. unfold client_execute.
  change (@engine_execute tx_platform) with exec.
  unfold sqlite_execute. simpl stmt_sql. rewrite Hctl, Hcur.
  destruct (data_exec (SqlArgs sql params) (current (engine q))).
  reflexivity.
Qed.

(** X10. When the callback returns [v] and has sent no transaction
    control of its own, [transaction] sends COMMIT, resolves with [v]
    and leaves no transaction open; the tables are those the callback
    left, so a [db.get] afterwards finds what [txDb.get] would have
    found as the last statement of the callback. *)
Theorem returning_body_is_committed :
  forall T env (callback : Body T) (p : Process) c p1 v p3,
    getInitializedClient env p = (Normal c, p1) ->
    saved (engine p1) = None ->
    run_body c callback (snd (client_execute c (SqlText "BEGIN") p1))
    = (Normal v, p3) ->
    data_only callback ->
    exists p4,
      db_transaction env callback p = (Normal v, p4) /\
      delivered p4 = (delivered p3 ++ [SqlText "COMMIT"])%list /\
      engine p4 = mkConnection (current (engine p3)) None /\
      forall sql params,
        control_of sql = None ->
        fst (db_get env sql params p4) = fst (txDb_get c sql params p3).
Proof.
  intros T env callback p c p1 v p3 Hinit Hsaved Hbody Hdata.
  destruct (begin_opens c p1 Hsaved) as [Hbo Hbe].
  destruct (client_execute c (SqlText "BEGIN") p1) as [ob p2] eqn:Hbegin.
  cbn [fst snd] in Hbo, Hbe, Hbody. subst ob.
  assert (Hs3 : saved (engine p3) = Some (current (engine p1))).
  { pose proof (data_only_keeps_saved T callback Hdata c p2) as Hk.
    rewrite Hbody in Hk. cbn [snd] in Hk.
    exact (eq_trans Hk (f_equal saved Hbe)). }
  destruct (commit_closes c p3 _ Hs3) as [Hco Hce].
  pose proof (client_execute_delivered c (SqlText "COMMIT") p3) as Hcd.
  pose proof (client_execute_frame c (SqlText "COMMIT") p3) as Hcf.
  pose proof (db_transaction_body_returns T env callback p c p1 no_rows
                p2 v p3 Hinit Hbegin Hbody) as Htx.
  destruct (client_execute c (SqlText "COMMIT") p3) as [oc p4] eqn:Hcommit.
  cbn [fst snd] in Hco, Hce, Hcd, Hcf. subst oc.
  exists p4. split; [exact Htx|]. split; [exact Hcd|]. split; [exact Hce|].
  intros sql params Hctl.
  destruct (getInitializedClient_post env p c p1 Hinit) as [[u Hu] Hc1].
  pose proof (client_execute_frame c (SqlText "BEGIN") p1) as Hf1.
  rewrite Hbegin in Hf1. destruct Hf1 as [Hf1a [Hf1b _]].
  pose proof (run_body_frame T callback c p2) as Hf2.
  rewrite Hbody in Hf2. destruct Hf2 as [Hf2a Hf2b].
  destruct Hcf as [Hf3a [Hf3b _]].
  unfold db_get, txDb_get, bind.
  rewrite (getInitializedClient_ready env p4 u c).
  - pose proof (data_statement_reads_current c sql params p4 p3 Hctl) as Hr.
    destruct (client_execute c (SqlArgs sql params) p4) as [[rs|e] q4];
      destruct (client_execute c (SqlArgs sql params) p3) as [[rs'|e'] q3];
      cbn [fst] in Hr |- *;
      (assert (Hcur : current (engine p4) = current (engine p3))
         by (rewrite Hce; reflexivity));
      specialize (Hr Hcur); try discriminate; inversion Hr; reflexivity.
  - exact (eq_trans Hf3b (eq_trans Hf2b (eq_trans Hf1b Hu))).
  - exact (eq_trans Hf3a (eq_trans Hf2a (eq_trans Hf1a Hc1))).
Qed.

(** X11. A transaction whose callback sends no transaction control of
    its own leaves the connection as it found it, open or not, however
    it ends: when no transaction was open before, none is open after
    it, resolved or rejected; when one was open, the call is refused at
    its BEGIN with the engine's error and that transaction stays open,
    its tables untouched. *)
Theorem transaction_leaves_scope_as_found :
  forall T env (callback : Body T) (p : Process) c p1,
    getInitializedClient env p = (Normal c, p1) ->
    data_only callback ->
    saved (engine (snd (db_transaction env callback p))) = saved (engine p1) /\
    (forall before,
        saved (engine p1) = Some before ->
        fst (db_transaction env callback p) =
        Throw (ErrorObject
                 "SQLITE_ERROR: cannot start a transaction within a transaction") /\
        engine (snd (db_transaction env callback p)) = engine p1).
Proof.
  intros T env callback p c p1 Hinit Hdata.
  destruct (saved (engine p1)) as [before|] eqn:Hsaved.
  - assert (Hb : client_execute c (SqlText "BEGIN") p1 =
                 (Throw (ErrorObject
                    "SQLITE_ERROR: cannot start a transaction within a transaction"),
                  mkProcess (libsqlClient p1) (initializationPromise p1)
                            (engine p1) (entropy p1)
                            (delivered p1 ++ [SqlText "BEGIN"])%list
                            (init_calls p1))).
    { unfold client_execute.
      change (@engine_execute tx_platform) with exec. unfold sqlite_execute.
      change (control_of (stmt_sql (SqlText "BEGIN"))) with (Some CBegin).
      rewrite Hsaved. reflexivity. }
    assert (Htx : db_transaction env callback p =
                  (Throw (ErrorObject
                     "SQLITE_ERROR: cannot start a transaction within a transaction"),
                   mkProcess (libsqlClient p1) (initializationPromise p1)
                             (engine p1) (entropy p1)
                             (delivered p1 ++ [SqlText "BEGIN"])%list
                             (init_calls p1))).
    { unfold db_transaction, bind. rewrite Hinit, Hb. reflexivity. }
    rewrite Htx. cbn [fst snd engine]. split; [exact Hsaved|].
    intros before' _. split; reflexivity.
  - split; [|intros before' Hopen; discriminate].
    destruct (begin_opens c p1 Hsaved) as [Hbo Hbe].
    destruct (client_execute c (SqlText "BEGIN") p1) as [ob p2] eqn:Hbegin.
    cbn [fst snd] in Hbo, Hbe. subst ob.
    pose proof (data_only_keeps_saved T callback Hdata c p2) as Hk.
    destruct (run_body c callback p2) as [[v|e] p3] eqn:Hbody; cbn [snd] in Hk.
    + assert (Hs3 : saved (engine p3) = Some (current (engine p1)))
        by exact (eq_trans Hk (f_equal saved Hbe)).
      destruct (commit_closes c p3 _ Hs3) as [Hco Hce].
      rewrite (db_transaction_body_returns T env callback p c p1 no_rows
                 p2 v p3 Hinit Hbegin Hbody).
      destruct (client_execute c (SqlText "COMMIT") p3) as [oc p4].
      cbn [fst snd] in Hco, Hce. subst oc. cbn [snd].
      exact (f_equal saved Hce).
    + assert (Hs3 : saved (engine p3) = Some (current (engine p1)))
        by exact (eq_trans Hk (f_equal saved Hbe)).
      rewrite (db_transaction_body_throws T env callback p c p1 no_rows
                 p2 e p3 Hinit Hbegin Hbody). cbn [snd].
      exact (f_equal saved (rollback_restores c p3 _ Hs3)).
Qed.

End Transactions.

(** * The bootstrap over the SQLite-like tables *)

Section Bootstrap.

Variable create : string -> Outcome Client.
Variable En : Type.
Variable hash : string -> Z -> En -> string * En.

Local Instance seed_platform : Platform :=
  sqlite_over Store data_execute create En hash.

Lemma lookup_app_some : forall A key (l l' : list (string * A)) a,
  lookup key l = Some a -> lookup key (l ++ l')%list = Some a.
Proof.
  induction l as [|[k b] l IH]; intros l' a H; simpl in *.
  - discriminate.
  - destruct (k =? key); auto.
Qed.

Lemma filter_existsb : forall A (f : A -> bool) l,
  1 <= length (filter f l) -> existsb f l = true.
Proof.
  induction l as [|x l IH]; simpl; intros H.
  - lia.
  - destruct (f x); simpl in *; auto.
Qed.

Lemma create_table_keeps : forall sql name users products conn,
  control_of sql = None ->
  parse sql = Some (CmdCreateTable name) ->
  seeded users products conn ->
  seeded users products (snd (engine_execute_sqlite (SqlText sql) conn)).
Proof.
  intros sql name users products conn Hctl Hparse [Hu Hp].
  unfold engine_execute_sqlite, sqlite_execute, data_execute.
  simpl stmt_sql. rewrite Hctl, Hparse.
  destruct (lookup name (current conn)) as [t|].
  - split; assumption.
  - destruct (catalog name) as [sch|]; simpl.
    + split; apply lookup_app_some; assumption.
    + split; assumption.
Qed.

Lemma seed_user_ignored : forall adminHashed users st,
  lookup "users" st = Some users ->
  schema users = users_schema ->
  1 <= key_count "id" (VString "admin1") users ->
  data_execute (SqlArgs seed_user_sql (seed_user adminHashed)) st =
  (Normal no_rows, st).
Proof.
  intros adminHashed users st Hu Hsch Hcount.
  unfold data_execute. simpl stmt_sql. simpl stmt_args.
  change (parse seed_user_sql)
    with (Some (CmdInsert true "users"
                  ["id"; "email"; "password"; "name"; "role"] 5)).
  unfold exec_insert. rewrite Hu, Hsch. cbv zeta.
  assert (Hconf :
    conflicts users_schema
      (build_row users_schema ["id"; "email"; "password"; "name"; "role"]
                 (seed_user adminHashed))
      (records users) = true).
  { unfold conflicts. simpl s_unique. simpl existsb at 1.
    apply orb_true_iff. left.
    apply filter_existsb. exact Hcount. }
  rewrite Hconf. rewrite !orb_true_r. reflexivity.
Qed.

Lemma seed_product_ignored : forall id name sku q r pr co cat products st,
  lookup "products" st = Some products ->
  schema products = products_schema ->
  1 <= key_count "sku" (VString sku) products ->
  data_execute
    (SqlArgs seed_product_sql
       [VString id; VString name; VString sku; VNumber q; VNumber r;
        VNumber pr; VNumber co; VString cat]) st =
  (Normal no_rows, st).
Proof.
  intros id name sku q r pr co cat products st Hp Hsch Hcount.
  unfold data_execute. simpl stmt_sql. simpl stmt_args.
  change (parse seed_product_sql)
    with (Some (CmdInsert true "products"
                  ["id"; "name"; "sku"; "quantity"; "reorderLevel"; "price";
                   "cost"; "category"] 8)).
  unfold exec_insert. rewrite Hp, Hsch. cbv zeta.
  assert (Hconf :
    conflicts products_schema
      (build_row products_schema
         ["id"; "name"; "sku"; "quantity"; "reorderLevel"; "price";
          "cost"; "category"]
         [VString id; VString name; VString sku; VNumber q; VNumber r;
          VNumber pr; VNumber co; VString cat])
      (records products) = true).
  { unfold conflicts. simpl s_unique. simpl existsb at 1.
    apply orb_true_iff. right. apply orb_true_iff. left.
    apply filter_existsb. exact Hcount. }
  rewrite Hconf. rewrite !orb_true_r. reflexivity.
Qed.

Lemma ignored_insert_keeps : forall sql args users products conn,
  control_of sql = None ->
  data_execute (SqlArgs sql args) (current conn) = (Normal no_rows, current conn) ->
  seeded users products conn ->
  seeded users products (snd (engine_execute_sqlite (SqlArgs sql args) conn)).
Proof.
  intros sql args users products conn Hctl Hexec Hs.
  unfold engine_execute_sqlite, sqlite_execute. simpl stmt_sql.
  rewrite Hctl, Hexec. exact Hs.
Qed.

(** The first run, on an empty store: the tables are created and hold
    the seed rows, the administrator's with the hash this run drew. *)
Lemma first_run_seeds : forall env (p : Process) c,
  libsqlClient p = None ->
  createClient (databaseUrl env) = Normal c ->
  engine p = mkConnection [] None ->
  let st := current (engine (snd (initializeDatabase env p))) in
  lookup "users" st =
    Some (mkTable users_schema
            [combine (s_columns users_schema)
                     (seed_user (fst (hashSync "admin123" 10 (entropy p))))]) /\
  lookup "products" st =
    Some (mkTable products_schema
            [combine (s_columns products_schema) seed_product_1;
             combine (s_columns products_schema) seed_product_2;
             combine (s_columns products_schema) seed_product_3]).
Proof.
  intros env p c Hnone Hcreate Hempty st. unfold st.
  rewrite (initializeDatabase_engine env p c Hnone Hcreate).
  rewrite bootstrap_statements, Hempty.
  generalize (fst (hashSync "admin123" 10 (entropy p))). intros h.
  vm_compute. split; reflexivity.
Qed.

(** C8. On a store that is already seeded -- the [users] table holds
    one row with id "admin1", the [products] table one row for each of
    the SKUs "SKU001", "SKU002" and "SKU003" -- a further run of
    [initializeDatabase] (a new process on the same store) leaves both
    tables exactly as they were: still one row per seeded key, with the
    values of the first insert, whatever hash the new run computes. *)
Theorem seed_insertion_idempotent :
  forall env (p : Process) users products,
    libsqlClient p = None ->
    lookup "users" (current (engine p)) = Some users ->
    schema users = users_schema ->
    key_count "id" (VString "admin1") users = 1 ->
    lookup "products" (current (engine p)) = Some products ->
    schema products = products_schema ->
    key_count "sku" (VString "SKU001") products = 1 ->
    key_count "sku" (VString "SKU002") products = 1 ->
    key_count "sku" (VString "SKU003") products = 1 ->
    let p' := snd (initializeDatabase env p) in
    lookup "users" (current (engine p')) = Some users /\
    lookup "products" (current (engine p')) = Some products.
Proof.
  intros env p users products Hnone Hu Hus Hadmin Hp Hps H1 H2 H3 p'.
  change (seeded users products (engine p')). unfold p'.
  destruct (createClient (databaseUrl env)) as [c|e] eqn:Hcreate.
  - rewrite (initializeDatabase_engine env p c Hnone Hcreate).
    apply execute_in_order_preserves; [|split; assumption].
    intros stmt conn Hin Hs.
    rewrite bootstrap_statements in Hin. simpl In in Hin.
    destruct Hs as [Hsu Hsp].
    destruct Hin as [Hin|[Hin|[Hin|[Hin|[Hin|[Hin|[Hin|[Hin|[]]]]]]]]];
      subst stmt.
    + apply create_table_keeps with (name := "users");
        [reflexivity|reflexivity|split; assumption].
    + apply create_table_keeps with (name := "products");
        [reflexivity|reflexivity|split; assumption].
    + apply create_table_keeps with (name := "sales");
        [reflexivity|reflexivity|split; assumption].
    + apply create_table_keeps with (name := "expenses");
        [reflexivity|reflexivity|split; assumption].
    + apply ignored_insert_keeps; [reflexivity| |split; assumption].
      apply seed_user_ignored with (users := users); auto. lia.
    + apply ignored_insert_keeps; [reflexivity| |split; assumption].
      apply seed_product_ignored with (products := products); auto. lia.
    + apply ignored_insert_keeps; [reflexivity| |split; assumption].
      apply seed_product_ignored with (products := products); auto. lia.
    + apply ignored_insert_keeps; [reflexivity| |split; assumption].
      apply seed_product_ignored with (products := products); auto. lia.
  - rewrite (initializeDatabase_no_client env p e Hnone Hcreate).
    split; assumption.
Qed.

(** X17. The first run, on an empty store: [initializeDatabase]
    resolves, the four tables exist, [users] holds the administrator
    alone, with the hash as password, [products] the three samples,
    [sales] and [expenses] nothing, and no transaction is open. *)
Theorem first_run_resolves_and_seeds : forall env (p : Process) c,
  libsqlClient p = None ->
  createClient (databaseUrl env) = Normal c ->
  engine p = mkConnection [] None ->
  fst (initializeDatabase env p) = Normal tt /\
  engine (snd (initializeDatabase env p)) =
  mkConnection
    [("users",
      mkTable users_schema
        [combine (s_columns users_schema)
                 (seed_user (fst (hashSync "admin123" 10 (entropy p))))]);
     ("products",
      mkTable products_schema
        [combine (s_columns products_schema) seed_product_1;
         combine (s_columns products_schema) seed_product_2;
         combine (s_columns products_schema) seed_product_3]);
     ("sales", mkTable sales_schema []);
     ("expenses", mkTable expenses_schema [])]
    None.
Proof.
  intros env p c Hnone Hcreate Hempty.
  pose proof (initializeDatabase_runs env p c Hnone Hcreate) as Hruns.
  rewrite bootstrap_statements, Hempty in Hruns.
  revert Hruns.
  generalize (fst (hashSync "admin123" 10 (entropy p))). intros h.
  vm_compute run_in_order.
  intros [Ho [He _]]. split; [exact Ho|exact He].
Qed.

End Bootstrap.

(** ** The scripts and the seeding route *)

Section CallerProperties.

Context {platform : Platform}.

Variable hash : string -> Z -> Entropy -> Outcome string * Entropy.

(** The layer with its console lines does to the module state what
    the layer does, and writes the lines of [init_console]. *)
Lemma logged_initializeDatabase_refines : forall env p log,
  logged_initializeDatabase env (p, log) =
  (fst (initializeDatabase env p),
   (snd (initializeDatabase env p),
    (log ++
     match libsqlClient p with
     | Some _ => []
     | None =>
         connecting_line env ::
         match fst (initializeDatabase env p) with
         | Normal _ => [completed_line]
         | Throw _ => []
         end
     end)%list)).
Proof.
  intros env p log.
  unfold logged_initializeDatabase, initializeDatabase, script_bind,
         script_call, console_write, script_ret, bind, ret, count_init_call,
         call_createClient, set_libsqlClient, call_hashSync, client_execute.
  cbn [fst snd libsqlClient engine entropy delivered init_calls
       initializationPromise].
  destruct (libsqlClient p) as [c0|] eqn:Hc.
  - rewrite app_nil_r. reflexivity.
  - destruct (createClient (databaseUrl env)) as [c|e];
      cbn [fst snd libsqlClient engine entropy delivered init_calls
           initializationPromise]; [|reflexivity].
    destruct (hashSync "admin123" 10 (entropy p)) as [adminHashed en']
      eqn:Hh.
    repeat match goal with
           | |- context [engine_execute ?s ?e] =>
               destruct (engine_execute s e) as [[?|?] ?];
               cbn [fst snd libsqlClient engine entropy delivered init_calls
                    initializationPromise];
               try rewrite Hh;
               cbn [fst snd libsqlClient engine entropy delivered init_calls
                    initializationPromise]
           end;
      try reflexivity;
      rewrite <- (app_assoc log); reflexivity.
Qed.

Lemma logged_getInitializedClient_refines : forall env p log,
  logged_getInitializedClient env (p, log) =
  (fst (getInitializedClient env p),
   (snd (getInitializedClient env p), (log ++ init_console env p)%list)).
Proof.
  intros env p log.
  unfold logged_getInitializedClient, getInitializedClient, init_console,
         script_bind, bind, script_ret, ret, script_throw, throw.
  cbn [fst snd].
  destruct (initializationPromise p) as [o|] eqn:Hp.
  - cbn [fst snd]. rewrite Hp, app_nil_r.
    destruct o as [u|e]; [destruct (libsqlClient p)|]; reflexivity.
  - unfold script_catch, try_catch, script_call, set_initializationPromise,
           console_write, script_bind, script_throw, throw.
    rewrite logged_initializeDatabase_refines.
    assert (Hguard : forall c0, libsqlClient p = Some c0 ->
                                fst (initializeDatabase env p) = Normal tt).
    { intros c0 Hc0. unfold initializeDatabase, bind, count_init_call.
      cbn [fst snd libsqlClient]. rewrite Hc0. reflexivity. }
    destruct (libsqlClient p) as [c0|] eqn:Hc;
      [specialize (Hguard c0 eq_refl)|clear Hguard];
      destruct (initializeDatabase env p) as [[u|err] p0];
      cbn [fst snd libsqlClient initializationPromise] in *;
      try discriminate;
      try (destruct (libsqlClient p0)); try reflexivity;
      rewrite <- ?(app_assoc log), ?app_nil_r; try reflexivity.
Qed.


Lemma logged_facade_refines :
  forall A (f : ResultSet -> A) env sql params p log,
    script_bind (logged_getInitializedClient env)
      (fun client =>
         script_bind (script_call (client_execute client (SqlArgs sql params)))
           (fun result => script_ret (f result))) (p, log) =
    let r := bind (getInitializedClient env)
               (fun client =>
                  bind (client_execute client (SqlArgs sql params))
                    (fun result => ret (f result))) p in
    (fst r, (snd r, (log ++ init_console env p)%list)).
Proof.
  intros A f env sql params p log.
  unfold script_bind, bind. rewrite logged_getInitializedClient_refines.
  destruct (getInitializedClient env p) as [[c|e] p1]; cbn [fst snd];
    [|reflexivity].
  unfold script_call, script_ret, ret. cbn [fst snd].
  destruct (client_execute c (SqlArgs sql params) p1) as [[rs|e] p2];
    reflexivity.
Qed.

Lemma logged_all_refines : forall env sql params p log,
  logged_all env sql params (p, log) =
  (fst (db_all env sql params p),
   (snd (db_all env sql params p), (log ++ init_console env p)%list)).
Proof.
  intros. exact (logged_facade_refines _ rows env sql params p log).
Qed.

Lemma logged_get_refines : forall env sql params p log,
  logged_get env sql params (p, log) =
  (fst (db_get env sql params p),
   (snd (db_get env sql params p), (log ++ init_console env p)%list)).
Proof.
  intros.
  exact (logged_facade_refines _ (fun result => nth_error (rows result) 0)
           env sql params p log).
Qed.

Lemma logged_run_refines : forall env sql params p log,
  logged_run env sql params (p, log) =
  (fst (db_run env sql params p),
   (snd (db_run env sql params p), (log ++ init_console env p)%list)).
Proof.
  intros. exact (logged_facade_refines _ (fun _ => tt) env sql params p log).
Qed.

Lemma init_console_recorded : forall env p,
  initializationPromise p <> None -> init_console env p = [].
Proof.
  intros env p Hp. unfold init_console.
  destruct (initializationPromise p); [reflexivity|congruence].
Qed.

Lemma init_console_after_all : forall env sql params p o p1,
  db_all env sql params p = (o, p1) -> init_console env p1 = [].
Proof.
  intros env sql params p o p1 H. apply init_console_recorded.
  destruct (perform_init_calls env (OpAll sql params) p) as [_ [Hs _]].
  simpl in Hs. rewrite H in Hs. exact Hs.
Qed.

(** X14. [testDb] never rejects.  It calls [db.all] for products,
    users, sales and expenses, one after the other, up to the first
    call that fails and no further; the console gets the opening
    line, the lines the layer writes when the first call initializes
    it, then under its label what each call returned, in that order,
    and, when a call failed, one last line with the error of that
    call. *)
Theorem testDb_reports_or_stops : forall env p log,
  let result := testDb env (p, log) in
  fst result = Normal tt /\
  exists tables stop,
    length tables <= 4 /\
    (forall j found,
        nth_error tables j = Some found ->
        exists sql,
          nth_error table_queries j = Some (OpAll sql []) /\
          fst (db_all env sql []
                 (perform_all env (firstn j table_queries) p)) = Normal found) /\
    (length tables = 4 -> stop = []) /\
    (length tables < 4 ->
     exists sql e,
       nth_error table_queries (length tables) = Some (OpAll sql []) /\
       fst (db_all env sql []
              (perform_all env (firstn (length tables) table_queries) p))
       = Throw e /\
       stop = [ErrorWith "Error:" e]) /\
    fst (snd result) =
      perform_all env (firstn (S (length tables)) table_queries) p /\
    snd (snd result) =
      (log ++ LogText "Testing database..." :: init_console env p ++
       map (fun shown => LogRows (fst shown) (snd shown))
           (combine ["Products:"; "Users:"; "Sales:"; "Expenses:"] tables)
       ++ stop)%list.
Proof.
  intros env p log result. unfold result; clear result.
  unfold testDb, script_bind, script_catch, console_write.
  cbn [fst snd].
  rewrite logged_all_refines.
  destruct (db_all env "SELECT * FROM products" [] p) as [[t1|e1] p1] eqn:H1;
    cbn [fst snd].
  2: { split; [reflexivity|]. exists [], [ErrorWith "Error:" e1].
       split; [simpl; lia|]. split; [intros [|j] found Hj; discriminate|].
       split; [discriminate|]. split.
       { intros _. eexists. eexists. split; [reflexivity|].
         simpl. rewrite H1. split; reflexivity. }
       split; [simpl; rewrite H1; reflexivity|].
       simpl. repeat rewrite <- app_assoc. reflexivity. }
  rewrite logged_all_refines, (init_console_after_all _ _ _ _ _ _ H1), app_nil_r.
  destruct (db_all env "SELECT * FROM users" [] p1) as [[t2|e2] p2] eqn:H2;
    cbn [fst snd].
  2: { split; [reflexivity|]. exists [t1], [ErrorWith "Error:" e2].
       split; [simpl; lia|]. split.
       { intros [|[|j]] found Hj; simpl in Hj; try discriminate.
         inversion Hj; subst. eexists. split; [reflexivity|].
         simpl. rewrite H1. reflexivity. }
       split; [discriminate|]. split.
       { intros _. eexists. eexists. split; [reflexivity|].
         simpl. rewrite H1. simpl. rewrite H2. split; reflexivity. }
       split; [simpl; rewrite H1; simpl; rewrite H2; reflexivity|].
       simpl. repeat rewrite <- app_assoc. reflexivity. }
  rewrite logged_all_refines, (init_console_after_all _ _ _ _ _ _ H2), app_nil_r.
  destruct (db_all env "SELECT * FROM sales" [] p2) as [[t3|e3] p3] eqn:H3;
    cbn [fst snd].
  2: { split; [reflexivity|]. exists [t1; t2], [ErrorWith "Error:" e3].
       split; [simpl; lia|]. split.
       { intros [|[|[|j]]] found Hj; simpl in Hj; try discriminate;
           inversion Hj; subst; eexists; (split; [reflexivity|]);
           simpl; rewrite ?H1; simpl; rewrite ?H2; reflexivity. }
       split; [discriminate|]. split.
       { intros _. eexists. eexists. split; [reflexivity|].
         simpl. rewrite H1. simpl. rewrite H2. simpl. rewrite H3.
         split; reflexivity. }
       split; [simpl; rewrite H1; simpl; rewrite H2; simpl; rewrite H3;
               reflexivity|].
       simpl. repeat rewrite <- app_assoc. reflexivity. }
  rewrite logged_all_refines, (init_console_after_all _ _ _ _ _ _ H3), app_nil_r.
  destruct (db_all env "SELECT * FROM expenses" [] p3) as [[t4|e4] p4] eqn:H4;
    cbn [fst snd].
  2: { split; [reflexivity|]. exists [t1; t2; t3], [ErrorWith "Error:" e4].
       split; [simpl; lia|]. split.
       { intros [|[|[|[|j]]]] found Hj; simpl in Hj; try discriminate;
           inversion Hj; subst; eexists; (split; [reflexivity|]);
           simpl; rewrite ?H1; simpl; rewrite ?H2; simpl; rewrite ?H3;
           reflexivity. }
       split; [discriminate|]. split.
       { intros _. eexists. eexists. split; [reflexivity|].
         simpl. rewrite H1. simpl. rewrite H2. simpl. rewrite H3. simpl.
         rewrite H4. split; reflexivity. }
       split; [simpl; rewrite H1; simpl; rewrite H2; simpl; rewrite H3; simpl;
               rewrite H4; reflexivity|].
       simpl. repeat rewrite <- app_assoc. reflexivity. }
  split; [reflexivity|]. exists [t1; t2; t3; t4], [].
  split; [simpl; lia|]. split.
  { intros [|[|[|[|[|j]]]]] found Hj; simpl in Hj; try discriminate;
      inversion Hj; subst; eexists; (split; [reflexivity|]);
      simpl; rewrite ?H1; simpl; rewrite ?H2; simpl; rewrite ?H3; simpl;
      rewrite ?H4; reflexivity. }
  split; [reflexivity|]. split; [simpl; lia|].
  split; [simpl; rewrite H1; simpl; rewrite H2; simpl; rewrite H3; simpl;
          rewrite H4; reflexivity|].
  simpl. repeat rewrite <- app_assoc. reflexivity.
Qed.


(** X15. [GET] never rejects, and what it answers is decided by the
    hashing and by [db.run].  When [hash] rejects with [e], the layer
    is not called: the answer is 500 with the fixed message and the
    console gets the one line with [e].  When [hash] gives [h],
    [db.run] is called once with the insert and [h] as its one bound
    parameter, and the console gets the lines of the layer; the answer
    is 200 with the success message when [db.run] resolves -- the
    insert is then the last statement sent -- and 500 with the fixed
    message when it rejects, its error going to the console and not
    into the answer. *)
Theorem GET_answers : forall env p log,
  let hashed := hash "admin123" 10 (entropy p) in
  let q := mkProcess (libsqlClient p) (initializationPromise p) (engine p)
                     (snd hashed) (delivered p) (init_calls p) in
  GET hash env (p, log) =
  match fst hashed with
  | Throw e =>
      (Normal failed_response,
       (q, (log ++ [ErrorWith "Seeding error:" e])%list))
  | Normal h =>
      let r := db_run env route_seed_sql [VString h] q in
      match fst r with
      | Normal _ =>
          (Normal seeded_response, (snd r, (log ++ init_console env q)%list))
      | Throw e =>
          (Normal failed_response,
           (snd r,
            (log ++ init_console env q ++ [ErrorWith "Seeding error:" e])%list))
      end
  end /\
  (forall h done,
      fst hashed = Normal h ->
      fst (db_run env route_seed_sql [VString h] q) = Normal done ->
      exists before,
        delivered (fst (snd (GET hash env (p, log)))) =
        (before ++ [SqlArgs route_seed_sql [VString h]])%list).
Proof.
  intros env p log hashed q.
  assert (Heq : GET hash env (p, log) =
    match fst hashed with
    | Throw e =>
        (Normal failed_response,
         (q, (log ++ [ErrorWith "Seeding error:" e])%list))
    | Normal h =>
        let r := db_run env route_seed_sql [VString h] q in
        match fst r with
        | Normal _ =>
            (Normal seeded_response, (snd r, (log ++ init_console env q)%list))
        | Throw e =>
            (Normal failed_response,
             (snd r,
              (log ++ init_console env q ++ [ErrorWith "Seeding error:" e])%list))
        end
    end).
  { unfold GET, script_bind, script_catch, console_write, script_ret,
           call_hash.
    cbn [fst snd]. subst q hashed.
    destruct (hash "admin123" 10 (entropy p)) as [[h|e] en']; cbn [fst snd].
    - rewrite logged_run_refines. cbn [fst snd].
      destruct (db_run env route_seed_sql [VString h]
                  (mkProcess (libsqlClient p) (initializationPromise p)
                             (engine p) en' (delivered p) (init_calls p)))
        as [[u|e] p1]; cbn [fst snd].
      + reflexivity.
      + rewrite <- app_assoc. reflexivity.
    - reflexivity. }
  split; [exact Heq|].
  intros h done Hh Hrun. rewrite Heq, Hh. cbn zeta. rewrite Hrun.
  cbn [fst snd].
  pose proof (facade_resolved unit (fun _ => tt) env route_seed_sql
                [VString h] q done Hrun) as [c Hc].
  pose proof (facade_delivered unit (fun _ => tt) env route_seed_sql
                [VString h] q) as Hd.
  rewrite Hc in Hd. eexists. exact Hd.
Qed.

(** X16. The seeding script never rejects.  After its opening line
    come the lines the layer writes while [db.get] initializes it,
    and then "Seeding complete." when [db.get] has resolved, or the
    error [db.get] rejected with.  When the script completes on a
    process that was not initialized, the layer has announced the
    end of its bootstrap before, and the eight bootstrap statements
    have been sent, in order, followed by the one query. *)
Theorem seed_script_completes_after_bootstrap : forall env p log,
  let r := db_get env "SELECT 1" [] p in
  seed_script env (p, log) =
  (Normal tt,
   (snd r,
    (log ++ LogText "Seeding database..." :: init_console env p ++
     [match fst r with
      | Normal _ => LogText "Seeding complete."
      | Throw e => ErrorOnly e
      end])%list)) /\
  (forall found,
      fst r = Normal found ->
      libsqlClient p = None ->
      initializationPromise p = None ->
      init_console env p = [connecting_line env; completed_line] /\
      delivered (snd r) =
      (delivered p ++ bootstrap (entropy p) ++ [SqlArgs "SELECT 1" []])%list).
Proof.
  intros env p log r. split.
  - unfold seed_script, seed, script_bind, script_catch, console_write.
    cbn [fst snd]. rewrite logged_get_refines. fold r.
    destruct r as [[found|e] p1]; cbn [fst snd];
      repeat rewrite <- app_assoc; reflexivity.
  - intros found Hfound Hnone Hp. split.
    + unfold init_console. rewrite Hp, Hnone.
      destruct (facade_resolved _ (fun result => nth_error (rows result) 0)
                  env "SELECT 1" [] p found Hfound) as [c Hc].
      rewrite (getInitializedClient_first env p Hp) in Hc. cbn [fst] in Hc.
      destruct (fst (initializeDatabase env p)) as [u|err];
        [reflexivity|discriminate].
    + exact (first_call_delivered _ (fun result => nth_error (rows result) 0)
               env "SELECT 1" [] p found Hnone Hp Hfound).
Qed.

End CallerProperties.

(** * The theorems at the sample process *)

(** Two callers that both call before the bootstrap has run a single
    statement: one bootstrap, and both get the client. *)
Lemma initialization_runs_once_witness :
  sample_run both_call_first two_callers = Some both_served /\
  w_init_calls both_served <= 1 /\
  w_callers both_served = [Returned sample_client; Returned sample_client] /\
  w_delivered both_served =
    bootstrap (platform := sample_platform) ["first-salt"].
Proof.
  assert (Hrun : sample_run both_call_first two_callers = Some both_served)
    by (vm_compute; reflexivity).
  assert (Hcaller : nth_error (w_callers both_served) 0 =
                    Some (Returned sample_client))
    by (vm_compute; reflexivity).
  destruct (initialization_runs_once (platform := sample_platform) sample_env
              2 (mkConnection [] None) ["first-salt"] both_call_first
              both_served Hrun)
    as [Hcalls [_ [_ [_ Hret]]]].
  split; [exact Hrun|]. split; [exact Hcalls|].
  split; [vm_compute; reflexivity|].
  exact (proj2 (Hret 0 sample_client Hcaller)).
Defined.

(** The client cannot be created: the first caller gets the error, and so
    does the second, who calls after the failure; nothing is retried. *)
Lemma failed_initialization_is_terminal_witness :
  failing_run first_call_fails two_callers_no_file = Some first_failed /\
  w_initializationPromise first_failed = Some 1 /\
  nth_error (w_promises first_failed) 1 = Some (Settled (Throw cannot_open)) /\
  failing_run [Call 1] first_failed = Some second_called /\
  w_init_calls second_called = w_init_calls first_failed /\
  w_delivered second_called = w_delivered first_failed /\
  exists w2,
    failing_step (ResumeCaller 1) second_called = Some w2 /\
    nth_error (w_callers w2) 1 = Some (Threw cannot_open).
Proof.
  assert (Hrun : failing_run first_call_fails two_callers_no_file = Some first_failed)
    by (vm_compute; reflexivity).
  assert (Hp : w_initializationPromise first_failed = Some 1)
    by (vm_compute; reflexivity).
  assert (He : nth_error (w_promises first_failed) 1 =
               Some (Settled (Throw cannot_open)))
    by (vm_compute; reflexivity).
  assert (Hrun' : failing_run [Call 1] first_failed = Some second_called)
    by (vm_compute; reflexivity).
  assert (Hwaits : nth_error (w_callers second_called) 1 = Some (Awaiting 1))
    by (vm_compute; reflexivity).
  destruct (failed_initialization_is_terminal (platform := failing_platform) sample_env
              2 (mkConnection [] None) ["first-salt"] first_call_fails
              first_failed 1 cannot_open [Call 1] second_called
              Hrun Hp He Hrun')
    as [_ [_ [Hcalls [Hsent [_ [Hresume _]]]]]].
  split; [exact Hrun|]. split; [exact Hp|]. split; [exact He|].
  split; [exact Hrun'|]. split; [exact Hcalls|]. split; [exact Hsent|].
  exact (Hresume 1 Hwaits).
Defined.



(** A callback that commits by itself: the coordinator's COMMIT finds no
    active transaction, and [transaction] still returns the result. *)
Lemma commit_failure_benign_or_propagated_witness :
  sample_getInitializedClient fresh_process = (Normal sample_client, ready_process) /\
  sample_execute (SqlText "BEGIN") ready_process = (Normal no_rows, open_process) /\
  sample_run_body commit_inside open_process = (Normal 7, after_commit_inside) /\
  sample_execute (SqlText "COMMIT") after_commit_inside =
    (Throw (ErrorObject "SQLITE_ERROR: cannot commit - no transaction is active"),
     after_second_commit) /\
  sample_transaction commit_inside fresh_process = (Normal 7, after_second_commit).
Proof.
  assert (Hinit : sample_getInitializedClient fresh_process =
                  (Normal sample_client, ready_process))
    by (vm_compute; reflexivity).
  assert (Hbegin : sample_execute (SqlText "BEGIN") ready_process =
                   (Normal no_rows, open_process))
    by (vm_compute; reflexivity).
  assert (Hbody : sample_run_body commit_inside open_process =
                  (Normal 7, after_commit_inside))
    by (vm_compute; reflexivity).
  assert (Hcommit : sample_execute (SqlText "COMMIT") after_commit_inside =
            (Throw (ErrorObject
               "SQLITE_ERROR: cannot commit - no transaction is active"),
             after_second_commit))
    by (vm_compute; reflexivity).
  assert (Hphrase :
            includes "no transaction is active"
              "SQLITE_ERROR: cannot commit - no transaction is active" = true)
    by (vm_compute; reflexivity).
  destruct (commit_failure_benign_or_propagated (platform := sample_platform) nat sample_env
              commit_inside fresh_process sample_client ready_process no_rows
              open_process 7 after_commit_inside Hinit Hbegin Hbody)
    as [_ [Hbenign _]].
  split; [exact Hinit|]. split; [exact Hbegin|]. split; [exact Hbody|].
  split; [exact Hcommit|].
  exact (proj1 (Hbenign _ after_second_commit Hcommit Hphrase)).
Defined.

(** A callback that rolls back by itself and throws: the coordinator's
    ROLLBACK fails, and [transaction] rejects with the callback's error. *)
Lemma rollback_failure_suppressed_witness :
  sample_getInitializedClient fresh_process = (Normal sample_client, ready_process) /\
  sample_execute (SqlText "BEGIN") ready_process = (Normal no_rows, open_process) /\
  sample_run_body rollback_inside_then_throw open_process =
    (Throw (ErrorObject "boom"), after_rollback_inside) /\
  sample_execute (SqlText "ROLLBACK") after_rollback_inside =
    (Throw (ErrorObject "SQLITE_ERROR: cannot rollback - no transaction is active"),
     after_second_rollback) /\
  sample_transaction rollback_inside_then_throw fresh_process =
    (Throw (ErrorObject "boom"), after_second_rollback).
Proof.
  assert (Hinit : sample_getInitializedClient fresh_process =
                  (Normal sample_client, ready_process))
    by (vm_compute; reflexivity).
  assert (Hbegin : sample_execute (SqlText "BEGIN") ready_process =
                   (Normal no_rows, open_process))
    by (vm_compute; reflexivity).
  assert (Hbody : sample_run_body rollback_inside_then_throw open_process =
                  (Throw (ErrorObject "boom"), after_rollback_inside))
    by (vm_compute; reflexivity).
  assert (Hrollback : sample_execute (SqlText "ROLLBACK") after_rollback_inside =
            (Throw (ErrorObject
               "SQLITE_ERROR: cannot rollback - no transaction is active"),
             after_second_rollback))
    by (vm_compute; reflexivity).
  split; [exact Hinit|]. split; [exact Hbegin|]. split; [exact Hbody|].
  split; [exact Hrollback|].
  exact (rollback_failure_suppressed (platform := sample_platform) nat sample_env
           rollback_inside_then_throw fresh_process sample_client ready_process
           no_rows open_process (ErrorObject "boom") after_rollback_inside
           (ErrorObject "SQLITE_ERROR: cannot rollback - no transaction is active")
           after_second_rollback Hinit Hbegin Hbody Hrollback).
Defined.

(** No user has the id "nobody". *)
Lemma get_no_rows_is_null_witness :
  sample_getInitializedClient fresh_process = (Normal sample_client, ready_process) /\
  engine_execute_sqlite (SqlArgs select_user_sql [VString "nobody"])
                        (engine ready_process) =
    (Normal no_rows, engine ready_process) /\
  fst (sample_get select_user_sql [VString "nobody"] fresh_process) = Normal None.
Proof.
  assert (Hinit : sample_getInitializedClient fresh_process =
                  (Normal sample_client, ready_process))
    by (vm_compute; reflexivity).
  assert (Hexec : engine_execute_sqlite
                    (SqlArgs select_user_sql [VString "nobody"])
                    (engine ready_process) =
                  (Normal no_rows, engine ready_process))
    by (vm_compute; reflexivity).
  destruct (get_no_rows_is_null (platform := sample_platform) sample_env
              select_user_sql [VString "nobody"] fresh_process sample_client
              ready_process Hinit) as [Hnull _].
  split; [exact Hinit|]. split; [exact Hexec|].
  exact (Hnull no_rows (engine ready_process) Hexec eq_refl).
Defined.

(** A second process, drawing another salt, on the store seeded by the
    first: the administrator keeps the first hash. *)
Lemma seed_insertion_idempotent_witness :
  libsqlClient restarted_process = None /\
  lookup "users" (current (engine restarted_process)) = Some seeded_users /\
  lookup "products" (current (engine restarted_process)) = Some seeded_products /\
  key_count "id" (VString "admin1") seeded_users = 1 /\
  key_count "sku" (VString "SKU001") seeded_products = 1 /\
  key_count "sku" (VString "SKU002") seeded_products = 1 /\
  key_count "sku" (VString "SKU003") seeded_products = 1 /\
  map (field "password") (records seeded_users) =
    [VString "$2b$10$first-salt$admin123"] /\
  lookup "users"
    (current (engine (snd (sample_initializeDatabase restarted_process)))) =
    Some seeded_users /\
  lookup "products"
    (current (engine (snd (sample_initializeDatabase restarted_process)))) =
    Some seeded_products.
Proof.
  assert (Hu : lookup "users" (current (engine restarted_process)) =
               Some seeded_users) by (vm_compute; reflexivity).
  assert (Hp : lookup "products" (current (engine restarted_process)) =
               Some seeded_products) by (vm_compute; reflexivity).
  assert (Hus : schema seeded_users = users_schema) by (vm_compute; reflexivity).
  assert (Hps : schema seeded_products = products_schema)
    by (vm_compute; reflexivity).
  assert (Ha : key_count "id" (VString "admin1") seeded_users = 1)
    by (vm_compute; reflexivity).
  assert (H1 : key_count "sku" (VString "SKU001") seeded_products = 1)
    by (vm_compute; reflexivity).
  assert (H2 : key_count "sku" (VString "SKU002") seeded_products = 1)
    by (vm_compute; reflexivity).
  assert (H3 : key_count "sku" (VString "SKU003") seeded_products = 1)
    by (vm_compute; reflexivity).
  destruct (seed_insertion_idempotent sample_createClient (list string)
              sample_hashSync sample_env restarted_process seeded_users
              seeded_products eq_refl Hu Hus Ha Hp Hps H1 H2 H3)
    as [Hu' Hp'].
  split; [reflexivity|]. split; [exact Hu|]. split; [exact Hp|].
  split; [exact Ha|]. split; [exact H1|]. split; [exact H2|].
  split; [exact H3|]. split; [vm_compute; reflexivity|].
  split; [exact Hu'|exact Hp'].
Defined.

(** A callback inserts a user and then calls [tx.transaction]. *)
Lemma nested_error_rolls_back_outer_witness :
  sample_getInitializedClient fresh_process = (Normal sample_client, ready_process) /\
  saved (engine ready_process) = None /\
  sample_run_body insert_only
      (snd (sample_execute (SqlText "BEGIN") ready_process)) =
    (Normal tt, after_insert_only) /\
  data_only insert_only /\
  exists p4,
    sample_transaction insert_then_nest fresh_process =
      (Throw nested_error, p4) /\
    delivered p4 = (delivered after_insert_only ++ [SqlText "ROLLBACK"])%list /\
    engine p4 = engine ready_process.
Proof.
  assert (Hinit : sample_getInitializedClient fresh_process =
                  (Normal sample_client, ready_process))
    by (vm_compute; reflexivity).
  assert (Hsaved : saved (engine ready_process) = None)
    by (vm_compute; reflexivity).
  assert (Hbefore : sample_run_body insert_only
                      (snd (sample_execute (SqlText "BEGIN") ready_process)) =
                    (Normal tt, after_insert_only))
    by (vm_compute; reflexivity).
  assert (Hdata : data_only insert_only).
  { apply data_run; [reflexivity|].
    intros [u|e]; simpl; [apply data_return|apply data_raise]. }
  destruct (nested_error_rolls_back_outer Store data_execute
              sample_createClient (list string) sample_hashSync unit nat nat
              sample_env insert_only insert_then_throw (fun v => Return v)
              fresh_process sample_client ready_process tt after_insert_only
              Hinit Hsaved Hbefore)
    as [p4 [Htx [Hsent Hstore]]].
  split; [exact Hinit|]. split; [exact Hsaved|]. split; [exact Hbefore|].
  split; [exact Hdata|].
  exists p4. split; [exact Htx|]. split; [exact Hsent|].
  exact (Hstore Hdata).
Defined.

(** The file cannot be opened: the first call throws that error, and the
    recorded promise is rejected with it. *)
Lemma not_initialized_guard_never_fires_witness :
  initializationPromise fresh_process = None /\
  failing_getInitializedClient fresh_process = (Throw cannot_open, never_opened) /\
  initializationPromise never_opened = Some (Throw cannot_open).
Proof.
  assert (Hp : initializationPromise fresh_process = None)
    by (vm_compute; reflexivity).
  assert (Hget : failing_getInitializedClient fresh_process =
                 (Throw cannot_open, never_opened))
    by (vm_compute; reflexivity).
  split; [exact Hp|]. split; [exact Hget|].
  exact (proj2 (not_initialized_guard_never_fires
                  (platform := failing_platform) sample_env fresh_process
                  cannot_open never_opened Hp Hget)).
Defined.

(** On the outdated file the fifth statement fails: the four table
    definitions and the insert have been sent, the products have not. *)
Lemma bootstrap_stops_at_first_failure_witness :
  libsqlClient outdated_process = None /\
  sample_createClient (databaseUrl sample_env) = Normal sample_client /\
  fst (sample_initializeDatabase outdated_process) = Throw no_email_column /\
  libsqlClient (snd (sample_initializeDatabase outdated_process)) =
    Some sample_client /\
  exists k stmt,
    k < bootstrap_length /\
    nth_error (bootstrap (platform := sample_platform)
                 (entropy outdated_process)) k = Some stmt /\
    delivered (snd (sample_initializeDatabase outdated_process)) =
      (delivered outdated_process ++
       firstn (S k) (bootstrap (platform := sample_platform)
                       (entropy outdated_process)))%list /\
    fst (engine_execute (Platform := sample_platform) stmt
           (execute_in_order (platform := sample_platform)
              (firstn k (bootstrap (platform := sample_platform)
                           (entropy outdated_process)))
              (engine outdated_process)))
    = Throw no_email_column.
Proof.
  assert (Hnone : libsqlClient outdated_process = None)
    by (vm_compute; reflexivity).
  assert (Hcreate : sample_createClient (databaseUrl sample_env) =
                    Normal sample_client)
    by (vm_compute; reflexivity).
  assert (Hfail : fst (sample_initializeDatabase outdated_process) =
                  Throw no_email_column)
    by (vm_compute; reflexivity).
  destruct (bootstrap_stops_at_first_failure (platform := sample_platform)
              sample_env outdated_process sample_client Hnone Hcreate)
    as [Hclient [_ Hstop]].
  split; [exact Hnone|]. split; [exact Hcreate|]. split; [exact Hfail|].
  split; [exact Hclient|].
  exact (Hstop no_email_column Hfail).
Defined.

(** After the failure on the outdated file, a further call of
    [initializeDatabase] resolves and sends nothing. *)
Lemma initializeDatabase_again_after_failure_witness :
  libsqlClient outdated_process = None /\
  sample_createClient (databaseUrl sample_env) = Normal sample_client /\
  sample_initializeDatabase outdated_process =
    (Throw no_email_column, after_failed_bootstrap) /\
  fst (sample_initializeDatabase after_failed_bootstrap) = Normal tt /\
  delivered (snd (sample_initializeDatabase after_failed_bootstrap)) =
    delivered after_failed_bootstrap /\
  engine (snd (sample_initializeDatabase after_failed_bootstrap)) =
    engine after_failed_bootstrap.
Proof.
  assert (Hnone : libsqlClient outdated_process = None)
    by (vm_compute; reflexivity).
  assert (Hcreate : sample_createClient (databaseUrl sample_env) =
                    Normal sample_client)
    by (vm_compute; reflexivity).
  assert (Hfail : sample_initializeDatabase outdated_process =
                  (Throw no_email_column, after_failed_bootstrap))
    by (vm_compute; reflexivity).
  split; [exact Hnone|]. split; [exact Hcreate|]. split; [exact Hfail|].
  exact (initializeDatabase_again_after_failure (platform := sample_platform)
           sample_env outdated_process sample_client no_email_column
           after_failed_bootstrap Hnone Hcreate Hfail).
Defined.

(** The first [db.get] of the fresh process: the eight statements, then
    the query. *)
Lemma resolved_call_has_bootstrapped_witness :
  libsqlClient fresh_process = None /\
  initializationPromise fresh_process = None /\
  fst (sample_get select_user_sql [VString "nobody"] fresh_process) =
    Normal None /\
  delivered (snd (sample_get select_user_sql [VString "nobody"] fresh_process)) =
    (delivered fresh_process ++
     bootstrap (platform := sample_platform) (entropy fresh_process) ++
     [SqlArgs select_user_sql [VString "nobody"]])%list.
Proof.
  assert (Hnone : libsqlClient fresh_process = None)
    by (vm_compute; reflexivity).
  assert (Hp : initializationPromise fresh_process = None)
    by (vm_compute; reflexivity).
  assert (Hget : fst (sample_get select_user_sql [VString "nobody"]
                        fresh_process) = Normal None)
    by (vm_compute; reflexivity).
  destruct (resolved_call_has_bootstrapped (platform := sample_platform)
              sample_env select_user_sql [VString "nobody"] fresh_process
              Hnone Hp) as [_ [Hfound _]].
  split; [exact Hnone|]. split; [exact Hp|]. split; [exact Hget|].
  exact (Hfound None Hget).
Defined.

(** The transaction that inserts one user: BEGIN, the insert, COMMIT. *)
Lemma transaction_brackets_callback_witness :
  sample_getInitializedClient fresh_process = (Normal sample_client, ready_process) /\
  sample_execute (SqlText "BEGIN") ready_process = (Normal no_rows, open_process) /\
  exists sent,
    Forall (fun stmt => exists sql params, stmt = SqlArgs sql params) sent /\
    delivered (snd (sample_run_body insert_only open_process)) =
      (delivered ready_process ++ SqlText "BEGIN" :: sent)%list /\
    delivered (snd (sample_transaction insert_only fresh_process)) =
      (delivered ready_process ++ SqlText "BEGIN" :: sent ++
       match fst (sample_run_body insert_only open_process),
             fst (sample_transaction insert_only fresh_process) with
       | Throw _, _ => [SqlText "ROLLBACK"]
       | Normal _, Normal _ => [SqlText "COMMIT"]
       | Normal _, Throw _ => [SqlText "COMMIT"; SqlText "ROLLBACK"]
       end)%list.
Proof.
  assert (Hinit : sample_getInitializedClient fresh_process =
                  (Normal sample_client, ready_process))
    by (vm_compute; reflexivity).
  assert (Hbegin : sample_execute (SqlText "BEGIN") ready_process =
                   (Normal no_rows, open_process))
    by (vm_compute; reflexivity).
  split; [exact Hinit|]. split; [exact Hbegin|].
  exact (transaction_brackets_callback (platform := sample_platform) unit
           sample_env insert_only fresh_process sample_client ready_process
           no_rows open_process Hinit Hbegin).
Defined.

(** A transaction started while one is open: refused at its BEGIN. *)
Lemma begin_failure_ends_transaction_witness :
  sample_getInitializedClient open_process = (Normal sample_client, open_process) /\
  sample_execute (SqlText "BEGIN") open_process =
    (Throw transaction_open_error, refused_process) /\
  sample_transaction insert_only open_process =
    (Throw transaction_open_error, refused_process) /\
  delivered refused_process = (delivered open_process ++ [SqlText "BEGIN"])%list.
Proof.
  assert (Hinit : sample_getInitializedClient open_process =
                  (Normal sample_client, open_process))
    by (vm_compute; reflexivity).
  assert (Hbegin : sample_execute (SqlText "BEGIN") open_process =
                   (Throw transaction_open_error, refused_process))
    by (vm_compute; reflexivity).
  split; [exact Hinit|]. split; [exact Hbegin|].
  exact (begin_failure_ends_transaction (platform := sample_platform) unit
           sample_env insert_only open_process sample_client open_process
           transaction_open_error refused_process Hinit Hbegin).
Defined.

(** The inserted user is found after the transaction. *)
Lemma returning_body_is_committed_witness :
  sample_getInitializedClient fresh_process = (Normal sample_client, ready_process) /\
  saved (engine ready_process) = None /\
  sample_run_body insert_only
      (snd (sample_execute (SqlText "BEGIN") ready_process)) =
    (Normal tt, after_insert_only) /\
  data_only insert_only /\
  exists p4,
    sample_transaction insert_only fresh_process = (Normal tt, p4) /\
    delivered p4 = (delivered after_insert_only ++ [SqlText "COMMIT"])%list /\
    engine p4 = mkConnection (current (engine after_insert_only)) None /\
    exists found,
      fst (sample_get select_user_sql [VString "u2"] p4) = Normal (Some found).
Proof.
  assert (Hinit : sample_getInitializedClient fresh_process =
                  (Normal sample_client, ready_process))
    by (vm_compute; reflexivity).
  assert (Hsaved : saved (engine ready_process) = None)
    by (vm_compute; reflexivity).
  assert (Hbody : sample_run_body insert_only
                    (snd (sample_execute (SqlText "BEGIN") ready_process)) =
                  (Normal tt, after_insert_only))
    by (vm_compute; reflexivity).
  assert (Hdata : data_only insert_only).
  { apply data_run; [reflexivity|].
    intros [u|e]; simpl; [apply data_return|apply data_raise]. }
  destruct (returning_body_is_committed Store data_execute
              sample_createClient (list string) sample_hashSync unit sample_env
              insert_only fresh_process sample_client ready_process tt
              after_insert_only Hinit Hsaved Hbody Hdata)
    as [p4 [Htx [Hsent [Hengine Hget]]]].
  split; [exact Hinit|]. split; [exact Hsaved|]. split; [exact Hbody|].
  split; [exact Hdata|].
  exists p4. split; [exact Htx|]. split; [exact Hsent|].
  split; [exact Hengine|].
  eexists.
  refine (eq_trans (Hget select_user_sql [VString "u2"] eq_refl) _).
  vm_compute. reflexivity.
Defined.

(** No transaction is open after the transaction that inserts a user;
    the same transaction started while one is open is refused, and the
    open one stays. *)
Lemma transaction_leaves_scope_as_found_witness :
  sample_getInitializedClient fresh_process = (Normal sample_client, ready_process) /\
  sample_getInitializedClient open_process = (Normal sample_client, open_process) /\
  data_only insert_only /\
  saved (engine (snd (sample_transaction insert_only fresh_process))) = None /\
  fst (sample_transaction insert_only open_process) =
    Throw transaction_open_error /\
  engine (snd (sample_transaction insert_only open_process)) =
    engine open_process.
Proof.
  assert (Hinit : sample_getInitializedClient fresh_process =
                  (Normal sample_client, ready_process))
    by (vm_compute; reflexivity).
  assert (Hopen : sample_getInitializedClient open_process =
                  (Normal sample_client, open_process))
    by (vm_compute; reflexivity).
  assert (Hdata : data_only insert_only).
  { apply data_run; [reflexivity|].
    intros [u|e]; simpl; [apply data_return|apply data_raise]. }
  assert (Hsaved : saved (engine open_process) =
                   Some (current (engine ready_process)))
    by (vm_compute; reflexivity).
  split; [exact Hinit|]. split; [exact Hopen|]. split; [exact Hdata|].
  split.
  - exact (proj1 (transaction_leaves_scope_as_found Store data_execute
                    sample_createClient (list string) sample_hashSync unit
                    sample_env insert_only fresh_process sample_client
                    ready_process Hinit Hdata)).
  - exact (proj2 (transaction_leaves_scope_as_found Store data_execute
                    sample_createClient (list string) sample_hashSync unit
                    sample_env insert_only open_process sample_client
                    open_process Hopen Hdata) _ Hsaved).
Defined.

(** Two callers that both call first end where one uninterrupted call
    ends. *)
Lemma every_schedule_agrees_witness :
  sample_run both_call_first two_callers = Some both_served /\
  nth_error (w_callers both_served) 1 = Some (Returned sample_client) /\
  same_state (platform := sample_platform) both_served
    (snd (sample_getInitializedClient
            (mkProcess None None (mkConnection [] None) ["first-salt"] [] 0))).
Proof.
  assert (Hrun : sample_run both_call_first two_callers = Some both_served)
    by (vm_compute; reflexivity).
  assert (Hcaller : nth_error (w_callers both_served) 1 =
                    Some (Returned sample_client))
    by (vm_compute; reflexivity).
  split; [exact Hrun|]. split; [exact Hcaller|].
  exact (proj2 (every_schedule_agrees (platform := sample_platform) sample_env
                  2 (mkConnection [] None) ["first-salt"] both_call_first
                  both_served 1 (Returned sample_client) Hrun Hcaller
                  (or_introl (ex_intro _ sample_client eq_refl)))).
Defined.

(** Two callers waiting while the bootstrap is at its second statement
    can both be answered. *)
Lemma every_caller_is_answered_witness :
  sample_run both_call_one_resume two_callers = Some both_waiting /\
  w_callers both_waiting = [Awaiting 1; Awaiting 1] /\
  exists evs' w',
    sample_run evs' both_waiting = Some w' /\
    forall i k,
      nth_error (w_callers w') i = Some k ->
      k = Idle \/ (exists c, k = Returned c) \/ (exists e, k = Threw e).
Proof.
  assert (Hrun : sample_run both_call_one_resume two_callers = Some both_waiting)
    by (vm_compute; reflexivity).
  split; [exact Hrun|]. split; [vm_compute; reflexivity|].
  exact (every_caller_is_answered (platform := sample_platform) sample_env
           2 (mkConnection [] None) ["first-salt"] both_call_one_resume
           both_waiting Hrun).
Defined.

(** The first run of the fresh process. *)
Lemma first_run_resolves_and_seeds_witness :
  libsqlClient fresh_process = None /\
  sample_createClient (databaseUrl sample_env) = Normal sample_client /\
  engine fresh_process = mkConnection [] None /\
  fst (sample_initializeDatabase fresh_process) = Normal tt /\
  lookup "users" (current (engine (snd (sample_initializeDatabase fresh_process))))
  = Some seeded_users.
Proof.
  assert (Hnone : libsqlClient fresh_process = None)
    by (vm_compute; reflexivity).
  assert (Hcreate : sample_createClient (databaseUrl sample_env) =
                    Normal sample_client)
    by (vm_compute; reflexivity).
  assert (Hempty : engine fresh_process = mkConnection [] None)
    by (vm_compute; reflexivity).
  destruct (first_run_resolves_and_seeds sample_createClient (list string)
              sample_hashSync sample_env fresh_process sample_client
              Hnone Hcreate Hempty) as [Hok Hengine].
  split; [exact Hnone|]. split; [exact Hcreate|]. split; [exact Hempty|].
  split; [exact Hok|].
  refine (eq_trans (f_equal (fun conn => lookup "users" (current conn))
                            Hengine) _).
  vm_compute. reflexivity.
Defined.

(** On the initialized process [db.get] is [txDb.get] on its client. *)
Lemma facade_uses_the_connection_of_txDb_witness :
  initializationPromise ready_process = Some (Normal tt) /\
  libsqlClient ready_process = Some sample_client /\
  sample_get select_user_sql [VString "admin1"] ready_process =
  txDb_get (platform := sample_platform) sample_client select_user_sql
           [VString "admin1"] ready_process.
Proof.
  assert (Hp : initializationPromise ready_process = Some (Normal tt))
    by (vm_compute; reflexivity).
  assert (Hc : libsqlClient ready_process = Some sample_client)
    by (vm_compute; reflexivity).
  split; [exact Hp|]. split; [exact Hc|].
  exact (proj1 (proj2 (facade_uses_the_connection_of_txDb
                         (platform := sample_platform) sample_env
                         ready_process tt sample_client select_user_sql
                         [VString "admin1"] Hp Hc))).
Defined.

(** A callback that commits by itself before it throws keeps its row:
    the ROLLBACK of [transaction] finds no transaction and its failure
    is dropped. *)
Lemma committing_body_keeps_row :
  sample_transaction insert_commit_then_throw fresh_process =
    (Throw (ErrorObject "boom"), after_commit_then_throw) /\
  last (delivered after_commit_then_throw) (SqlText "") = SqlText "ROLLBACK" /\
  fst (sample_get select_user_sql [VString "u2"] ready_process) = Normal None /\
  fst (sample_get select_user_sql [VString "u2"] after_commit_then_throw) =
    Normal (Some [("id", VString "u2"); ("email", VString "mary@inventory.com");
                  ("password", VString "secret"); ("name", VString "Mary");
                  ("role", VString "manager")]).
Proof.
  repeat split; vm_compute; reflexivity.
Qed.

(** A callback that inserts a row, commits by itself and then calls
    [tx.transaction]: the outer [transaction] rejects with the
    nested-transaction error and sends ROLLBACK, and the row stays. *)
Lemma nested_after_commit_keeps_row :
  sample_transaction insert_commit_then_nest fresh_process =
    (Throw nested_error, after_commit_then_nest) /\
  last (delivered after_commit_then_nest) (SqlText "") = SqlText "ROLLBACK" /\
  fst (sample_get select_user_sql [VString "u2"] ready_process) = Normal None /\
  fst (sample_get select_user_sql [VString "u2"] after_commit_then_nest) =
    Normal (Some [("id", VString "u2"); ("email", VString "mary@inventory.com");
                  ("password", VString "secret"); ("name", VString "Mary");
                  ("role", VString "manager")]).
Proof.
  repeat split; vm_compute; reflexivity.
Qed.
